(** * movieweb106: the JSON document store and its callers

    A shallow embedding of [DataManager/json_data_manager.py] (the class
    [JSONDataManager]) and of the routes of [app.py] that change the
    document: [add_user], [add_movie] with [fetch_movie_info], and
    [update_movie].

    - Part 1 models the Python values the program handles and the builtins
      it calls on them ([==], [int], [str], [float], [max], [dict.update]).
    - Part 2 models the [json] codec the store uses for its file:
      [json.dump] as a printer to text, [json.load] as a parser of text.
    - Part 3 is the data manager itself, method by method, in a small
      state-and-exception monad over the file, and the routes.
    - Part 4 holds the predicates of the statements; Parts 5 and 6 prove
      the facts about the codec and the properties of the data manager;
      Parts 7 to 9 prove how the methods compose, what the routes do with
      them, and that ids are taken as integers or as text. *)

From Stdlib Require Import String Ascii.
From Stdlib Require Import ZArith NArith List Bool Lia.
From Stdlib Require Import DecimalFacts DecimalN.
Import ListNotations.

Local Open Scope string_scope.
Local Open Scope Z_scope.
Local Open Scope list_scope.

(** Concatenation of texts, apart from that of lists. *)
Infix "+++" := String.append (right associativity, at level 60).

(* ===================================================================== *)
(** * Part 1. Python values and builtins *)
(* ===================================================================== *)

(** ** Exceptions and results *)

(** The exception classes the modelled code can raise.  [NotModelled] is
    not a Python exception: a builtin returns it where this embedding does
    not cover what Python does (arithmetic and ordering on floats, ordering
    of lists, code points above 255). *)
Inductive exn : Type :=
| KeyError
| TypeError
| ValueError
| AttributeError
| OverflowError
| JSONDecodeError
| NotModelled.

Inductive result (A : Type) : Type :=
| Ok (a : A)
| Raise (e : exn).

Arguments Ok {A} a.
Arguments Raise {A} e.

Definition rbind {A B : Type} (r : result A) (k : A -> result B) : result B :=
  match r with
  | Ok a => k a
  | Raise e => Raise e
  end.

Declare Scope result_scope.
Delimit Scope result_scope with result.
Notation "x <- r ;; k" := (rbind r (fun x => k))
  (at level 61, r at next level, right associativity) : result_scope.

(** ** Floats

    The program never computes with floats: it obtains them from text
    ([float(...)] of a string, a number of the document) and stores them.
    A float is modelled by what CPython's [repr] prints of it, in the form
    the conversion routine returns it: a sign, the shortest string of
    significant digits and the position of the decimal point, so that the
    value is [0.d1d2...dn * 10^decpt].  Zero is the digit string [0] with
    [decpt = 1].  Reading a literal keeps its decimal value exactly; CPython
    does the same for a literal of at most 15 significant digits within the
    range of a double, and for every text that [repr] printed. *)
Inductive pyfloat : Type :=
| FNan
| FInf (neg : bool)
| FDec (neg : bool) (ds : list digits) (decpt : Z).

(** ** Values *)

(** A [str] is a sequence of code points; the model keeps the code points
    below 256, one [ascii] each.  A [dict] keeps its keys in insertion
    order; the keys the program uses are strings. *)
Unset Elimination Schemes.
Inductive pyval : Type :=
| PNone
| PBool (b : bool)
| PInt (n : Z)
| PFloat (f : pyfloat)
| PStr (s : string)
| PList (l : list pyval)
| PTuple (l : list pyval)
| PDict (d : list (string * pyval)).
Set Elimination Schemes.

(** ** Characters and digits *)

Definition dquote : ascii := "034"%char.
Definition squote : ascii := "039"%char.
Definition backslash : ascii := "092"%char.

Definition code (c : ascii) : N := N_of_ascii c.

Definition digit_char (d : digits) : ascii :=
  match d with
  | d0 => "0" | d1 => "1" | d2 => "2" | d3 => "3" | d4 => "4"
  | d5 => "5" | d6 => "6" | d7 => "7" | d8 => "8" | d9 => "9"
  end%char.

Definition char_digit (c : ascii) : option digits :=
  match c with
  | "0" => Some d0 | "1" => Some d1 | "2" => Some d2 | "3" => Some d3
  | "4" => Some d4 | "5" => Some d5 | "6" => Some d6 | "7" => Some d7
  | "8" => Some d8 | "9" => Some d9 | _ => None
  end%char.

Definition is_digit (c : ascii) : bool :=
  match char_digit c with Some _ => true | None => false end.

Fixpoint print_digits (ds : list digits) : string :=
  match ds with
  | [] => EmptyString
  | d :: ds' => String (digit_char d) (print_digits ds')
  end.

(** The longest run of digits at the head of a text, and what follows. *)
Fixpoint scan_digits (s : string) : list digits * string :=
  match s with
  | EmptyString => ([], s)
  | String c s' =>
      match char_digit c with
      | Some d => let (ds, r) := scan_digits s' in (d :: ds, r)
      | None => ([], s)
      end
  end.

Definition digits_of_N (n : N) : list digits := to_list (N.to_uint n).
Definition N_of_digits (ds : list digits) : N := N.of_uint (of_list ds).

Definition digits_of_Z (z : Z) : list digits := digits_of_N (Z.abs_N z).

Definition Z_of_digits (neg : bool) (ds : list digits) : Z :=
  if neg then - Z.of_N (N_of_digits ds) else Z.of_N (N_of_digits ds).

(** [repr] of an [int]. *)
Definition int_repr (z : Z) : string :=
  if z <? 0 then String "-" (print_digits (digits_of_Z z))
  else print_digits (digits_of_Z z).

(** ** [repr] and construction of floats *)

Definition zeros (n : nat) : list digits := repeat d0 n.

Fixpoint strip_zeros (ds : list digits) : list digits :=
  match ds with
  | d0 :: ds' => strip_zeros ds'
  | _ => ds
  end.

Definition strip_trailing_zeros (ds : list digits) : list digits :=
  rev (strip_zeros (rev ds)).

(** The float of a decimal literal: integer digits [ip], fraction digits
    [fp] and exponent [ex].  Leading and trailing zeros carry no value. *)
Definition mk_float (neg : bool) (ip fp : list digits) (ex : Z) : pyfloat :=
  let all := ip ++ fp in
  let lead := strip_zeros all in
  let pt := Z.of_nat (length ip) + ex
            - Z.of_nat (length all - length lead) in
  match strip_trailing_zeros lead with
  | [] => FDec neg [d0] 1
  | ds => FDec neg ds pt
  end.

Definition float_zero : pyfloat := FDec false [d0] 1.

(** The exponent of [repr]: a sign and at least two digits. *)
Definition exp_repr (e : Z) : string :=
  String (if e <? 0 then "-"%char else "+"%char)
    (match digits_of_Z e with
     | [d] => print_digits [d0; d]
     | ds => print_digits ds
     end).

(** [float.__repr__]: positional notation when the decimal point falls
    within [-4 < decpt <= 16], else scientific notation. *)
Definition float_repr (f : pyfloat) : string :=
  match f with
  | FNan => "nan"
  | FInf false => "inf"
  | FInf true => "-inf"
  | FDec neg ds decpt =>
      let n := Z.of_nat (length ds) in
      (if neg then "-" else EmptyString) +++
      (if (decpt <=? -4) || (16 <? decpt) then
         print_digits (firstn 1 ds) +++
         (match skipn 1 ds with
          | [] => EmptyString
          | rest => String "." (print_digits rest)
          end) +++
         String "e" (exp_repr (decpt - 1))
       else if decpt <=? 0 then
         "0." +++ print_digits (zeros (Z.to_nat (- decpt))) +++ print_digits ds
       else if decpt <? n then
         print_digits (firstn (Z.to_nat decpt) ds) +++
         String "." (print_digits (skipn (Z.to_nat decpt) ds))
       else
         print_digits ds +++ print_digits (zeros (Z.to_nat (decpt - n))) +++ ".0")
  end.

(** The integer a float is worth, when it is worth one. *)
Definition float_int_value (f : pyfloat) : option Z :=
  match f with
  | FDec neg ds decpt =>
      let n := Z.of_nat (length ds) in
      if N.eqb (N_of_digits ds) 0 then Some 0
      else if n <=? decpt
           then Some (Z_of_digits neg (ds ++ zeros (Z.to_nat (decpt - n))))
           else None
  | _ => None
  end.

(** [float(n)] of an integer: exact up to [2^53]. *)
Definition float_of_Z (z : Z) : result pyfloat :=
  if Z.abs z <=? 2 ^ 53 then Ok (mk_float (z <? 0) (digits_of_Z z) [] 0)
  else Raise NotModelled.

(** Equality of two floats: [nan] equals nothing, the two zeros are equal. *)
Definition digits_eqb (a b : list digits) : bool :=
  String.eqb (print_digits a) (print_digits b).

Definition float_eqb (f g : pyfloat) : bool :=
  match f, g with
  | FInf a, FInf b => Bool.eqb a b
  | FDec a ds p, FDec b es q =>
      if N.eqb (N_of_digits ds) 0 then N.eqb (N_of_digits es) 0
      else Bool.eqb a b && digits_eqb ds es && (p =? q)
  | _, _ => false
  end.

(** ** Whitespace and the grammar of numeric strings *)

(** What [str.isspace] accepts among the code points below 256. *)
Definition is_py_space (c : ascii) : bool :=
  let n := code c in
  ((9 <=? n) && (n <=? 13) || (28 <=? n) && (n <=? 32)
   || (n =? 133) || (n =? 160))%N.

Fixpoint lstrip (s : string) : string :=
  match s with
  | String c s' => if is_py_space c then lstrip s' else s
  | EmptyString => s
  end.

Definition string_rev (s : string) : string :=
  string_of_list_ascii (rev (list_ascii_of_string s)).

Definition strip (s : string) : string :=
  string_rev (lstrip (string_rev (lstrip s))).

(** Digits that single underscores may separate, as [int] and [float]
    accept them; called after a first digit has been seen. *)
Fixpoint scan_digitpart (s : string) : list digits * string :=
  match s with
  | EmptyString => ([], s)
  | String c s' =>
      match char_digit c with
      | Some d => let (ds, r) := scan_digitpart s' in (d :: ds, r)
      | None =>
          if Ascii.eqb c "_" then
            match s' with
            | String c2 s'' =>
                match char_digit c2 with
                | Some d => let (ds, r) := scan_digitpart s'' in (d :: ds, r)
                | None => ([], s)
                end
            | EmptyString => ([], s)
            end
          else ([], s)
      end
  end.

(** An optional sign: whether it is a minus, and what follows. *)
Definition scan_sign (s : string) : bool * string :=
  match s with
  | String "-" s' => (true, s')
  | String "+" s' => (false, s')
  | _ => (false, s)
  end.

(** [int(s)] of a string, in base 10. *)
Definition int_of_str (s : string) : result Z :=
  let (neg, s1) := scan_sign (strip s) in
  match s1 with
  | String c _ =>
      if is_digit c then
        match scan_digitpart s1 with
        | (ds, EmptyString) => Ok (Z_of_digits neg ds)
        | _ => Raise ValueError
        end
      else Raise ValueError
  | EmptyString => Raise ValueError
  end.

Definition lower (c : ascii) : ascii :=
  let n := code c in
  if ((65 <=? n) && (n <=? 90))%N then ascii_of_N (n + 32) else c.

Fixpoint lower_string (s : string) : string :=
  match s with
  | String c s' => String (lower c) (lower_string s')
  | EmptyString => EmptyString
  end.

Definition starts_digit (s : string) : bool :=
  match s with
  | String c _ => is_digit c
  | EmptyString => false
  end.

(** The exponent of a float literal, when one stands at the head of [s]:
    its value and what follows.  Without digits there is no exponent. *)
Definition scan_exponent (digitpart : string -> list digits * string)
    (s : string) : option (Z * string) :=
  match s with
  | String c s1 =>
      if Ascii.eqb (lower c) "e" then
        let (neg, s2) := scan_sign s1 in
        if starts_digit s2 then
          let (ds, r) := digitpart s2 in Some (Z_of_digits neg ds, r)
        else None
      else None
  | EmptyString => None
  end.

(** [float(s)] of a string. *)
Definition float_of_str (s : string) : result pyfloat :=
  let (neg, s1) := scan_sign (strip s) in
  let w := lower_string s1 in
  if String.eqb w "inf" || String.eqb w "infinity" then Ok (FInf neg)
  else if String.eqb w "nan" then Ok FNan
  else
    let (ip, s2) := if starts_digit s1 then scan_digitpart s1 else ([], s1) in
    let (fp, s3) :=
      match s2 with
      | String "." s2' =>
          if starts_digit s2' then scan_digitpart s2' else ([], s2')
      | _ => ([], s2)
      end in
    match ip ++ fp with
    | [] => Raise ValueError
    | _ =>
        match scan_exponent scan_digitpart s3 with
        | Some (ex, EmptyString) => Ok (mk_float neg ip fp ex)
        | Some _ => Raise ValueError
        | None =>
            match s3 with
            | EmptyString => Ok (mk_float neg ip fp 0)
            | _ => Raise ValueError
            end
        end
    end.

(** ** Dictionaries *)

Fixpoint dict_get (d : list (string * pyval)) (k : string) : option pyval :=
  match d with
  | [] => None
  | (k', v) :: d' => if String.eqb k' k then Some v else dict_get d' k
  end.

(** [d[k] = v]: a key already present keeps its place. *)
Fixpoint dict_set (d : list (string * pyval)) (k : string) (v : pyval)
  : list (string * pyval) :=
  match d with
  | [] => [(k, v)]
  | (k', v') :: d' =>
      if String.eqb k' k then (k, v) :: d' else (k', v') :: dict_set d' k v
  end.

(** [d.update(u)] for a dict [u]: its items are set in order. *)
Definition dict_update (d u : list (string * pyval)) : list (string * pyval) :=
  fold_left (fun acc kv => dict_set acc (fst kv) (snd kv)) u d.

(** ** Equality *)

Definition num_value (v : pyval) : option Z :=
  match v with
  | PBool b => Some (if b then 1 else 0)
  | PInt n => Some n
  | _ => None
  end.

(** [a == b].  An [int] and a [float] are equal when the float is worth
    that integer (the decimal value stands for the float's: exact below
    [2^53]). *)
Fixpoint py_eq (a b : pyval) {struct a} : bool :=
  let fix list_eq (l m : list pyval) {struct l} : bool :=
    match l, m with
    | [], [] => true
    | x :: l', y :: m' => py_eq x y && list_eq l' m'
    | _, _ => false
    end in
  let fix dict_sub (d e : list (string * pyval)) {struct d} : bool :=
    match d with
    | [] => true
    | (k, v) :: d' =>
        match dict_get e k with
        | Some w => py_eq v w && dict_sub d' e
        | None => false
        end
    end in
  match a, b with
  | PNone, PNone => true
  | PStr s, PStr t => String.eqb s t
  | PList l, PList m => list_eq l m
  | PTuple l, PTuple m => list_eq l m
  | PDict d, PDict e => Nat.eqb (length d) (length e) && dict_sub d e
  | PFloat f, PFloat g => float_eqb f g
  | PFloat f, (PInt _ | PBool _) =>
      match float_int_value f, num_value b with
      | Some x, Some y => x =? y
      | _, _ => false
      end
  | (PInt _ | PBool _), PFloat g =>
      match num_value a, float_int_value g with
      | Some x, Some y => x =? y
      | _, _ => false
      end
  | (PInt _ | PBool _), (PInt _ | PBool _) =>
      match num_value a, num_value b with
      | Some x, Some y => x =? y
      | _, _ => false
      end
  | _, _ => false
  end.

(** ** Conversions *)

(** [int(v)]. *)
Definition py_int (v : pyval) : result Z :=
  match v with
  | PInt n => Ok n
  | PBool b => Ok (if b then 1 else 0)
  | PStr s => int_of_str s
  | PFloat FNan => Raise ValueError
  | PFloat (FInf _) => Raise OverflowError
  | PFloat (FDec neg ds decpt) =>
      if N.eqb (N_of_digits ds) 0 then Ok 0
      else if decpt <=? 0 then Ok 0
      else if 16 <? decpt then Raise NotModelled
      else
        let z := Z_of_digits neg
                   (firstn (Z.to_nat decpt)
                      (ds ++ zeros (Z.to_nat decpt - length ds))) in
        if Z.abs z <=? 2 ^ 53 then Ok z else Raise NotModelled
  | _ => Raise TypeError
  end.

(** [float(v)]. *)
Definition py_float (v : pyval) : result pyfloat :=
  match v with
  | PFloat f => Ok f
  | PInt n => float_of_Z n
  | PBool b => Ok (if b then FDec false [d1] 1 else float_zero)
  | PStr s => float_of_str s
  | _ => Raise TypeError
  end.

(** ** [repr] and [str] *)

Definition hex_char (n : N) : ascii :=
  if (n <? 10)%N then ascii_of_N (48 + n) else ascii_of_N (87 + n).

Fixpoint string_mem (c : ascii) (s : string) : bool :=
  match s with
  | String c' s' => Ascii.eqb c c' || string_mem c s'
  | EmptyString => false
  end.

(** What [str.isprintable] accepts among the code points below 256. *)
Definition is_printable (c : ascii) : bool :=
  let n := code c in
  ((32 <=? n) && (n <=? 126) || (161 <=? n) && negb (n =? 173))%N.

Definition repr_char (q c : ascii) : string :=
  if Ascii.eqb c q || Ascii.eqb c backslash then String backslash (String c EmptyString)
  else if (code c =? 9)%N then String backslash "t"
  else if (code c =? 10)%N then String backslash "n"
  else if (code c =? 13)%N then String backslash "r"
  else if is_printable c then String c EmptyString
  else String backslash
         (String "x" (String (hex_char (code c / 16))
                        (String (hex_char (code c mod 16)) EmptyString))).

Fixpoint repr_chars (q : ascii) (s : string) : string :=
  match s with
  | String c s' => repr_char q c +++ repr_chars q s'
  | EmptyString => EmptyString
  end.

(** [repr] of a [str]: single quotes, unless the text has one and no
    double quote. *)
Definition str_repr (s : string) : string :=
  let q := if string_mem squote s && negb (string_mem dquote s)
           then dquote else squote in
  String q (repr_chars q s +++ String q EmptyString).

Fixpoint py_repr (v : pyval) : string :=
  let fix items (l : list pyval) : list string :=
    match l with
    | [] => []
    | x :: l' => py_repr x :: items l'
    end in
  let fix entries (d : list (string * pyval)) : list string :=
    match d with
    | [] => []
    | (k, x) :: d' => (str_repr k +++ ": " +++ py_repr x) :: entries d'
    end in
  match v with
  | PNone => "None"
  | PBool true => "True"
  | PBool false => "False"
  | PInt n => int_repr n
  | PFloat f => float_repr f
  | PStr s => str_repr s
  | PList l => "[" +++ String.concat ", " (items l) +++ "]"
  | PTuple [x] => "(" +++ py_repr x +++ ",)"
  | PTuple l => "(" +++ String.concat ", " (items l) +++ ")"
  | PDict d => "{" +++ String.concat ", " (entries d) +++ "}"
  end.

(** [str(v)]. *)
Definition py_str (v : pyval) : string :=
  match v with
  | PStr s => s
  | _ => py_repr v
  end.

(** ** Subscripts, iteration and the other operations of containers *)

(** [v[k]] for a string [k]. *)
Definition py_getitem (v : pyval) (k : string) : result pyval :=
  match v with
  | PDict d =>
      match dict_get d k with
      | Some x => Ok x
      | None => Raise KeyError
      end
  | _ => Raise TypeError
  end.

Fixpoint chars (s : string) : list pyval :=
  match s with
  | String c s' => PStr (String c EmptyString) :: chars s'
  | EmptyString => []
  end.

(** What [for x in v] goes through. *)
Definition py_iter (v : pyval) : result (list pyval) :=
  match v with
  | PList l | PTuple l => Ok l
  | PDict d => Ok (map (fun kv => PStr (fst kv)) d)
  | PStr s => Ok (chars s)
  | _ => Raise TypeError
  end.

(** [len(v)]. *)
Definition py_len (v : pyval) : result Z :=
  match v with
  | PList l | PTuple l => Ok (Z.of_nat (length l))
  | PDict d => Ok (Z.of_nat (length d))
  | PStr s => Ok (Z.of_nat (String.length s))
  | _ => Raise TypeError
  end.

(** [v.append(x)]: only a list has the method. *)
Definition py_append (v x : pyval) : result pyval :=
  match v with
  | PList l => Ok (PList (l ++ [x]))
  | _ => Raise AttributeError
  end.

(** [k in v] for a string [k]. *)
Definition py_contains (k : string) (v : pyval) : result bool :=
  match v with
  | PDict d => Ok (match dict_get d k with Some _ => true | None => false end)
  | PList l | PTuple l => Ok (existsb (fun x => py_eq (PStr k) x) l)
  | PStr _ => Raise NotModelled
  | _ => Raise TypeError
  end.

(** The container [c] with its elements replaced by [l], as mutation in
    place leaves it.  The elements of a [dict] or a [str] in iteration are
    strings: they have nothing to mutate. *)
Definition rebuild (c : pyval) (l : list pyval) : pyval :=
  match c with
  | PList _ => PList l
  | PTuple _ => PTuple l
  | _ => c
  end.

(** [d.update(u)]. *)
Definition py_update (d : list (string * pyval)) (u : pyval)
  : result (list (string * pyval)) :=
  match u with
  | PDict e => Ok (dict_update d e)
  | PList _ | PTuple _ | PStr _ => Raise NotModelled
  | _ => Raise TypeError
  end.

(** [a > b]. *)
Definition py_gt (a b : pyval) : result bool :=
  match a, b with
  | (PInt _ | PBool _), (PInt _ | PBool _) =>
      match num_value a, num_value b with
      | Some x, Some y => Ok (y <? x)
      | _, _ => Raise TypeError
      end
  | PStr s, PStr t => Ok (String.ltb t s)
  | PFloat _, (PInt _ | PBool _ | PFloat _) => Raise NotModelled
  | (PInt _ | PBool _), PFloat _ => Raise NotModelled
  | PList _, PList _ | PTuple _, PTuple _ => Raise NotModelled
  | _, _ => Raise TypeError
  end.

(** [v + 1]. *)
Definition py_add1 (v : pyval) : result pyval :=
  match v with
  | PInt n => Ok (PInt (n + 1))
  | PBool b => Ok (PInt ((if b then 1 else 0) + 1))
  | PFloat _ => Raise NotModelled
  | _ => Raise TypeError
  end.

(** [v.get(k)]: only a dict has the method. *)
Definition py_get (v : pyval) (k : string) : result pyval :=
  match v with
  | PDict d =>
      Ok (match dict_get d k with Some x => x | None => PNone end)
  | _ => Raise AttributeError
  end.

(** The truth of a value in a condition. *)
Definition py_truth (v : pyval) : bool :=
  match v with
  | PNone => false
  | PBool b => b
  | PInt n => negb (n =? 0)
  | PFloat FNan | PFloat (FInf _) => true
  | PFloat (FDec _ ds _) => negb (N.eqb (N_of_digits ds) 0)
  | PStr s => negb (String.eqb s EmptyString)
  | PList l | PTuple l => match l with [] => false | _ => true end
  | PDict d => match d with [] => false | _ => true end
  end.

(** [a, b = v]. *)
Definition py_unpack2 (v : pyval) : result (pyval * pyval) :=
  match py_iter v with
  | Ok [a; b] => Ok (a, b)
  | Ok _ => Raise ValueError
  | Raise e => Raise e
  end.

(* ===================================================================== *)
(** * Part 2. The [json] codec *)
(* ===================================================================== *)

(** ** [json.dump]: values to text

    With the defaults the store uses: separators [", "] and [": "],
    [ensure_ascii], no indentation, [NaN] and infinities allowed. *)

Definition json_escape_char (c : ascii) : string :=
  let n := code c in
  if Ascii.eqb c dquote then String backslash (String dquote EmptyString)
  else if Ascii.eqb c backslash then String backslash (String backslash EmptyString)
  else if (n =? 10)%N then String backslash "n"
  else if (n =? 13)%N then String backslash "r"
  else if (n =? 9)%N then String backslash "t"
  else if (n =? 8)%N then String backslash "b"
  else if (n =? 12)%N then String backslash "f"
  else if ((32 <=? n) && (n <=? 126))%N then String c EmptyString
  else String backslash
         (String "u" (String "0" (String "0"
            (String (hex_char (n / 16))
               (String (hex_char (n mod 16)) EmptyString))))).

Fixpoint json_escape (s : string) : string :=
  match s with
  | String c s' => json_escape_char c +++ json_escape s'
  | EmptyString => EmptyString
  end.

Definition dump_str (s : string) : string :=
  String dquote (json_escape s +++ String dquote EmptyString).

Definition dump_float (f : pyfloat) : string :=
  match f with
  | FNan => "NaN"
  | FInf false => "Infinity"
  | FInf true => "-Infinity"
  | _ => float_repr f
  end.

Fixpoint dump (v : pyval) : string :=
  let fix items (l : list pyval) : string :=
    match l with
    | [] => EmptyString
    | x :: l' =>
        match l' with
        | [] => dump x
        | _ => dump x +++ ", " +++ items l'
        end
    end in
  let fix members (d : list (string * pyval)) : string :=
    match d with
    | [] => EmptyString
    | (k, x) :: d' =>
        match d' with
        | [] => dump_str k +++ ": " +++ dump x
        | _ => dump_str k +++ ": " +++ dump x +++ ", " +++ members d'
        end
    end in
  match v with
  | PNone => "null"
  | PBool true => "true"
  | PBool false => "false"
  | PInt n => int_repr n
  | PFloat f => dump_float f
  | PStr s => dump_str s
  | PList l | PTuple l => "[" +++ items l +++ "]"
  | PDict d => "{" +++ members d +++ "}"
  end.

(** The elements and the members in the text of [dump]. *)
Fixpoint dump_items (l : list pyval) : string :=
  match l with
  | [] => EmptyString
  | x :: l' =>
      match l' with
      | [] => dump x
      | _ => dump x +++ ", " +++ dump_items l'
      end
  end.

Fixpoint dump_members (d : list (string * pyval)) : string :=
  match d with
  | [] => EmptyString
  | (k, x) :: d' =>
      match d' with
      | [] => dump_str k +++ ": " +++ dump x
      | _ => dump_str k +++ ": " +++ dump x +++ ", " +++ dump_members d'
      end
  end.

Definition json_dumps (v : pyval) : string := dump v.

(** ** [json.load]: text to values *)

Definition is_json_ws (c : ascii) : bool :=
  let n := code c in ((n =? 32) || (n =? 9) || (n =? 10) || (n =? 13))%N.

Fixpoint skip_ws (s : string) : string :=
  match s with
  | String c s' => if is_json_ws c then skip_ws s' else s
  | EmptyString => s
  end.

Definition hex_value (c : ascii) : option N :=
  let n := code c in
  if ((48 <=? n) && (n <=? 57))%N then Some (n - 48)%N
  else if ((97 <=? n) && (n <=? 102))%N then Some (n - 87)%N
  else if ((65 <=? n) && (n <=? 70))%N then Some (n - 55)%N
  else None.

Definition hex4_value (a b c d : ascii) : option N :=
  match hex_value a, hex_value b, hex_value c, hex_value d with
  | Some x, Some y, Some z, Some w => Some (((x * 16 + y) * 16 + z) * 16 + w)%N
  | _, _, _, _ => None
  end.

(** The character a one-letter escape stands for. *)
Definition unescape (e : ascii) : option ascii :=
  if Ascii.eqb e dquote then Some dquote
  else if Ascii.eqb e backslash then Some backslash
  else match e with
       | "/" => Some "/"
       | "b" => Some "008"
       | "f" => Some "012"
       | "n" => Some "010"
       | "r" => Some "013"
       | "t" => Some "009"
       | _ => None
       end%char.

(** The rest of a string literal after its opening quote: the text it
    denotes, and what follows the closing quote. *)
Fixpoint parse_string (s : string) : result (string * string) :=
  match s with
  | EmptyString => Raise JSONDecodeError
  | String c s' =>
      if Ascii.eqb c dquote then Ok (EmptyString, s')
      else if Ascii.eqb c backslash then
        match s' with
        | String e s'' =>
            if Ascii.eqb e "u" then
              match s'' with
              | String h1 (String h2 (String h3 (String h4 r))) =>
                  match hex4_value h1 h2 h3 h4 with
                  | Some n =>
                      if (n <? 256)%N then
                        match parse_string r with
                        | Ok (t, r') => Ok (String (ascii_of_N n) t, r')
                        | Raise x => Raise x
                        end
                      else Raise NotModelled
                  | None => Raise JSONDecodeError
                  end
              | _ => Raise JSONDecodeError
              end
            else
              match unescape e with
              | Some ch =>
                  match parse_string s'' with
                  | Ok (t, r') => Ok (String ch t, r')
                  | Raise x => Raise x
                  end
              | None => Raise JSONDecodeError
              end
        | EmptyString => Raise JSONDecodeError
        end
      else if (code c <? 32)%N then Raise JSONDecodeError
      else
        match parse_string s' with
        | Ok (t, r') => Ok (String c t, r')
        | Raise x => Raise x
        end
  end.

(** The parts of a number: an optional minus; [0] or a run of digits that
    starts with none; a fraction and an exponent, each taken only when it
    has digits. *)
Definition scan_minus (s : string) : bool * string :=
  match s with
  | String "-" s' => (true, s')
  | _ => (false, s)
  end.

Definition scan_int_part (s : string) : option (list digits * string) :=
  match s with
  | String "0" s' => Some ([d0], s')
  | String c _ => if is_digit c then Some (scan_digits s) else None
  | EmptyString => None
  end.

Definition scan_fraction (s : string) : option (list digits * string) :=
  match s with
  | String "." s' => if starts_digit s' then Some (scan_digits s') else None
  | _ => None
  end.

(** A number at the head of the text: an [int] when it has neither a
    fraction nor an exponent, else a [float]. *)
Definition parse_number (s : string) : option (pyval * string) :=
  let (neg, s1) := scan_minus s in
  match scan_int_part s1 with
  | Some (ip, s2) =>
      let (frac, s3) :=
        match scan_fraction s2 with
        | Some (fp, r) => (Some fp, r)
        | None => (None, s2)
        end in
      let (ex, s4) :=
        match scan_exponent scan_digits s3 with
        | Some (e, r) => (Some e, r)
        | None => (None, s3)
        end in
      match frac, ex with
      | None, None => Some (PInt (Z_of_digits neg ip), s4)
      | _, _ =>
          Some (PFloat (mk_float neg ip
                          (match frac with Some fp => fp | None => [] end)
                          (match ex with Some e => e | None => 0 end)), s4)
      end
  | None => None
  end.

(** [s] without the prefix [p], when it starts with it. *)
Fixpoint drop_prefix (p s : string) : option string :=
  match p with
  | EmptyString => Some s
  | String c p' =>
      match s with
      | String c' s' => if Ascii.eqb c c' then drop_prefix p' s' else None
      | EmptyString => None
      end
  end.

(** A value that is neither a string, an object nor an array: a named
    constant, else a number. *)
Definition parse_scalar (s : string) : result (pyval * string) :=
  match drop_prefix "null" s with
  | Some r => Ok (PNone, r)
  | None =>
  match drop_prefix "true" s with
  | Some r => Ok (PBool true, r)
  | None =>
  match drop_prefix "false" s with
  | Some r => Ok (PBool false, r)
  | None =>
  match drop_prefix "NaN" s with
  | Some r => Ok (PFloat FNan, r)
  | None =>
  match drop_prefix "Infinity" s with
  | Some r => Ok (PFloat (FInf false), r)
  | None =>
  match drop_prefix "-Infinity" s with
  | Some r => Ok (PFloat (FInf true), r)
  | None =>
  match parse_number s with
  | Some vr => Ok vr
  | None => Raise JSONDecodeError
  end end end end end end end.

(** [s] without its first character, when that is [c]. *)
Definition expect (c : ascii) (s : string) : option string :=
  match s with
  | String c' r => if Ascii.eqb c c' then Some r else None
  | EmptyString => None
  end.

(** The recursive descent.  Each call takes one unit of [fuel] and reads
    at least one character before it calls again, so that the length of the
    text is fuel enough. *)
Fixpoint parse_value (fuel : nat) (s : string) : result (pyval * string) :=
  match fuel with
  | O => Raise NotModelled
  | S fuel' =>
      match s with
      | String c s' =>
          if Ascii.eqb c dquote then
            match parse_string s' with
            | Ok (t, r) => Ok (PStr t, r)
            | Raise e => Raise e
            end
          else if Ascii.eqb c "{" then
            let s1 := skip_ws s' in
            match expect "}" s1 with
            | Some r => Ok (PDict [], r)
            | None =>
                match parse_members fuel' s1 [] with
                | Ok (d, r) => Ok (PDict d, r)
                | Raise e => Raise e
                end
            end
          else if Ascii.eqb c "[" then
            let s1 := skip_ws s' in
            match expect "]" s1 with
            | Some r => Ok (PList [], r)
            | None =>
                match parse_elements fuel' s1 with
                | Ok (l, r) => Ok (PList l, r)
                | Raise e => Raise e
                end
            end
          else parse_scalar s
      | EmptyString => Raise JSONDecodeError
      end
  end

(** The elements of an array, up to its closing bracket. *)
with parse_elements (fuel : nat) (s : string) : result (list pyval * string) :=
  match fuel with
  | O => Raise NotModelled
  | S fuel' =>
      match parse_value fuel' s with
      | Ok (v, r) =>
          let r' := skip_ws r in
          match expect "," r' with
          | Some r1 =>
              match parse_elements fuel' (skip_ws r1) with
              | Ok (l, r2) => Ok (v :: l, r2)
              | Raise e => Raise e
              end
          | None =>
              match expect "]" r' with
              | Some r1 => Ok ([v], r1)
              | None => Raise JSONDecodeError
              end
          end
      | Raise e => Raise e
      end
  end

(** The members of an object, up to its closing brace; each is set in the
    dict [acc] built so far. *)
with parse_members (fuel : nat) (s : string) (acc : list (string * pyval))
  : result (list (string * pyval) * string) :=
  match fuel with
  | O => Raise NotModelled
  | S fuel' =>
      match expect dquote s with
      | Some s' =>
          match parse_string s' with
          | Ok (k, r) =>
              match expect ":" (skip_ws r) with
              | Some r1 =>
                  match parse_value fuel' (skip_ws r1) with
                  | Ok (v, r2) =>
                      let acc' := dict_set acc k v in
                      let r' := skip_ws r2 in
                      match expect "," r' with
                      | Some r3 => parse_members fuel' (skip_ws r3) acc'
                      | None =>
                          match expect "}" r' with
                          | Some r3 => Ok (acc', r3)
                          | None => Raise JSONDecodeError
                          end
                      end
                  | Raise e => Raise e
                  end
              | None => Raise JSONDecodeError
              end
          | Raise e => Raise e
          end
      | None => Raise JSONDecodeError
      end
  end.

Definition json_loads (s : string) : result pyval :=
  match parse_value (S (String.length s)) (skip_ws s) with
  | Ok (v, r) =>
      match skip_ws r with
      | EmptyString => Ok v
      | _ => Raise JSONDecodeError
      end
  | Raise e => Raise e
  end.

(* ===================================================================== *)
(** * Part 3. The data manager *)
(* ===================================================================== *)

(** ** The file and the monad of the methods *)

(** The JSON file of the manager: its text, and how many times it was
    opened for writing. *)
Record store : Type := { file : string; writes : nat }.

(** A method runs on the store and returns a value or raises; the store
    it leaves is kept in both cases. *)
Definition M (A : Type) : Type := store -> result A * store.

Definition ret {A : Type} (a : A) : M A := fun st => (Ok a, st).

Definition bind {A B : Type} (m : M A) (k : A -> M B) : M B :=
  fun st =>
    match m st with
    | (Ok a, st') => k a st'
    | (Raise e, st') => (Raise e, st')
    end.

Definition lift {A : Type} (r : result A) : M A := fun st => (r, st).

Declare Scope store_scope.
Delimit Scope store_scope with store.
Notation "x <- m ;; k" := (bind m (fun x => k))
  (at level 61, m at next level, right associativity) : store_scope.
Notation "m ;; k" := (bind m (fun _ => k))
  (at level 61, right associativity) : store_scope.

Module JSONDataManager.

(** [_load_data]: the users of the document in the file. *)
Definition _load_data : M pyval :=
  fun st =>
    ((data <- json_loads (file st) ;;
      py_getitem data "users")%result, st).

(** [_write_data]: the file is replaced by the document of [data]. *)
Definition _write_data (data : pyval) : M unit :=
  fun st =>
    (Ok tt, {| file := json_dumps (PDict [("users", data)]);
               writes := S (writes st) |}).

Definition list_all_users : M pyval := _load_data.

(** *** [add_user] *)

(** The scan for a user of that name: whether the loop returned. *)
Fixpoint name_taken (users : list pyval) (user_name : pyval) : result bool :=
  match users with
  | [] => Ok false
  | user :: rest =>
      (n <- py_getitem user "name" ;;
       if py_eq n user_name then Ok true else name_taken rest user_name)%result
  end.

Definition user_exists_message : string := "User with this name already exists.".

Definition add_user (user_name : pyval) : M pyval :=
  (data <- _load_data ;;
   users <- lift (py_iter data) ;;
   taken <- lift (name_taken users user_name) ;;
   if taken : bool then ret (PStr user_exists_message)
   else
     n <- lift (py_len data) ;;
     let user_id := py_str (PInt (n + 1)) in
     let new_user :=
       PDict [("user_id", PStr user_id); ("name", user_name);
              ("movies", PList [])] in
     data' <- lift (py_append data new_user) ;;
     _write_data data' ;;
     ret (PTuple [PNone; user_name]))%store.

(** *** [get_user_movies] *)

Fixpoint get_user_movies_loop (users : list pyval) (user_id : pyval)
  : result pyval :=
  match users with
  | [] => Ok (PList [])
  | user :: rest =>
      (uid <- py_getitem user "user_id" ;;
       if py_eq uid user_id then py_getitem user "movies"
       else get_user_movies_loop rest user_id)%result
  end.

Definition get_user_movies (user_id : pyval) : M pyval :=
  (data <- _load_data ;;
   users <- lift (py_iter data) ;;
   lift (get_user_movies_loop users user_id))%store.

(** *** [add_movie] *)

(** The record built from the reply of the lookup service. *)
Definition movie_data_of (movie_details : pyval)
  : result (list (string * pyval)) :=
  (name <- py_getitem movie_details "Title" ;;
   director <- py_getitem movie_details "Director" ;;
   y <- py_getitem movie_details "Year" ;;
   year <- py_int y ;;
   has <- py_contains "imdbRating" movie_details ;;
   rated <- (if has : bool
             then r <- py_getitem movie_details "imdbRating" ;;
                  Ok (negb (py_eq r (PStr "N/A")))
             else Ok false) ;;
   rating <- (if rated : bool
              then r <- py_getitem movie_details "imdbRating" ;; py_float r
              else Ok float_zero) ;;
   Ok [("name", name); ("director", director); ("year", PInt year);
       ("rating", PFloat rating)])%result.

(** [max((movie['id'] for movie in movies), default=0)]: the ids are
    read one by one, each compared with the greatest so far. *)
Fixpoint max_id_from (cur : pyval) (movies : list pyval) : result pyval :=
  match movies with
  | [] => Ok cur
  | movie :: rest =>
      (v <- py_getitem movie "id" ;;
       b <- py_gt v cur ;;
       max_id_from (if b : bool then v else cur) rest)%result
  end.

Definition max_id (movies : list pyval) : result pyval :=
  match movies with
  | [] => Ok (PInt 0)
  | movie :: rest =>
      (v <- py_getitem movie "id" ;; max_id_from v rest)%result
  end.

(** [user[k] = x] on a user that was read with a subscript. *)
Definition set_field (user : pyval) (k : string) (x : pyval) : pyval :=
  match user with
  | PDict d => PDict (dict_set d k x)
  | _ => user
  end.

(** The loop over the users: the first one of that id gets the movie. *)
Fixpoint add_movie_loop (users : list pyval) (user_id : string)
    (movie_data : list (string * pyval)) : result (list pyval) :=
  match users with
  | [] => Ok []
  | user :: rest =>
      (uid <- py_getitem user "user_id" ;;
       if py_eq uid (PStr user_id) then
         movies <- py_getitem user "movies" ;;
         ms <- py_iter movies ;;
         mx <- max_id ms ;;
         new_id <- py_add1 mx ;;
         movies' <- py_append movies (PDict (dict_set movie_data "id" new_id)) ;;
         Ok (set_field user "movies" movies' :: rest)
       else
         rest' <- add_movie_loop rest user_id movie_data ;;
         Ok (user :: rest'))%result
  end.

(** [omdb] is the lookup service: the decoded reply to a request for a
    title. *)
Definition add_movie (omdb : pyval -> pyval) (user_id movie_title : pyval)
  : M pyval :=
  let movie_details := omdb movie_title in
  (response <- lift (py_getitem movie_details "Response") ;;
   if py_eq response (PStr "True") then
     movie_data <- lift (movie_data_of movie_details) ;;
     let user_id := py_str user_id in
     data <- _load_data ;;
     users <- lift (py_iter data) ;;
     users' <- lift (add_movie_loop users user_id movie_data) ;;
     _write_data (rebuild data users') ;;
     ret PNone
   else
     e <- lift (py_getitem movie_details "Error") ;;
     ret e)%store.

(** *** [get_movie] *)

Fixpoint find_movie (movies : list pyval) (movie_id : Z)
  : result (option pyval) :=
  match movies with
  | [] => Ok None
  | movie :: rest =>
      (v <- py_getitem movie "id" ;;
       if py_eq v (PInt movie_id) then Ok (Some movie)
       else find_movie rest movie_id)%result
  end.

Fixpoint get_movie_loop (users : list pyval) (user_id : string) (movie_id : Z)
  : result pyval :=
  match users with
  | [] => Ok PNone
  | user :: rest =>
      (uid <- py_getitem user "user_id" ;;
       if py_eq uid (PStr user_id) then
         movies <- py_getitem user "movies" ;;
         ms <- py_iter movies ;;
         found <- find_movie ms movie_id ;;
         match found with
         | Some movie => Ok movie
         | None => get_movie_loop rest user_id movie_id
         end
       else get_movie_loop rest user_id movie_id)%result
  end.

Definition get_movie (user_id movie_id : pyval) : M pyval :=
  let user_id := py_str user_id in
  (movie_id <- lift (py_int movie_id) ;;
   data <- _load_data ;;
   users <- lift (py_iter data) ;;
   lift (get_movie_loop users user_id movie_id))%store.

(** *** [update_movie] *)

(** [movie.update(updated_movie)]. *)
Definition movie_update (movie updated_movie : pyval) : result pyval :=
  match movie with
  | PDict d => (d' <- py_update d updated_movie ;; Ok (PDict d'))%result
  | _ => Raise AttributeError
  end.

(** The inner loop: the movies with the first one of that id updated, if
    there is one. *)
Fixpoint update_movies (movies : list pyval) (movie_id : Z)
    (updated_movie : pyval) : result (option (list pyval)) :=
  match movies with
  | [] => Ok None
  | movie :: rest =>
      (v <- py_getitem movie "id" ;;
       if py_eq v (PInt movie_id) then
         movie' <- movie_update movie updated_movie ;;
         Ok (Some (movie' :: rest))
       else
         r <- update_movies rest movie_id updated_movie ;;
         Ok (option_map (cons movie) r))%result
  end.

(** The outer loop: it goes on to the next user when a user of that id
    has no such movie. *)
Fixpoint update_movie_loop (users : list pyval) (user_id : string)
    (movie_id : Z) (updated_movie : pyval) : result (option (list pyval)) :=
  match users with
  | [] => Ok None
  | user :: rest =>
      (uid <- py_getitem user "user_id" ;;
       if py_eq uid (PStr user_id) then
         movies <- py_getitem user "movies" ;;
         ms <- py_iter movies ;;
         r <- update_movies ms movie_id updated_movie ;;
         match r with
         | Some ms' =>
             Ok (Some (set_field user "movies" (rebuild movies ms') :: rest))
         | None =>
             r' <- update_movie_loop rest user_id movie_id updated_movie ;;
             Ok (option_map (cons user) r')
         end
       else
         r' <- update_movie_loop rest user_id movie_id updated_movie ;;
         Ok (option_map (cons user) r'))%result
  end.

Definition update_movie (user_id movie_id updated_movie : pyval) : M pyval :=
  let user_id := py_str user_id in
  (movie_id <- lift (py_int movie_id) ;;
   data <- _load_data ;;
   users <- lift (py_iter data) ;;
   r <- lift (update_movie_loop users user_id movie_id updated_movie) ;;
   match r with
   | Some users' => _write_data (rebuild data users') ;; ret PNone
   | None => ret PNone
   end)%store.

(** *** [delete_movie] *)

(** [[movie for movie in movies if int(movie['id']) != movie_id]]. *)
Fixpoint keep_movies (movies : list pyval) (movie_id : Z)
  : result (list pyval) :=
  match movies with
  | [] => Ok []
  | movie :: rest =>
      (v <- py_getitem movie "id" ;;
       n <- py_int v ;;
       rest' <- keep_movies rest movie_id ;;
       Ok (if n =? movie_id then rest' else movie :: rest'))%result
  end.

Fixpoint delete_movie_loop (users : list pyval) (user_id : string)
    (movie_id : Z) : result (list pyval) :=
  match users with
  | [] => Ok []
  | user :: rest =>
      (uid <- py_getitem user "user_id" ;;
       if py_eq uid (PStr user_id) then
         movies <- py_getitem user "movies" ;;
         ms <- py_iter movies ;;
         kept <- keep_movies ms movie_id ;;
         Ok (set_field user "movies" (PList kept) :: rest)
       else
         rest' <- delete_movie_loop rest user_id movie_id ;;
         Ok (user :: rest'))%result
  end.

Definition delete_movie (user_id movie_id : pyval) : M pyval :=
  let user_id := py_str user_id in
  (movie_id <- lift (py_int movie_id) ;;
   data <- _load_data ;;
   users <- lift (py_iter data) ;;
   users' <- lift (delete_movie_loop users user_id movie_id) ;;
   _write_data (rebuild data users') ;;
   ret PNone)%store.

End JSONDataManager.

(** ** The callers: the routes of the application *)

Module App.

(** What a view returns: a rendered template with the error it shows, or
    a redirection to the page of a user. *)
Inductive response : Type :=
| Render (template : string) (error_message : option pyval)
| Redirect (endpoint : string) (user_id : pyval).

(** The route on a POST request whose form holds [user_name]. *)
Definition add_user (user_name : pyval) : M response :=
  (r <- JSONDataManager.add_user user_name ;;
   p <- lift (py_unpack2 r) ;;
   let (error_message, user_name) := p : pyval * pyval in
   match error_message with
   | PNone => ret (Redirect "user_movies" user_name)
   | _ => ret (Render "add_user.html" (Some error_message))
   end)%store.

(** [request.form.get(k)]: the field of the form, or [None]. *)
Definition form_get (form : list (string * pyval)) (k : string) : pyval :=
  match dict_get form k with
  | Some v => v
  | None => PNone
  end.

(** [fetch_movie_info]: the record of the reply, or [None] when the reply
    reports no movie or anything raised on the way.  The title is quoted
    first, which takes a string. *)
Definition fetch_movie_info (omdb : pyval -> pyval) (movie_title : pyval)
  : result pyval :=
  let body :=
    (_ <- (match movie_title with
           | PStr _ => Ok tt
           | PNone => Raise TypeError
           | _ => Raise NotModelled
           end) ;;
     let movie_details := omdb movie_title in
     response <- py_get movie_details "Response" ;;
     if py_eq response (PStr "True") then
       name <- py_get movie_details "Title" ;;
       director <- py_get movie_details "Director" ;;
       y <- py_get movie_details "Year" ;;
       year <- py_int y ;;
       r <- py_get movie_details "imdbRating" ;;
       rating <- py_float r ;;
       Ok (PDict [("name", name); ("director", director);
                  ("year", PInt year); ("rating", PFloat rating)])
     else Ok PNone)%result in
  match body with
  | Ok v => Ok v
  | Raise NotModelled => Raise NotModelled
  | Raise _ => Ok PNone
  end.

Definition not_found_on_omdb : string := "Movie not found on OMDB".

(** The [add_movie] route on a POST request for the user [user_id]. *)
Definition add_movie (omdb : pyval -> pyval) (user_id : pyval)
    (form : list (string * pyval)) : M response :=
  let movie_title := form_get form "name" in
  (movie_data <- lift (fetch_movie_info omdb movie_title) ;;
   if py_truth movie_data then
     r <- JSONDataManager.add_movie omdb user_id movie_title ;;
     match r with
     | PNone => ret (Redirect "user_movies" user_id)
     | _ => ret (Render "add_movie.html" None)
     end
   else ret (Render "add_movie.html" (Some (PStr not_found_on_omdb))))%store.

(** The [update_movie] route on a POST request. *)
Definition update_movie (user_id movie_id : pyval)
    (form : list (string * pyval)) : M response :=
  (_ <- JSONDataManager.get_movie user_id movie_id ;;
   year <- lift (py_int (form_get form "year")) ;;
   rating <- lift (py_float (form_get form "rating")) ;;
   let updated_movie :=
     PDict [("title", form_get form "name");
            ("director", form_get form "director");
            ("year", PInt year); ("rating", PFloat rating)] in
   JSONDataManager.update_movie user_id movie_id updated_movie ;;
   ret (Redirect "user_movies" user_id))%store.

End App.

(* ===================================================================== *)
(** * Part 4. Predicates of the statements *)
(* ===================================================================== *)

(** ** Documents that follow the data model *)

(** A movie is a dict with an integer [id]; a user is a dict with a string
    [user_id], a string [name] and a list [movies] of movies; the users
    are a list of users. *)
Definition is_movie (movie : pyval) : bool :=
  match movie with
  | PDict d =>
      match dict_get d "id" with
      | Some (PInt _) => true
      | _ => false
      end
  | _ => false
  end.

Definition is_user (user : pyval) : bool :=
  match user with
  | PDict d =>
      match dict_get d "user_id", dict_get d "name", dict_get d "movies" with
      | Some (PStr _), Some (PStr _), Some (PList ms) => forallb is_movie ms
      | _, _, _ => false
      end
  | _ => false
  end.

Definition is_users (data : pyval) : bool :=
  match data with
  | PList users => forallb is_user users
  | _ => false
  end.

(** ** Values that a JSON text denotes *)

Definition is_d0 (d : digits) : bool :=
  match d with d0 => true | _ => false end.

(** The digits of a float as [repr] yields them: the single digit [0] for
    zero, else neither a leading nor a trailing zero. *)
Definition float_ok (f : pyfloat) : bool :=
  match f with
  | FDec _ ds decpt =>
      match ds with
      | [] => false
      | [d] => if is_d0 d then decpt =? 1 else true
      | d :: _ => negb (is_d0 d) && negb (is_d0 (last ds d1))
      end
  | _ => true
  end.

Fixpoint keys_distinct (ks : list string) : bool :=
  match ks with
  | [] => true
  | k :: ks' => negb (existsb (String.eqb k) ks') && keys_distinct ks'
  end.

(** No tuple (the codec writes it as a list), no key twice in a dict, and
    floats as [repr] yields them. *)
Fixpoint json_ok (v : pyval) : bool :=
  let fix all (l : list pyval) : bool :=
    match l with
    | [] => true
    | x :: l' => json_ok x && all l'
    end in
  let fix all_values (d : list (string * pyval)) : bool :=
    match d with
    | [] => true
    | (_, x) :: d' => json_ok x && all_values d'
    end in
  match v with
  | PFloat f => float_ok f
  | PList l => all l
  | PTuple _ => false
  | PDict d => keys_distinct (map fst d) && all_values d
  | _ => true
  end.

(** ** What the file holds *)

(** The store holds the users [data]: this is what [_load_data] returns. *)
Definition stored (st : store) (data : pyval) : Prop :=
  JSONDataManager._load_data st = (Ok data, st).

(** The document of the users [data], as [_write_data] writes it. *)
Definition document (data : pyval) : string :=
  json_dumps (PDict [("users", data)]).

(** ** The shape of the text of a number *)

(** The digits of a number: the single digit [0], else no leading zero. *)
Definition int_digits_ok (ds : list digits) : Prop :=
  ds = [d0] \/ exists d ds', ds = d :: ds' /\ d <> d0.

(** What may follow a value in the text that [json.dump] writes: nothing,
    a comma or a closing bracket. *)
Definition terminator (r : string) : bool :=
  match r with
  | EmptyString => true
  | String c _ => Ascii.eqb c "," || Ascii.eqb c "]" || Ascii.eqb c "}"
  end.

Definition sign_text (neg : bool) : string :=
  if neg then "-" else EmptyString.

Definition frac_text (fp : option (list digits)) : string :=
  match fp with
  | Some ds => String "." (print_digits ds)
  | None => EmptyString
  end.

Definition exp_text (e : option (bool * list digits)) : string :=
  match e with
  | Some (eneg, eds) =>
      String "e" (String (if eneg then "-"%char else "+"%char) (print_digits eds))
  | None => EmptyString
  end.

Definition exp_value (e : option (bool * list digits)) : option Z :=
  match e with
  | Some (eneg, eds) => Some (Z_of_digits eneg eds)
  | None => None
  end.

(** The value of a number given by its parts. *)
Definition number_value (neg : bool) (ip : list digits)
    (fp : option (list digits)) (e : option (bool * list digits)) : pyval :=
  match fp, exp_value e with
  | None, None => PInt (Z_of_digits neg ip)
  | _, ex =>
      PFloat (mk_float neg ip
                (match fp with Some ds => ds | None => [] end)
                (match ex with Some x => x | None => 0 end))
  end.

(** ** Fuel *)

(** A bound of the fuel that reading the text of a value takes: one unit
    for each value in it. *)
Fixpoint size (v : pyval) : nat :=
  let fix sizes (l : list pyval) : nat :=
    match l with
    | [] => O
    | x :: l' => S (size x + sizes l')
    end in
  let fix msizes (d : list (string * pyval)) : nat :=
    match d with
    | [] => O
    | (_, x) :: d' => S (size x + msizes d')
    end in
  match v with
  | PList l | PTuple l => S (sizes l)
  | PDict d => S (msizes d)
  | _ => 1%nat
  end.

Fixpoint sizes (l : list pyval) : nat :=
  match l with
  | [] => O
  | x :: l' => S (size x + sizes l')
  end.

Fixpoint msizes (d : list (string * pyval)) : nat :=
  match d with
  | [] => O
  | (_, x) :: d' => S (size x + msizes d')
  end.

(** The first character of the text of a value: no blank, and not the
    bracket that closes an array. *)
Definition head_ok (s : string) : bool :=
  match s with
  | String c _ => negb (is_json_ws c) && negb (Ascii.eqb c "]")
  | EmptyString => false
  end.

(** The first character of the text of a constant or a number. *)
Definition scalar_head (s : string) : bool :=
  match s with
  | String c _ =>
      negb (Ascii.eqb c dquote) && negb (Ascii.eqb c "{")
      && negb (Ascii.eqb c "[")
  | EmptyString => false
  end.

(** What follows an element in the text of an array. *)
Definition items_tail (l : list pyval) (r : string) : string :=
  match l with
  | [] => String "]" r
  | _ => ", " +++ dump_items l +++ String "]" r
  end.

(** What follows a member in the text of an object. *)
Definition members_tail (d : list (string * pyval)) (r : string) : string :=
  match d with
  | [] => String "}" r
  | _ => ", " +++ dump_members d +++ String "}" r
  end.

(** ** Matching users and movies *)

(** [user['user_id'] == user_id]. *)
Definition has_user_id (user_id : pyval) (user : pyval) : bool :=
  match py_getitem user "user_id" with
  | Ok uid => py_eq uid user_id
  | Raise _ => false
  end.

(** [user['name'] == user_name]. *)
Definition has_name (user_name : pyval) (user : pyval) : bool :=
  match py_getitem user "name" with
  | Ok n => py_eq n user_name
  | Raise _ => false
  end.

(** [movie['id'] == movie_id]. *)
Definition has_movie_id (movie_id : Z) (movie : pyval) : bool :=
  match py_getitem movie "id" with
  | Ok v => py_eq v (PInt movie_id)
  | Raise _ => false
  end.

(** The user has that id and a movie of that id. *)
Definition has_movie (user_id : string) (movie_id : Z) (user : pyval) : bool :=
  has_user_id (PStr user_id) user &&
  match py_getitem user "movies" with
  | Ok (PList ms) => existsb (has_movie_id movie_id) ms
  | _ => false
  end.

(** The reply of the lookup service that reports a movie. *)
Definition found (movie_details : pyval) : bool :=
  match py_getitem movie_details "Response" with
  | Ok response => py_eq response (PStr "True")
  | Raise _ => false
  end.

(** The reply that reports none: it has a [Response] that is not ["True"]. *)
Definition not_found (movie_details : pyval) : bool :=
  match py_getitem movie_details "Response" with
  | Ok response => negb (py_eq response (PStr "True"))
  | Raise _ => false
  end.

(** ** The ids of movies *)

Definition movie_id_of (movie : pyval) : Z :=
  match py_getitem movie "id" with
  | Ok (PInt n) => n
  | _ => 0
  end.

(** [max(ids, default=0)]. *)
Definition max_default0 (ids : list Z) : Z :=
  match ids with
  | [] => 0
  | x :: ids' => fold_left Z.max ids' x
  end.

(** The id that the next movie of a list gets. *)
Definition next_id (movies : list pyval) : Z :=
  max_default0 (map movie_id_of movies) + 1.

(** ** A store for the examples: the sample document of the specification *)

Definition inception_fields : list (string * pyval) :=
  [("id", PInt 1); ("name", PStr "Inception");
   ("director", PStr "Christopher Nolan"); ("year", PInt 2010);
   ("rating", PFloat (FDec false [d8; d8] 1))].

Definition inception : pyval := PDict inception_fields.

Definition alice_fields : list (string * pyval) :=
  [("user_id", PStr "1"); ("name", PStr "Alice");
   ("movies", PList [inception])].

Definition alice : pyval := PDict alice_fields.

Definition sample_store : store :=
  {| file := document (PList [alice]); writes := 0 |}.

(** A lookup service that knows one title. *)
Definition sample_omdb (movie_title : pyval) : pyval :=
  if py_eq movie_title (PStr "Heat") then
    PDict [("Title", PStr "Heat"); ("Year", PStr "1995");
           ("Director", PStr "Michael Mann"); ("imdbRating", PStr "8.3");
           ("Response", PStr "True")]
  else
    PDict [("Response", PStr "False"); ("Error", PStr "Movie not found!")].

(** The store after [add_user] added a user of that name. *)
Definition with_new_user (st : store) (users : list pyval) (user_name : pyval)
  : store :=
  {| file :=
       document
         (PList (users ++
                 [PDict [("user_id",
                          PStr (py_str (PInt (Z.of_nat (length users) + 1))));
                         ("name", user_name); ("movies", PList [])]]));
     writes := S (writes st) |}.

(** ** What [delete_movie] is to do, in the words of the specification

    The first user of that id has its movie list replaced by the movies
    whose id is not the target; everything else stays. *)

Definition other_id (movie_id : Z) (movie : pyval) : bool :=
  negb (movie_id_of movie =? movie_id).

Definition without_movie (movie_id : Z) (user : pyval) : pyval :=
  match py_getitem user "movies" with
  | Ok (PList ms) =>
      JSONDataManager.set_field user "movies"
        (PList (filter (other_id movie_id) ms))
  | _ => user
  end.

Fixpoint spec_delete_movie (user_id : string) (movie_id : Z)
    (users : list pyval) : list pyval :=
  match users with
  | [] => []
  | user :: rest =>
      if has_user_id (PStr user_id) user
      then without_movie movie_id user :: rest
      else user :: spec_delete_movie user_id movie_id rest
  end.

Definition spec_delete_movie_sample : pyval :=
  PList (spec_delete_movie "1" 1 [alice]).

(** The record of the title that the sample lookup service knows. *)
Definition heat_data : list (string * pyval) :=
  [("name", PStr "Heat"); ("director", PStr "Michael Mann");
   ("year", PInt 1995); ("rating", PFloat (FDec false [d8; d3] 1))].

(** The sample document after the rating of its movie was set to 9.0. *)
Definition rating_9 : list (string * pyval) :=
  [("rating", PFloat (FDec false [d9] 1))].

Definition alice_rated_9 : pyval :=
  PDict [("user_id", PStr "1"); ("name", PStr "Alice");
         ("movies",
          PList [PDict [("id", PInt 1); ("name", PStr "Inception");
                        ("director", PStr "Christopher Nolan");
                        ("year", PInt 2010);
                        ("rating", PFloat (FDec false [d9] 1))]])].

(** The users after [add_movie] gave the movie [movie_data] to the user
    [ud], whose movies were [ms]: it comes last, with the next id. *)
Definition with_movie (us1 : list pyval) (ud : list (string * pyval))
    (us2 ms : list pyval) (movie_data : list (string * pyval)) : pyval :=
  PList (us1 ++
         PDict (dict_set ud "movies"
                  (PList (ms ++
                          [PDict (dict_set movie_data "id"
                                    (PInt (next_id ms)))])))
         :: us2).

(** ** Stores and replies for the examples of the further properties *)

(** A file that is empty: no JSON text. *)
Definition empty_store : store := {| file := EmptyString; writes := 0 |}.

(** The user that [add_user] appends to [users]. *)
Definition new_user (users : list pyval) (user_name : pyval) : pyval :=
  PDict [("user_id", PStr (py_str (PInt (Z.of_nat (length users) + 1))));
         ("name", user_name); ("movies", PList [])].

(** The movie that [add_movie] appends to the movies [ms]. *)
Definition new_movie (ms : list pyval) (movie_data : list (string * pyval))
  : pyval :=
  PDict (dict_set movie_data "id" (PInt (next_id ms))).

(** A reply of the lookup service for a title that has no rating yet. *)
Definition unrated_reply : list (string * pyval) :=
  [("Title", PStr "Dune 3"); ("Year", PStr "2026");
   ("Director", PStr "Denis Villeneuve"); ("imdbRating", PStr "N/A");
   ("Response", PStr "True")].

(** A reply for a series: its year is a range. *)
Definition series_reply : list (string * pyval) :=
  [("Title", PStr "Dark"); ("Year", PStr "2017-2020");
   ("Director", PStr "N/A"); ("imdbRating", PStr "8.7");
   ("Response", PStr "True")].

(** A lookup service that knows these two titles. *)
Definition other_omdb (movie_title : pyval) : pyval :=
  if py_eq movie_title (PStr "Dune 3") then PDict unrated_reply
  else if py_eq movie_title (PStr "Dark") then PDict series_reply
  else PDict [("Response", PStr "False"); ("Error", PStr "Movie not found!")].

(** The record that [add_movie] builds for a reply without a rating. *)
Definition unrated_data (name director : pyval) (year : Z)
  : list (string * pyval) :=
  [("name", name); ("director", director); ("year", PInt year);
   ("rating", PFloat float_zero)].

(** The dict that the [update_movie] route passes on for a form. *)
Definition form_update (form : list (string * pyval)) (year : Z)
    (rating : pyfloat) : list (string * pyval) :=
  [("title", App.form_get form "name");
   ("director", App.form_get form "director");
   ("year", PInt year); ("rating", PFloat rating)].

(** A form of the [update_movie] page. *)
Definition sample_form : list (string * pyval) :=
  [("name", PStr "Inception (2010)"); ("director", PStr "C. Nolan");
   ("year", PStr "2010"); ("rating", PStr "9")].

(* ===================================================================== *)
(** * Part 5. Facts about texts, digits and numbers *)
(* ===================================================================== *)

Section Texts.

Lemma append_assoc (a b c : string) : (a +++ b) +++ c = a +++ (b +++ c).
Proof. induction a as [|x a IH]; simpl; [reflexivity | now rewrite IH]. Qed.

Lemma append_nil_r (a : string) : a +++ EmptyString = a.
Proof. induction a as [|x a IH]; simpl; [reflexivity | now rewrite IH]. Qed.

Lemma length_append (a b : string) :
  String.length (a +++ b) = (String.length a + String.length b)%nat.
Proof. induction a as [|x a IH]; simpl; [reflexivity | now rewrite IH]. Qed.

End Texts.

Section Digits.

Lemma char_digit_char (d : digits) : char_digit (digit_char d) = Some d.
Proof. destruct d; reflexivity. Qed.

Lemma is_digit_char (d : digits) : is_digit (digit_char d) = true.
Proof. unfold is_digit. now rewrite char_digit_char. Qed.

Lemma print_digits_app (a b : list digits) :
  print_digits (a ++ b) = print_digits a +++ print_digits b.
Proof. induction a as [|x a IH]; simpl; [reflexivity | now rewrite IH]. Qed.

(** A run of digits is read back whole when no digit follows it. *)
Lemma scan_digits_print (ds : list digits) (r : string) :
  starts_digit r = false ->
  scan_digits (print_digits ds +++ r) = (ds, r).
Proof.
  intros Hr. induction ds as [|d ds IH]; simpl.
  - destruct r as [|c r]; [reflexivity|].
    simpl in Hr. unfold is_digit in Hr.
    simpl. destruct (char_digit c); [discriminate | reflexivity].
  - now rewrite char_digit_char, IH.
Qed.

Lemma N_of_digits_of_N (n : N) : N_of_digits (digits_of_N n) = n.
Proof.
  unfold N_of_digits, digits_of_N.
  now rewrite of_list_to_list, DecimalN.Unsigned.of_to.
Qed.

Lemma Z_of_digits_of_Z (z : Z) : Z_of_digits (z <? 0) (digits_of_Z z) = z.
Proof.
  unfold Z_of_digits, digits_of_Z. rewrite N_of_digits_of_N, N2Z.inj_abs_N.
  destruct (Z.ltb_spec z 0); lia.
Qed.

Lemma digits_of_N_ok (n : N) : int_digits_ok (digits_of_N n).
Proof.
  unfold int_digits_ok, digits_of_N.
  assert (E : to_list (N.to_uint n) = lunorm (to_list (N.to_uint n))).
  { rewrite <- unorm_spec. f_equal.
    pose proof (DecimalN.Unsigned.to_of (N.to_uint n)) as H.
    now rewrite DecimalN.Unsigned.of_to in H. }
  rewrite E. unfold lunorm.
  destruct (lnzhead (to_list (N.to_uint n))) as [|d ds'] eqn:H.
  - now left.
  - right. exists d, ds'. split; [reflexivity|].
    intros ->. now apply lnzhead_neq_d0_head in H.
Qed.

End Digits.

Section Numbers.

Lemma terminator_not_digit (r : string) :
  terminator r = true -> starts_digit r = false.
Proof.
  destruct r as [|c r]; [reflexivity|]. simpl.
  intros H. apply orb_prop in H as [H|H]; [apply orb_prop in H as [H|H]|];
    apply Ascii.eqb_eq in H; subst; reflexivity.
Qed.

Lemma terminator_cases (r : string) :
  terminator r = true ->
  r = EmptyString \/ exists c r', r = String c r' /\
    (c = "," \/ c = "]" \/ c = "}")%char.
Proof.
  destruct r as [|c r]; [now left|]. simpl. intros H. right. exists c, r.
  split; [reflexivity|].
  apply orb_prop in H as [H|H]; [apply orb_prop in H as [H|H]|];
    apply Ascii.eqb_eq in H; auto.
Qed.

Lemma starts_digit_print (d : digits) (ds : list digits) (r : string) :
  starts_digit (print_digits (d :: ds) +++ r) = true.
Proof. simpl. apply is_digit_char. Qed.

Lemma scan_int_part_print (ip : list digits) (r : string) :
  int_digits_ok ip -> starts_digit r = false ->
  scan_int_part (print_digits ip +++ r) = Some (ip, r).
Proof.
  intros [-> | (d & ds & -> & Hd)] Hr.
  - reflexivity.
  - pose proof (scan_digits_print (d :: ds) r Hr) as H.
    destruct d; try congruence; simpl in *; now rewrite H.
Qed.

Lemma scan_fraction_print (ds : list digits) (r : string) :
  ds <> [] -> starts_digit r = false ->
  scan_fraction (String "." (print_digits ds +++ r)) = Some (ds, r).
Proof.
  intros Hds Hr. destruct ds as [|d ds]; [congruence|].
  unfold scan_fraction. rewrite starts_digit_print.
  now rewrite scan_digits_print.
Qed.

Lemma scan_fraction_none (r : string) :
  terminator r = true -> scan_fraction r = None.
Proof.
  intros H. apply terminator_cases in H as [-> | (c & r' & -> & [-> | [-> | ->]])];
    reflexivity.
Qed.

Lemma scan_fraction_exp (e : bool * list digits) (r : string) :
  scan_fraction (exp_text (Some e) +++ r) = None.
Proof. destruct e. reflexivity. Qed.

Lemma scan_exponent_none (r : string) :
  terminator r = true -> scan_exponent scan_digits r = None.
Proof.
  intros H. apply terminator_cases in H as [-> | (c & r' & -> & [-> | [-> | ->]])];
    reflexivity.
Qed.

Lemma scan_exponent_print (eneg : bool) (eds : list digits) (r : string) :
  eds <> [] -> starts_digit r = false ->
  scan_exponent scan_digits (exp_text (Some (eneg, eds)) +++ r)
  = Some (Z_of_digits eneg eds, r).
Proof.
  intros Hds Hr. destruct eds as [|d ds]; [congruence|].
  unfold exp_text, scan_exponent.
  cbn [String.append]. change (Ascii.eqb (lower "e") "e") with true. cbv iota.
  destruct eneg; cbn [scan_sign];
    change (print_digits (d :: ds) +++ r)
      with (String (digit_char d) (print_digits ds +++ r));
    cbn [starts_digit]; rewrite is_digit_char;
    change (String (digit_char d) (print_digits ds +++ r))
      with (print_digits (d :: ds) +++ r);
    now rewrite scan_digits_print.
Qed.

(** A number is read back from its text when a terminator follows. *)
Lemma parse_number_text (neg : bool) (ip : list digits)
    (fp : option (list digits)) (e : option (bool * list digits)) (r : string) :
  int_digits_ok ip ->
  match fp with Some ds => ds <> [] | None => True end ->
  match e with Some (_, eds) => eds <> [] | None => True end ->
  terminator r = true ->
  parse_number
    (sign_text neg +++ print_digits ip +++ frac_text fp +++ exp_text e +++ r)
  = Some (number_value neg ip fp e, r).
Proof.
  intros Hip Hfp He Hr.
  pose proof (terminator_not_digit r Hr) as Hr'.
  assert (Hex : forall x, starts_digit (exp_text (Some x) +++ r) = false)
    by (intros []; reflexivity).
  assert (Hfx : forall ds x,
             starts_digit (frac_text (Some ds) +++ x) = false)
    by reflexivity.
  unfold parse_number.
  assert (Hm : scan_minus
                 (sign_text neg +++ print_digits ip +++ frac_text fp
                  +++ exp_text e +++ r)
               = (neg, print_digits ip +++ frac_text fp +++ exp_text e +++ r)).
  { destruct neg; [reflexivity|]. cbn [sign_text String.append].
    destruct Hip as [-> | (d & ds & -> & Hd)]; [reflexivity|].
    destruct d; reflexivity. }
  rewrite Hm.
  rewrite scan_int_part_print; [|assumption|].
  2:{ destruct fp as [ds|]; [reflexivity|]. cbn [frac_text String.append].
      destruct e as [x|]; [apply Hex | exact Hr']. }
  unfold number_value.
  destruct fp as [ds|]; cbn [frac_text String.append].
  - rewrite scan_fraction_print; [|assumption|].
    2:{ destruct e as [x|]; [apply Hex | exact Hr']. }
    destruct e as [[eneg eds]|].
    + rewrite scan_exponent_print by assumption. reflexivity.
    + cbn [exp_text String.append exp_value].
      rewrite scan_exponent_none by assumption. reflexivity.
  - destruct e as [[eneg eds]|].
    + rewrite scan_fraction_exp.
      rewrite scan_exponent_print by assumption. reflexivity.
    + cbn [exp_text String.append exp_value].
      rewrite scan_fraction_none, scan_exponent_none by assumption.
      reflexivity.
Qed.

Lemma int_repr_text (z : Z) :
  int_repr z = sign_text (z <? 0) +++ print_digits (digits_of_Z z).
Proof. unfold int_repr. now destruct (z <? 0). Qed.

Lemma parse_number_int (z : Z) (r : string) :
  terminator r = true ->
  parse_number (int_repr z +++ r) = Some (PInt z, r).
Proof.
  intros Hr. rewrite int_repr_text, append_assoc.
  pose proof (parse_number_text (z <? 0) (digits_of_Z z) None None r
                (digits_of_N_ok _) I I Hr) as H.
  cbn [frac_text exp_text String.append] in H. rewrite H.
  unfold number_value. cbn. now rewrite Z_of_digits_of_Z.
Qed.

End Numbers.

Section Floats.

Lemma strip_zeros_head (d : digits) (ds : list digits) :
  d <> d0 -> strip_zeros (d :: ds) = d :: ds.
Proof. destruct d; simpl; congruence. Qed.

Lemma strip_zeros_zeros (k : nat) (ds : list digits) :
  strip_zeros (zeros k ++ ds) = strip_zeros ds.
Proof. induction k as [|k IH]; simpl; [reflexivity | exact IH]. Qed.

Lemma rev_zeros (k : nat) : rev (zeros k) = zeros k.
Proof.
  unfold zeros. induction k as [|k IH]; simpl; [reflexivity|].
  rewrite IH. clear IH. induction k as [|k IH]; simpl; [reflexivity|].
  now rewrite IH.
Qed.

Lemma length_zeros (k : nat) : length (zeros k) = k.
Proof. apply repeat_length. Qed.

Lemma strip_trailing_zeros_app (init : list digits) (x : digits) (k : nat) :
  x <> d0 ->
  strip_trailing_zeros ((init ++ [x]) ++ zeros k) = init ++ [x].
Proof.
  intros Hx. unfold strip_trailing_zeros.
  rewrite rev_app_distr, rev_zeros, strip_zeros_zeros.
  rewrite rev_app_distr.
  change (rev [x] ++ rev init) with (x :: rev init).
  rewrite strip_zeros_head by assumption.
  simpl. now rewrite rev_involutive.
Qed.

Lemma N_of_digits_d0 (ds : list digits) :
  N_of_digits (d0 :: ds) = N_of_digits ds.
Proof. reflexivity. Qed.

Lemma Z_of_digits_d0 (neg : bool) (ds : list digits) :
  Z_of_digits neg (d0 :: ds) = Z_of_digits neg ds.
Proof. reflexivity. Qed.

Lemma digits_of_N_nonnil (n : N) : digits_of_N n <> [].
Proof.
  destruct (digits_of_N_ok n) as [-> | (d & ds & -> & _)]; discriminate.
Qed.

(** The exponent that [repr] prints: its digits and its value. *)
Lemma exp_repr_text (e : Z) :
  exists eds, eds <> [] /\
    String "e" (exp_repr e) = exp_text (Some (e <? 0, eds)) /\
    Z_of_digits (e <? 0) eds = e.
Proof.
  unfold exp_repr, exp_text.
  pose proof (Z_of_digits_of_Z e) as Hv.
  pose proof (digits_of_N_nonnil (Z.abs_N e)) as Hn.
  fold (digits_of_Z e) in Hn.
  destruct (digits_of_Z e) as [|d [|d' ds]] eqn:E; [congruence | |].
  - exists [d0; d]. repeat split; [discriminate | now rewrite Z_of_digits_d0].
  - exists (d :: d' :: ds). repeat split; [discriminate | assumption].
Qed.

Lemma float_ok_inv (neg : bool) (ds : list digits) (decpt : Z) :
  float_ok (FDec neg ds decpt) = true ->
  (ds = [d0] /\ decpt = 1) \/
  ((exists d tl, ds = d :: tl /\ d <> d0) /\
   (exists init x, ds = init ++ [x] /\ x <> d0)).
Proof.
  simpl. destruct ds as [|d [|d' tl]]; [discriminate | |].
  - destruct d; simpl; intros H;
      try (right; split;
           [do 2 eexists; split; [reflexivity | discriminate]
           | exists []; eexists; split; [reflexivity | discriminate]]).
    left. split; [reflexivity | now apply Z.eqb_eq].
  - intros H. apply andb_prop in H as [H1 H2]. right. split.
    + exists d, (d' :: tl). split; [reflexivity|]. now intros ->.
    + exists (removelast (d :: d' :: tl)), (last (d :: d' :: tl) d1). split.
      * apply app_removelast_last. discriminate.
      * intros E. rewrite E in H2. discriminate.
Qed.

Lemma mk_float_normal (neg : bool) (ip fp : list digits) (ex : Z)
    (d : digits) (tl init : list digits) (x : digits) (k : nat) :
  ip ++ fp = (init ++ [x]) ++ zeros k ->
  init ++ [x] = d :: tl -> d <> d0 -> x <> d0 ->
  mk_float neg ip fp ex = FDec neg (init ++ [x]) (Z.of_nat (length ip) + ex).
Proof.
  intros Hall Hd Hd0 Hx. unfold mk_float. rewrite Hall.
  pose proof (strip_trailing_zeros_app init x k Hx) as Ht.
  revert Ht. rewrite Hd. intros Ht.
  change ((d :: tl) ++ zeros k) with (d :: tl ++ zeros k) in *.
  rewrite strip_zeros_head by assumption.
  rewrite Ht, Nat.sub_diag. f_equal. lia.
Qed.

Lemma mk_float_lead (neg : bool) (fp : list digits) (k : nat)
    (d : digits) (tl init : list digits) (x : digits) :
  fp = zeros k ++ (init ++ [x]) ->
  init ++ [x] = d :: tl -> d <> d0 -> x <> d0 ->
  mk_float neg [d0] fp 0 = FDec neg (init ++ [x]) (- Z.of_nat k).
Proof.
  intros -> Hd Hd0 Hx. unfold mk_float.
  pose proof (strip_trailing_zeros_app init x 0 Hx) as Ht.
  simpl zeros in Ht. rewrite List.app_nil_r in Ht.
  revert Ht. rewrite Hd. intros Ht.
  change ([d0] ++ zeros k ++ d :: tl) with (zeros (S k) ++ (d :: tl)).
  rewrite strip_zeros_zeros, strip_zeros_head by assumption.
  rewrite Ht. f_equal.
  rewrite List.length_app, length_zeros. simpl length. lia.
Qed.

End Floats.

Section FloatText.

Lemma zeros_snoc (k : nat) : zeros k ++ [d0] = zeros (S k).
Proof. unfold zeros. induction k as [|k IH]; simpl; [reflexivity | now rewrite IH]. Qed.

(** The text of a float, part by part, and the float its parts denote. *)
Lemma float_repr_text (neg : bool) (ds : list digits) (decpt : Z) :
  float_ok (FDec neg ds decpt) = true ->
  exists ip fp e,
    float_repr (FDec neg ds decpt)
    = sign_text neg +++ print_digits ip +++ frac_text fp +++ exp_text e
    /\ int_digits_ok ip
    /\ match fp with Some fds => fds <> [] | None => True end
    /\ match e with Some (_, eds) => eds <> [] | None => True end
    /\ number_value neg ip fp e = PFloat (FDec neg ds decpt).
Proof.
  intros Hok. apply float_ok_inv in Hok
    as [[-> ->] | [(d & tl & Hd & Hd0) (init & x & Hx & Hx0)]].
  - exists [d0], (Some [d0]), None. repeat split; [now left | discriminate].
  - assert (Hbody : init ++ [x] = d :: tl) by congruence.
    unfold float_repr. fold (sign_text neg).
    destruct ((decpt <=? -4) || (16 <? decpt)) eqn:Hexp.
    + (* scientific notation *)
      destruct (exp_repr_text (decpt - 1)) as (eds & Heds & Het & Hev).
      rewrite Het. rewrite Hd. cbn [firstn skipn].
      exists [d], (match tl with [] => None | _ => Some tl end),
        (Some (decpt - 1 <? 0, eds)).
      repeat split.
      * destruct tl; reflexivity.
      * right. now exists d, [].
      * destruct tl; [exact I | discriminate].
      * assumption.
      * unfold number_value. cbn [exp_value]. rewrite Hev.
        assert (E : mk_float neg [d] tl (decpt - 1) = FDec neg (d :: tl) decpt).
        { rewrite <- Hbody.
          rewrite (mk_float_normal neg [d] tl (decpt - 1) d tl init x 0);
            try assumption.
          - f_equal. simpl length. lia.
          - simpl zeros. rewrite List.app_nil_r. now rewrite Hbody. }
        destruct tl; exact (f_equal PFloat E).
    + apply orb_false_elim in Hexp as [H1 H2].
      apply Z.leb_gt in H1. apply Z.ltb_ge in H2.
      destruct (Z.leb_spec decpt 0) as [Hle|Hgt].
      * (* 0.000ddd *)
        exists [d0], (Some (zeros (Z.to_nat (- decpt)) ++ ds)), None.
        repeat split.
        -- cbn [frac_text exp_text print_digits String.append].
           now rewrite print_digits_app, append_nil_r.
        -- now left.
        -- rewrite Hd. intros E. apply app_eq_nil in E as [_ E]. discriminate.
        -- unfold number_value. cbn [exp_value]. f_equal.
           rewrite Hx.
           rewrite (mk_float_lead neg _ (Z.to_nat (- decpt)) d tl init x);
             try assumption; [|reflexivity].
           f_equal. lia.
      * destruct (Z.ltb_spec decpt (Z.of_nat (length ds))) as [Hlt|Hge].
        -- (* ddd.ddd *)
           exists (firstn (Z.to_nat decpt) ds),
             (Some (skipn (Z.to_nat decpt) ds)), None.
           repeat split.
           ++ cbn [frac_text exp_text]. now rewrite append_nil_r.
           ++ right. rewrite Hd.
              destruct (Z.to_nat decpt) as [|m] eqn:Em; [lia|].
              exists d, (firstn m tl). now split.
           ++ intros E.
              assert (L : length (skipn (Z.to_nat decpt) ds) = 0%nat)
                by now rewrite E.
              rewrite length_skipn in L. lia.
           ++ unfold number_value. cbn [exp_value]. f_equal.
              rewrite Hx.
              rewrite (mk_float_normal neg _ _ 0 d tl init x 0);
                try assumption.
              ** f_equal. rewrite <- Hx, length_firstn. lia.
              ** rewrite <- Hx, firstn_skipn. simpl zeros.
                 now rewrite List.app_nil_r.
        -- (* ddd000.0 *)
           set (k := Z.to_nat (decpt - Z.of_nat (length ds))).
           exists (ds ++ zeros k), (Some [d0]), None.
           repeat split.
           ++ cbn [frac_text exp_text print_digits].
              now rewrite print_digits_app, append_nil_r, append_assoc.
           ++ right. rewrite Hd. exists d, (tl ++ zeros k). now split.
           ++ discriminate.
           ++ unfold number_value. cbn [exp_value]. f_equal.
              rewrite Hx.
              rewrite (mk_float_normal neg _ _ 0 d tl init x (S k));
                try assumption.
              ** f_equal. rewrite <- Hx, List.length_app, length_zeros.
                 unfold k. lia.
              ** now rewrite <- List.app_assoc, zeros_snoc.
Qed.

Lemma parse_scalar_number (s : string) :
  starts_digit s = true \/
  (exists s', s = String "-" s' /\ starts_digit s' = true) ->
  parse_scalar s
  = match parse_number s with
    | Some vr => Ok vr
    | None => Raise JSONDecodeError
    end.
Proof.
  intros [H | (s' & -> & H)].
  - destruct s as [|c s]; [discriminate|]. simpl in H.
    unfold is_digit in H. destruct (char_digit c) as [d|] eqn:E; [|discriminate].
    clear H. revert E.
    destruct c as [[] [] [] [] [] [] [] []]; try discriminate; reflexivity.
  - destruct s' as [|c s]; [discriminate|]. simpl in H.
    unfold is_digit in H. destruct (char_digit c) as [d|] eqn:E; [|discriminate].
    clear H. revert E.
    destruct c as [[] [] [] [] [] [] [] []]; try discriminate; reflexivity.
Qed.

Lemma number_text_starts (neg : bool) (ip : list digits) (t : string) :
  int_digits_ok ip ->
  let s := sign_text neg +++ print_digits ip +++ t in
  starts_digit s = true \/
  (exists s', s = String "-" s' /\ starts_digit s' = true).
Proof.
  intros Hip s. subst s.
  assert (H : starts_digit (print_digits ip +++ t) = true).
  { destruct Hip as [-> | (d & ds & -> & _)];
      [reflexivity | apply starts_digit_print]. }
  destruct neg; [right | now left].
  now exists (print_digits ip +++ t).
Qed.

(** An [int] and a [float] are read back from the text [json.dump] writes
    for them. *)
Lemma parse_scalar_int (z : Z) (r : string) :
  terminator r = true ->
  parse_scalar (int_repr z +++ r) = Ok (PInt z, r).
Proof.
  intros Hr. rewrite parse_scalar_number, parse_number_int; trivial.
  rewrite int_repr_text, append_assoc.
  apply number_text_starts, digits_of_N_ok.
Qed.

Lemma parse_scalar_float (f : pyfloat) (r : string) :
  float_ok f = true -> terminator r = true ->
  parse_scalar (dump_float f +++ r) = Ok (PFloat f, r).
Proof.
  intros Hok Hr. destruct f as [|[]|neg ds decpt]; try reflexivity.
  cbn [dump_float].
  destruct (float_repr_text neg ds decpt Hok)
    as (ip & fp & e & Ht & Hip & Hfp & He & Hv).
  rewrite Ht, !append_assoc.
  rewrite parse_scalar_number
    by (apply number_text_starts; assumption).
  rewrite parse_number_text by assumption. now rewrite Hv.
Qed.

End FloatText.

Section StringLiterals.

(** One character of a string literal, escaped or not, is read back. *)
Lemma parse_string_escape_char (c : ascii) (t : string) :
  parse_string (json_escape_char c +++ t)
  = match parse_string t with
    | Ok (u, r) => Ok (String c u, r)
    | Raise x => Raise x
    end.
Proof.
  destruct c as [[] [] [] [] [] [] [] []]; reflexivity.
Qed.

Lemma parse_string_escape (s r : string) :
  parse_string (json_escape s +++ String dquote r) = Ok (s, r).
Proof.
  induction s as [|c s IH].
  - reflexivity.
  - cbn [json_escape]. rewrite append_assoc, parse_string_escape_char.
    now rewrite IH.
Qed.

Lemma dump_str_text (s r : string) :
  dump_str s +++ r = String dquote (json_escape s +++ String dquote r).
Proof.
  unfold dump_str. cbn [String.append]. now rewrite append_assoc.
Qed.

End StringLiterals.

Section Induction.

Variable P : pyval -> Prop.
Hypothesis HNone : P PNone.
Hypothesis HBool : forall b, P (PBool b).
Hypothesis HInt : forall n, P (PInt n).
Hypothesis HFloat : forall f, P (PFloat f).
Hypothesis HStr : forall s, P (PStr s).
Hypothesis HList : forall l, Forall P l -> P (PList l).
Hypothesis HTuple : forall l, Forall P l -> P (PTuple l).
Hypothesis HDict : forall d, Forall (fun kv => P (snd kv)) d -> P (PDict d).

(** Induction on a value, with the property of the values it holds. *)
Lemma pyval_ind : forall v, P v.
Proof.
  fix IH 1. intros [| b | n | f | s | l | l | d].
  - exact HNone.
  - apply HBool.
  - apply HInt.
  - apply HFloat.
  - apply HStr.
  - apply HList. induction l as [|x l IHl]; constructor; [apply IH | exact IHl].
  - apply HTuple. induction l as [|x l IHl]; constructor; [apply IH | exact IHl].
  - apply HDict. induction d as [|[k x] d IHd]; constructor;
      [apply IH | exact IHd].
Qed.

End Induction.

Section Values.

Lemma dump_list (l : list pyval) :
  dump (PList l) = "[" +++ dump_items l +++ "]".
Proof. reflexivity. Qed.

Lemma dump_dict (d : list (string * pyval)) :
  dump (PDict d) = "{" +++ dump_members d +++ "}".
Proof. reflexivity. Qed.

Lemma size_list (l : list pyval) : size (PList l) = S (sizes l).
Proof. reflexivity. Qed.

Lemma size_dict (d : list (string * pyval)) : size (PDict d) = S (msizes d).
Proof. reflexivity. Qed.

Lemma json_ok_list (l : list pyval) :
  json_ok (PList l) = forallb json_ok l.
Proof. induction l as [|x l IH]; [reflexivity|]. simpl in *. now rewrite IH. Qed.

Lemma json_ok_dict (d : list (string * pyval)) :
  json_ok (PDict d)
  = keys_distinct (map fst d) && forallb (fun kv => json_ok (snd kv)) d.
Proof.
  cbn [json_ok]. f_equal.
  induction d as [|[k x] d IH]; [reflexivity|]. simpl. now rewrite IH.
Qed.

Lemma skip_ws_head (s : string) : head_ok s = true -> skip_ws s = s.
Proof.
  destruct s as [|c s]; [reflexivity|]. simpl.
  intros H. apply andb_prop in H as [H _].
  now destruct (is_json_ws c).
Qed.

Lemma expect_close_head (s : string) : head_ok s = true -> expect "]" s = None.
Proof.
  destruct s as [|c s]; [reflexivity|]. unfold head_ok, expect.
  intros H. apply andb_prop in H as [_ H].
  destruct (Ascii.eqb_spec "]" c) as [<-|]; [discriminate | reflexivity].
Qed.

Lemma parse_value_scalar (fuel : nat) (s : string) :
  scalar_head s = true -> parse_value (S fuel) s = parse_scalar s.
Proof.
  destruct s as [|c s]; [discriminate|]. cbn [scalar_head parse_value].
  intros H. apply andb_prop in H as [H H3]. apply andb_prop in H as [H1 H2].
  destruct (Ascii.eqb c dquote); [discriminate|].
  destruct (Ascii.eqb c "{"); [discriminate|].
  destruct (Ascii.eqb c "["); [discriminate|]. reflexivity.
Qed.

(** The text of a number starts with a digit or a minus. *)
Lemma number_text_heads (neg : bool) (ip : list digits) (t : string) :
  ip <> [] ->
  let s := sign_text neg +++ print_digits ip +++ t in
  head_ok s = true /\ scalar_head s = true.
Proof.
  intros Hip. destruct ip as [|d ip]; [congruence|].
  destruct neg; [split; reflexivity|].
  destruct d; split; reflexivity.
Qed.

Lemma int_digits_ok_nonnil (ip : list digits) : int_digits_ok ip -> ip <> [].
Proof. intros [-> | (d & ds & -> & _)]; discriminate. Qed.

Lemma int_repr_heads (z : Z) (r : string) :
  head_ok (int_repr z +++ r) = true /\ scalar_head (int_repr z +++ r) = true.
Proof.
  rewrite int_repr_text, append_assoc.
  apply number_text_heads, int_digits_ok_nonnil, digits_of_N_ok.
Qed.

Lemma dump_float_heads (f : pyfloat) (r : string) :
  float_ok f = true ->
  head_ok (dump_float f +++ r) = true /\
  scalar_head (dump_float f +++ r) = true.
Proof.
  intros Hok. destruct f as [|[]|neg ds decpt]; try (split; reflexivity).
  cbn [dump_float].
  destruct (float_repr_text neg ds decpt Hok)
    as (ip & fp & e & Ht & Hip & _).
  rewrite Ht, !append_assoc.
  apply number_text_heads, int_digits_ok_nonnil, Hip.
Qed.

Lemma dump_head (v : pyval) (r : string) :
  json_ok v = true -> head_ok (dump v +++ r) = true.
Proof.
  destruct v as [| [] | n | f | s | l | l | d]; intros Hok;
    try reflexivity; try discriminate.
  - apply int_repr_heads.
  - now apply dump_float_heads.
Qed.

Lemma dump_items_head (x : pyval) (l : list pyval) (r : string) :
  json_ok x = true -> head_ok (dump_items (x :: l) +++ r) = true.
Proof.
  intros Hok. cbn [dump_items]. destruct l.
  - now apply dump_head.
  - rewrite append_assoc. now apply dump_head.
Qed.

End Values.

Section Roundtrip.

Lemma dump_items_cons (x : pyval) (l : list pyval) (r : string) :
  dump_items (x :: l) +++ String "]" r = dump x +++ items_tail l r.
Proof.
  cbn [dump_items]. destruct l; [reflexivity|].
  unfold items_tail. now rewrite !append_assoc.
Qed.

Lemma items_tail_terminator (l : list pyval) (r : string) :
  terminator (items_tail l r) = true.
Proof. destruct l; reflexivity. Qed.

Lemma skip_ws_comma (s : string) : skip_ws (", " +++ s) = ", " +++ s.
Proof. reflexivity. Qed.

Lemma expect_comma (s : string) :
  expect "," (", " +++ s) = Some (String " " s).
Proof. reflexivity. Qed.

Lemma skip_ws_space (s : string) : skip_ws (String " " s) = skip_ws s.
Proof. reflexivity. Qed.

Lemma skip_ws_colon (s : string) : skip_ws (": " +++ s) = ": " +++ s.
Proof. reflexivity. Qed.

Lemma expect_colon (s : string) :
  expect ":" (": " +++ s) = Some (String " " s).
Proof. reflexivity. Qed.

(** The elements of an array are read back, given that each is. *)
Lemma parse_elements_dump (l : list pyval) :
  Forall (fun v => json_ok v = true ->
            forall fuel r, (size v <= fuel)%nat -> terminator r = true ->
            parse_value fuel (dump v +++ r) = Ok (v, r)) l ->
  forallb json_ok l = true -> l <> [] ->
  forall fuel r, (sizes l <= fuel)%nat ->
  parse_elements fuel (dump_items l +++ String "]" r) = Ok (l, r).
Proof.
  induction 1 as [|x l Hx Hl IH]; [congruence|].
  intros Hok _ fuel r Hfuel. cbn [forallb] in Hok.
  apply andb_prop in Hok as [Hokx Hokl].
  cbn [sizes] in Hfuel. destruct fuel as [|fuel]; [lia|].
  rewrite dump_items_cons. cbn [parse_elements].
  rewrite (Hx Hokx) by (lia || apply items_tail_terminator).
  destruct l as [|y l].
  - reflexivity.
  - unfold items_tail. rewrite skip_ws_comma, expect_comma, skip_ws_space.
    apply andb_prop in Hokl as Hy. destruct Hy as [Hoky _].
    rewrite skip_ws_head by now apply dump_items_head.
    rewrite IH; [reflexivity | assumption | discriminate | lia].
Qed.

Lemma dump_members_cons (k : string) (x : pyval) (d : list (string * pyval))
    (r : string) :
  dump_members ((k, x) :: d) +++ String "}" r
  = String dquote
      (json_escape k +++ String dquote (": " +++ dump x +++ members_tail d r)).
Proof.
  cbn [dump_members]. destruct d.
  - now rewrite append_assoc, dump_str_text, append_assoc.
  - rewrite append_assoc, dump_str_text. unfold members_tail.
    now rewrite !append_assoc.
Qed.

Lemma members_tail_terminator (d : list (string * pyval)) (r : string) :
  terminator (members_tail d r) = true.
Proof. destruct d; reflexivity. Qed.

Lemma parse_members_dump (d : list (string * pyval)) :
  Forall (fun kv => json_ok (snd kv) = true ->
            forall fuel r, (size (snd kv) <= fuel)%nat -> terminator r = true ->
            parse_value fuel (dump (snd kv) +++ r) = Ok (snd kv, r)) d ->
  forallb (fun kv => json_ok (snd kv)) d = true -> d <> [] ->
  forall fuel acc r, (msizes d <= fuel)%nat ->
  parse_members fuel (dump_members d +++ String "}" r) acc
  = Ok (dict_update acc d, r).
Proof.
  induction 1 as [|[k x] d Hx Hd IH]; [congruence|].
  intros Hok _ fuel acc r Hfuel. cbn [forallb snd] in Hok.
  apply andb_prop in Hok as [Hokx Hokd]. cbn [snd] in Hx.
  cbn [msizes] in Hfuel. destruct fuel as [|fuel]; [lia|].
  rewrite dump_members_cons. cbn [parse_members expect].
  rewrite Ascii.eqb_refl, parse_string_escape.
  rewrite skip_ws_colon, expect_colon, skip_ws_space.
  rewrite skip_ws_head by now apply dump_head.
  rewrite (Hx Hokx) by (lia || apply members_tail_terminator).
  cbn [dict_update fold_left fst snd].
  destruct d as [|[k' y] d].
  - reflexivity.
  - unfold members_tail. rewrite skip_ws_comma, expect_comma, skip_ws_space.
    assert (Hh : head_ok (dump_members ((k', y) :: d) +++ String "}" r) = true)
      by now rewrite dump_members_cons.
    rewrite skip_ws_head by assumption.
    rewrite IH; [reflexivity | assumption | discriminate | lia].
Qed.

(** Setting keys that are new and distinct appends them. *)
Lemma dict_set_new (d : list (string * pyval)) (k : string) (v : pyval) :
  existsb (String.eqb k) (map fst d) = false -> dict_set d k v = d ++ [(k, v)].
Proof.
  induction d as [|[k' v'] d IH]; [reflexivity|]. cbn [map fst existsb dict_set].
  intros H. apply orb_false_elim in H as [H1 H2].
  rewrite String.eqb_sym, H1. simpl. now rewrite IH.
Qed.

Lemma dict_update_new (d acc : list (string * pyval)) :
  keys_distinct (map fst (acc ++ d)) = true -> dict_update acc d = acc ++ d.
Proof.
  revert acc. induction d as [|[k v] d IH]; intros acc H.
  - now rewrite List.app_nil_r.
  - unfold dict_update. cbn [fold_left fst snd]. fold (dict_update (dict_set acc k v) d).
    assert (Hk : existsb (String.eqb k) (map fst acc) = false).
    { clear IH. induction acc as [|[k' v'] acc IHa]; [reflexivity|].
      cbn [app map fst keys_distinct existsb] in *.
      apply andb_prop in H as [H1 H2]. rewrite (IHa H2), orb_false_r.
      rewrite map_app, existsb_app in H1. cbn [map fst existsb] in H1.
      apply negb_true_iff in H1. apply orb_false_elim in H1 as [_ H1].
      apply orb_false_elim in H1 as [H1 _]. now rewrite String.eqb_sym. }
    rewrite dict_set_new by assumption.
    rewrite IH; rewrite <- List.app_assoc; [reflexivity | exact H].
Qed.

(** A value is read back from its text when a terminator follows. *)
Lemma parse_value_dump (v : pyval) :
  json_ok v = true ->
  forall fuel r, (size v <= fuel)%nat -> terminator r = true ->
  parse_value fuel (dump v +++ r) = Ok (v, r).
Proof.
  induction v as [| b | n | f | s | l IH | l IH | d IH] using pyval_ind;
    intros Hok fuel r Hfuel Hr;
    (destruct fuel as [|fuel]; [cbn in Hfuel; lia|]).
  - reflexivity.
  - destruct b; reflexivity.
  - cbn [dump]. rewrite parse_value_scalar by apply int_repr_heads.
    now apply parse_scalar_int.
  - cbn [dump]. cbn [json_ok] in Hok.
    rewrite parse_value_scalar by now apply dump_float_heads.
    now apply parse_scalar_float.
  - cbn [dump]. rewrite dump_str_text. cbn [parse_value].
    rewrite Ascii.eqb_refl. now rewrite parse_string_escape.
  - rewrite json_ok_list in Hok. rewrite size_list in Hfuel.
    rewrite dump_list. cbn [String.append]. rewrite append_assoc.
    cbn [parse_value]. change (Ascii.eqb "[" dquote) with false.
    change (Ascii.eqb "[" "{") with false. change (Ascii.eqb "[" "[") with true.
    cbv iota zeta. cbn [String.append].
    destruct l as [|x l].
    + reflexivity.
    + assert (Hx : json_ok x = true)
        by (cbn [forallb] in Hok; now apply andb_prop in Hok).
      rewrite skip_ws_head by now apply dump_items_head.
      rewrite expect_close_head by now apply dump_items_head.
      rewrite parse_elements_dump;
        [reflexivity | assumption | assumption | discriminate | lia].
  - discriminate.
  - rewrite json_ok_dict in Hok. apply andb_prop in Hok as [Hkeys Hvals].
    rewrite size_dict in Hfuel.
    rewrite dump_dict. cbn [String.append]. rewrite append_assoc.
    cbn [parse_value]. change (Ascii.eqb "{" dquote) with false.
    change (Ascii.eqb "{" "{") with true.
    cbv iota zeta. cbn [String.append].
    destruct d as [|[k x] d].
    + reflexivity.
    + rewrite dump_members_cons. cbn [skip_ws].
      change (is_json_ws dquote) with false. cbv iota.
      cbn [expect]. change (Ascii.eqb "}" dquote) with false. cbv iota.
      rewrite <- dump_members_cons.
      rewrite parse_members_dump;
        [| assumption | assumption | discriminate | lia].
      now rewrite dict_update_new.
Qed.

Lemma dump_length (v : pyval) :
  json_ok v = true -> (size v <= String.length (dump v))%nat.
Proof.
  induction v as [| b | n | f | s | l IH | l IH | d IH] using pyval_ind;
    intros Hok.
  - cbn. lia.
  - destruct b; cbn; lia.
  - pose proof (dump_head (PInt n) EmptyString Hok) as H.
    rewrite append_nil_r in H. destruct (dump (PInt n)); [discriminate|].
    cbn. lia.
  - pose proof (dump_head (PFloat f) EmptyString Hok) as H.
    rewrite append_nil_r in H. destruct (dump (PFloat f)); [discriminate|].
    cbn. lia.
  - cbn. lia.
  - rewrite json_ok_list in Hok. rewrite size_list, dump_list.
    cbn [String.append String.length]. rewrite length_append.
    cbn [String.length].
    enough (sizes l <= S (String.length (dump_items l)))%nat by lia.
    induction IH as [|x l Hx Hl IHl]; [cbn; lia|].
    cbn [forallb] in Hok. apply andb_prop in Hok as [Hokx Hokl].
    specialize (Hx Hokx). specialize (IHl Hokl).
    cbn [sizes dump_items]. destruct l.
    + cbn [sizes]. lia.
    + rewrite !length_append. cbn [String.length]. lia.
  - discriminate.
  - rewrite json_ok_dict in Hok. apply andb_prop in Hok as [_ Hok].
    rewrite size_dict, dump_dict.
    cbn [String.append String.length]. rewrite length_append.
    cbn [String.length].
    enough (msizes d <= S (String.length (dump_members d)))%nat by lia.
    induction IH as [|[k x] d Hx Hd IHd]; [cbn; lia|].
    cbn [forallb snd] in Hok. apply andb_prop in Hok as [Hokx Hokd].
    cbn [snd] in Hx. specialize (Hx Hokx). specialize (IHd Hokd).
    cbn [msizes dump_members]. destruct d.
    + cbn [msizes]. rewrite !length_append. lia.
    + rewrite !length_append. cbn [String.length]. lia.
Qed.

(** [json.loads(json.dumps(v)) == v]. *)
Lemma json_loads_dumps (v : pyval) :
  json_ok v = true -> json_loads (json_dumps v) = Ok v.
Proof.
  intros Hok. unfold json_loads, json_dumps.
  pose proof (dump_head v EmptyString Hok) as Hh.
  rewrite append_nil_r in Hh. rewrite skip_ws_head by assumption.
  rewrite <- (append_nil_r (dump v)) at 2.
  rewrite parse_value_dump; [reflexivity | assumption | | reflexivity].
  pose proof (dump_length v Hok). lia.
Qed.

End Roundtrip.

Section ParsedValues.

(** Without its leading zeros, a digit string is empty or starts with
    another digit. *)
Lemma strip_zeros_cases (ds : list digits) :
  strip_zeros ds = [] \/
  exists d tl, strip_zeros ds = d :: tl /\ d <> d0.
Proof.
  induction ds as [|d ds IH]; [now left|].
  destruct d; try (right; eexists _, _; split; [reflexivity | discriminate]).
  exact IH.
Qed.

Lemma strip_zeros_snoc (a : list digits) (d : digits) :
  d <> d0 -> exists b, strip_zeros (a ++ [d]) = b ++ [d] /\
                       (b = [] \/ exists x tl, b = x :: tl /\ x <> d0).
Proof.
  intros Hd. induction a as [|x a IH].
  - exists []. split; [now apply strip_zeros_head | now left].
  - destruct x;
      try (eexists (_ :: a); split;
           [reflexivity | right; eexists _, _; split;
                          [reflexivity | discriminate]]).
    exact IH.
Qed.

Lemma float_ok_ends (neg : bool) (d x : digits) (mid : list digits) (p : Z) :
  d <> d0 -> x <> d0 -> float_ok (FDec neg (d :: mid ++ [x]) p) = true.
Proof.
  intros Hd Hx. cbn [float_ok].
  destruct (mid ++ [x]) eqn:E; [now destruct mid|]. rewrite <- E.
  apply andb_true_intro. split.
  - destruct d; (reflexivity || congruence).
  - change (d :: mid ++ [x]) with ((d :: mid) ++ [x]). rewrite last_last.
    destruct x; (reflexivity || congruence).
Qed.

Lemma float_ok_single (neg : bool) (d : digits) (p : Z) :
  d <> d0 -> float_ok (FDec neg [d] p) = true.
Proof. destruct d; (reflexivity || congruence). Qed.

(** The float of a literal has the digits that [repr] yields. *)
Lemma mk_float_ok (neg : bool) (ip fp : list digits) (ex : Z) :
  float_ok (mk_float neg ip fp ex) = true.
Proof.
  unfold mk_float. set (pt := _ - _). clearbody pt.
  unfold strip_trailing_zeros.
  destruct (strip_zeros_cases (ip ++ fp)) as [-> | (d & tl & -> & Hd)];
    [reflexivity|].
  assert (E : rev (d :: tl) = rev tl ++ [d]) by reflexivity. rewrite E.
  destruct (strip_zeros_snoc (rev tl) d Hd) as (b & -> & Hb).
  rewrite rev_app_distr. cbn [rev app].
  destruct Hb as [-> | (x & t & -> & Hx)].
  - now apply float_ok_single.
  - cbn [rev]. now apply float_ok_ends.
Qed.

Lemma parse_number_ok (s : string) (v : pyval) (r : string) :
  parse_number s = Some (v, r) -> json_ok v = true.
Proof.
  unfold parse_number. destruct (scan_minus s) as [neg s1].
  destruct (scan_int_part s1) as [[ip s2]|]; [|discriminate].
  destruct (match scan_fraction s2 with
            | Some (fp, r0) => (Some fp, r0) | None => (None, s2) end)
    as [frac s3].
  destruct (match scan_exponent scan_digits s3 with
            | Some (e, r0) => (Some e, r0) | None => (None, s3) end)
    as [ex s4].
  destruct frac, ex; intros [= <- _]; try apply mk_float_ok; reflexivity.
Qed.

Lemma parse_scalar_ok (s : string) (v : pyval) (r : string) :
  parse_scalar s = Ok (v, r) -> json_ok v = true.
Proof.
  unfold parse_scalar.
  repeat match goal with
         | |- context [match drop_prefix ?p s with _ => _ end] =>
             destruct (drop_prefix p s); [now intros [= <- _]|]
         end.
  destruct (parse_number s) as [[v' r']|] eqn:E; [|discriminate].
  intros [= <- _]. now apply parse_number_ok in E.
Qed.

(** Setting a key keeps the keys distinct and the values well-formed. *)
Lemma dict_set_keys (d : list (string * pyval)) (k : string) (v : pyval)
    (k' : string) :
  existsb (String.eqb k') (map fst (dict_set d k v))
  = existsb (String.eqb k') (map fst d) || String.eqb k' k.
Proof.
  induction d as [|[k0 v0] d IH]; cbn [dict_set map fst existsb].
  - now rewrite orb_false_r.
  - destruct (String.eqb_spec k0 k) as [->|Hne]; cbn [map fst existsb].
    + destruct (String.eqb k' k); [now rewrite orb_true_r | now rewrite orb_false_r].
    + rewrite IH. now rewrite orb_assoc.
Qed.

Lemma dict_set_ok (d : list (string * pyval)) (k : string) (v : pyval) :
  json_ok (PDict d) = true -> json_ok v = true ->
  json_ok (PDict (dict_set d k v)) = true.
Proof.
  rewrite !json_ok_dict. intros H Hv. apply andb_prop in H as [Hk Hd].
  induction d as [|[k0 v0] d IH]; cbn [dict_set].
  - cbn. now rewrite Hv.
  - cbn [map fst keys_distinct forallb snd] in Hk, Hd.
    apply andb_prop in Hk as [Hk0 Hk]. apply andb_prop in Hd as [Hv0 Hd].
    specialize (IH Hk Hd). apply andb_prop in IH as [IH1 IH2].
    destruct (String.eqb_spec k0 k) as [->|Hne];
      cbn [map fst keys_distinct forallb snd].
    + now rewrite Hk0, Hk, Hv, Hd.
    + rewrite dict_set_keys, IH1, IH2, Hv0.
      apply negb_true_iff in Hk0. rewrite Hk0.
      apply String.eqb_neq in Hne. now rewrite Hne.
Qed.

(** What the parser reads is a value that a JSON text denotes. *)
Lemma parse_value_ok (fuel : nat) :
  (forall s v r, parse_value fuel s = Ok (v, r) -> json_ok v = true) /\
  (forall s l r, parse_elements fuel s = Ok (l, r) ->
                 forallb json_ok l = true) /\
  (forall s acc d r, parse_members fuel s acc = Ok (d, r) ->
                     json_ok (PDict acc) = true -> json_ok (PDict d) = true).
Proof.
  induction fuel as [|fuel (IHv & IHe & IHm)];
    [repeat split; intros; discriminate|].
  repeat split.
  - intros s v r. cbn [parse_value]. destruct s as [|c s']; [discriminate|].
    destruct (Ascii.eqb c dquote).
    { destruct (parse_string s') as [[t r']|]; [|discriminate].
      now intros [= <- _]. }
    destruct (Ascii.eqb c "{").
    { cbv zeta. destruct (expect "}" (skip_ws s')); [now intros [= <- _]|].
      destruct (parse_members fuel (skip_ws s') []) as [[d r']|] eqn:E;
        [|discriminate].
      intros [= <- _]. now apply IHm in E. }
    destruct (Ascii.eqb c "[").
    { cbv zeta. destruct (expect "]" (skip_ws s')); [now intros [= <- _]|].
      destruct (parse_elements fuel (skip_ws s')) as [[l r']|] eqn:E;
        [|discriminate].
      intros [= <- _]. rewrite json_ok_list. now apply IHe in E. }
    apply parse_scalar_ok.
  - intros s l r. cbn [parse_elements].
    destruct (parse_value fuel s) as [[v r0]|] eqn:Ev; [|discriminate].
    apply IHv in Ev. cbv zeta.
    destruct (expect "," (skip_ws r0)).
    + destruct (parse_elements fuel (skip_ws s0)) as [[l' r']|] eqn:E;
        [|discriminate].
      intros [= <- _]. apply IHe in E. cbn [forallb]. now rewrite Ev, E.
    + destruct (expect "]" (skip_ws r0)); [|discriminate].
      intros [= <- _]. cbn [forallb]. now rewrite Ev.
  - intros s acc d r. cbn [parse_members].
    destruct (expect dquote s) as [s'|]; [|discriminate].
    destruct (parse_string s') as [[k r0]|]; [|discriminate].
    destruct (expect ":" (skip_ws r0)) as [r1|]; [|discriminate].
    destruct (parse_value fuel (skip_ws r1)) as [[v r2]|] eqn:Ev; [|discriminate].
    apply IHv in Ev. cbv zeta. intros H Hacc.
    pose proof (dict_set_ok acc k v Hacc Ev) as Hacc'.
    destruct (expect "," (skip_ws r2)).
    + now apply IHm in H.
    + destruct (expect "}" (skip_ws r2)); [|discriminate].
      now injection H as <- _.
Qed.

Lemma json_loads_ok (s : string) (v : pyval) :
  json_loads s = Ok v -> json_ok v = true.
Proof.
  unfold json_loads.
  destruct (parse_value (S (String.length s)) (skip_ws s)) as [[v' r]|] eqn:E;
    [|discriminate].
  destruct (skip_ws r); [|discriminate]. intros [= <-].
  now apply parse_value_ok in E.
Qed.

Lemma dict_get_ok (d : list (string * pyval)) (k : string) (v : pyval) :
  json_ok (PDict d) = true -> dict_get d k = Some v -> json_ok v = true.
Proof.
  rewrite json_ok_dict. intros H. apply andb_prop in H as [_ H].
  induction d as [|[k0 v0] d IH]; [discriminate|].
  cbn [forallb snd dict_get] in *. apply andb_prop in H as [Hv Hd].
  destruct (String.eqb k0 k); [now intros [= <-] | now apply IH].
Qed.

Lemma py_getitem_ok (v : pyval) (k : string) (x : pyval) :
  json_ok v = true -> py_getitem v k = Ok x -> json_ok x = true.
Proof.
  destruct v as [| | | | | | |d]; try discriminate. cbn [py_getitem].
  intros Hd. destruct (dict_get d k) eqn:E; [|discriminate].
  intros [= <-]. now apply (dict_get_ok d k).
Qed.

End ParsedValues.

Section Store.

Import JSONDataManager.

(** What the store holds is a value that a JSON text denotes. *)
Lemma stored_ok (st : store) (data : pyval) :
  stored st data -> json_ok data = true.
Proof.
  unfold stored, _load_data. intros [= H].
  destruct (json_loads (file st)) as [doc|] eqn:E; [|discriminate].
  apply json_loads_ok in E. cbn [rbind] in H. now apply (py_getitem_ok doc "users").
Qed.

(** After [_write_data], the store holds what was written. *)
Lemma stored_document (data : pyval) (n : nat) :
  json_ok data = true ->
  stored {| file := document data; writes := n |} data.
Proof.
  intros Hok. unfold stored, _load_data, document. cbn [file].
  rewrite json_loads_dumps; [reflexivity|].
  rewrite json_ok_dict. cbn. now rewrite Hok.
Qed.

End Store.

(* ===================================================================== *)
(** * Part 6. The data manager: reads and rejections *)
(* ===================================================================== *)

Import JSONDataManager.

Section Reads.

Lemma is_user_fields (user : pyval) :
  is_user user = true ->
  exists d uid name ms,
    user = PDict d /\ dict_get d "user_id" = Some (PStr uid) /\
    dict_get d "name" = Some (PStr name) /\
    dict_get d "movies" = Some (PList ms) /\ forallb is_movie ms = true.
Proof.
  destruct user as [| | | | | | |d]; try discriminate. cbn [is_user].
  destruct (dict_get d "user_id") as [[| | | |uid| | |]|] eqn:E1;
    try discriminate.
  destruct (dict_get d "name") as [[| | | |name| | |]|] eqn:E2;
    try discriminate.
  destruct (dict_get d "movies") as [[| | | | |ms| |]|] eqn:E3;
    try discriminate.
  intros H. now exists d, uid, name, ms.
Qed.

Lemma is_movie_fields (movie : pyval) :
  is_movie movie = true ->
  exists d n, movie = PDict d /\ dict_get d "id" = Some (PInt n).
Proof.
  destruct movie as [| | | | | | |d]; try discriminate. cbn [is_movie].
  destruct (dict_get d "id") as [[| |n| | | | |]|] eqn:E; try discriminate.
  intros _. now exists d, n.
Qed.

(** The loop of [get_user_movies] runs through users of other ids. *)
Lemma get_user_movies_loop_none (users : list pyval) (user_id : pyval) :
  forallb is_user users = true ->
  existsb (has_user_id user_id) users = false ->
  get_user_movies_loop users user_id = Ok (PList []).
Proof.
  induction users as [|user users IH]; [reflexivity|].
  cbn [forallb existsb]. intros Hu Hn.
  apply andb_prop in Hu as [Hu Hus]. apply orb_false_elim in Hn as [Hn Hns].
  destruct (is_user_fields user Hu) as (d & uid & name & ms & -> & Hid & _).
  unfold has_user_id in Hn. cbn [get_user_movies_loop py_getitem] in *.
  rewrite Hid in *. cbn [rbind]. rewrite Hn. now apply IH.
Qed.

Lemma name_taken_true (users : list pyval) (user_name : pyval) :
  forallb is_user users = true ->
  existsb (has_name user_name) users = true ->
  name_taken users user_name = Ok true.
Proof.
  induction users as [|user users IH]; [discriminate|].
  cbn [forallb existsb]. intros Hu Hn.
  apply andb_prop in Hu as [Hu Hus].
  destruct (is_user_fields user Hu) as (d & uid & name & ms & -> & _ & Hname & _).
  unfold has_name in Hn. cbn [name_taken py_getitem] in *.
  rewrite Hname in *. cbn [rbind].
  destruct (py_eq (PStr name) user_name); [reflexivity|].
  now apply IH.
Qed.

Lemma name_taken_false (users : list pyval) (user_name : pyval) :
  forallb is_user users = true ->
  existsb (has_name user_name) users = false ->
  name_taken users user_name = Ok false.
Proof.
  induction users as [|user users IH]; [reflexivity|].
  cbn [forallb existsb]. intros Hu Hn.
  apply andb_prop in Hu as [Hu Hus]. apply orb_false_elim in Hn as [Hn Hns].
  destruct (is_user_fields user Hu) as (d & uid & name & ms & -> & _ & Hname & _).
  unfold has_name in Hn. cbn [name_taken py_getitem] in *.
  rewrite Hname in *. cbn [rbind]. rewrite Hn. now apply IH.
Qed.

End Reads.

(** C9.  For a store whose users follow the data model and none of whom
    has the given id, [get_user_movies] returns the empty list: it raises
    nothing and leaves the store as it was. *)
Theorem get_user_movies_absent (st : store) (users : list pyval)
    (user_id : pyval) :
  stored st (PList users) ->
  is_users (PList users) = true ->
  existsb (has_user_id user_id) users = false ->
  get_user_movies user_id st = (Ok (PList []), st).
Proof.
  intros Hst Hu Hn. unfold get_user_movies, bind. rewrite Hst.
  cbn [py_iter lift]. now rewrite get_user_movies_loop_none.
Qed.

(** C3.  When a stored user bears the name already, [add_user] returns the
    message that the user exists and writes nothing: the store after the
    call is the store before it. *)
Theorem add_user_duplicate (st : store) (users : list pyval)
    (user_name : pyval) :
  stored st (PList users) ->
  is_users (PList users) = true ->
  existsb (has_name user_name) users = true ->
  add_user user_name st = (Ok (PStr "User with this name already exists."), st).
Proof.
  intros Hst Hu Hn. unfold add_user, bind. rewrite Hst.
  cbn [py_iter lift]. now rewrite name_taken_true.
Qed.

(** C4.  When the lookup service reports no movie, [add_movie] returns the
    error of its reply as it is and writes nothing, whatever the user and
    the store. *)
Theorem add_movie_not_found (omdb : pyval -> pyval) (st : store)
    (user_id movie_title error : pyval) :
  not_found (omdb movie_title) = true ->
  py_getitem (omdb movie_title) "Error" = Ok error ->
  add_movie omdb user_id movie_title st = (Ok error, st).
Proof.
  intros Hnf He. unfold add_movie, bind, lift, not_found in *.
  destruct (py_getitem (omdb movie_title) "Response") as [response|];
    [|discriminate].
  apply negb_true_iff in Hnf. rewrite Hnf, He. reflexivity.
Qed.

(** The witnesses run the methods on the sample document. *)
Lemma sample_stored : stored sample_store (PList [alice]).
Proof. vm_compute. reflexivity. Qed.

Lemma get_user_movies_absent_witness :
  stored sample_store (PList [alice]) /\
  is_users (PList [alice]) = true /\
  existsb (has_user_id (PStr "7")) [alice] = false /\
  get_user_movies (PStr "7") sample_store = (Ok (PList []), sample_store).
Proof.
  split; [vm_compute; reflexivity|]. split; [reflexivity|].
  split; [reflexivity|].
  apply (get_user_movies_absent sample_store [alice] (PStr "7"));
    vm_compute; reflexivity.
Defined.

Lemma add_user_duplicate_witness :
  add_user (PStr "Alice") sample_store
  = (Ok (PStr "User with this name already exists."), sample_store).
Proof.
  apply (add_user_duplicate sample_store [alice] (PStr "Alice"));
    vm_compute; reflexivity.
Defined.

Lemma add_movie_not_found_witness :
  add_movie sample_omdb (PStr "1") (PStr "Zzyzx") sample_store
  = (Ok (PStr "Movie not found!"), sample_store).
Proof.
  apply (add_movie_not_found sample_omdb sample_store (PStr "1") (PStr "Zzyzx"));
    vm_compute; reflexivity.
Defined.

Section Writes.

Lemma add_movie_loop_absent (users : list pyval) (user_id : string)
    (movie_data : list (string * pyval)) :
  forallb is_user users = true ->
  existsb (has_user_id (PStr user_id)) users = false ->
  add_movie_loop users user_id movie_data = Ok users.
Proof.
  induction users as [|user users IH]; [reflexivity|].
  cbn [forallb existsb]. intros Hu Hn.
  apply andb_prop in Hu as [Hu Hus]. apply orb_false_elim in Hn as [Hn Hns].
  destruct (is_user_fields user Hu) as (d & uid & name & ms & -> & Hid & _).
  unfold has_user_id in Hn. cbn [add_movie_loop py_getitem] in *.
  rewrite Hid in *. cbn [rbind]. rewrite Hn. now rewrite IH.
Qed.

End Writes.

(** C5.  When the lookup service reports a movie and no stored user has
    the id, [add_movie] returns [None] as on success and writes once: the
    document it writes is the document of the users it loaded, and the
    store holds the same users after the call. *)
Theorem add_movie_unknown_user (omdb : pyval -> pyval) (st : store)
    (users : list pyval) (user_id movie_title : pyval)
    (movie_data : list (string * pyval)) :
  stored st (PList users) ->
  is_users (PList users) = true ->
  found (omdb movie_title) = true ->
  movie_data_of (omdb movie_title) = Ok movie_data ->
  existsb (has_user_id (PStr (py_str user_id))) users = false ->
  let st' := {| file := document (PList users); writes := S (writes st) |} in
  add_movie omdb user_id movie_title st = (Ok PNone, st') /\
  stored st' (PList users).
Proof.
  intros Hst Hu Hf Hmd Hn st'. split.
  - unfold add_movie, bind, lift, found in *.
    destruct (py_getitem (omdb movie_title) "Response") as [response|];
      [|discriminate].
    rewrite Hf, Hmd, Hst. cbn [py_iter].
    now rewrite add_movie_loop_absent.
  - apply stored_document. now apply (stored_ok st).
Qed.

Lemma add_movie_unknown_user_witness :
  add_movie sample_omdb (PInt 7) (PStr "Heat") sample_store
  = (Ok PNone, {| file := document (PList [alice]); writes := 1 |}) /\
  stored {| file := document (PList [alice]); writes := 1 |} (PList [alice]).
Proof.
  refine (add_movie_unknown_user sample_omdb sample_store [alice] (PInt 7)
            (PStr "Heat") _ _ _ _ _ _); vm_compute; reflexivity.
Defined.

(** C8.  Writing a list of users and loading it again yields the list that
    was written, for every value that the memory of the program can hold: no
    tuple, no key twice in a dict, floats with the digits of their [repr]. *)
Theorem write_then_load (data : pyval) (st : store) :
  json_ok data = true ->
  bind (_write_data data) (fun _ => _load_data) st
  = (Ok data, {| file := document data; writes := S (writes st) |}).
Proof.
  intros Hok. unfold bind, _write_data.
  apply (stored_document data (S (writes st)) Hok).
Qed.

Lemma write_then_load_witness :
  bind (_write_data (PList [alice])) (fun _ => _load_data) sample_store
  = (Ok (PList [alice]),
     {| file := document (PList [alice]); writes := 1 |}).
Proof.
  apply (write_then_load (PList [alice]) sample_store). vm_compute. reflexivity.
Defined.

(** C10.  The two outcomes of [add_user] differ in shape.  On a name that
    is taken it returns the bare message, which does not unpack into two
    values: the route of the application, which unpacks the result into a
    pair, raises.  On a new name it returns the pair of [None] and the name,
    which the route unpacks. *)
Theorem add_user_result_shapes (st : store) (users : list pyval)
    (user_name : pyval) :
  stored st (PList users) ->
  is_users (PList users) = true ->
  (existsb (has_name user_name) users = true ->
   add_user user_name st = (Ok (PStr user_exists_message), st) /\
   py_unpack2 (PStr user_exists_message) = Raise ValueError /\
   App.add_user user_name st = (Raise ValueError, st)) /\
  (existsb (has_name user_name) users = false ->
   let st' := with_new_user st users user_name in
   add_user user_name st = (Ok (PTuple [PNone; user_name]), st') /\
   py_unpack2 (PTuple [PNone; user_name]) = Ok (PNone, user_name) /\
   App.add_user user_name st = (Ok (App.Redirect "user_movies" user_name), st')).
Proof.
  intros Hst Hu. split; intros Hn.
  - assert (H : add_user user_name st = (Ok (PStr user_exists_message), st)).
    { unfold add_user, bind. rewrite Hst. cbn [py_iter lift].
      now rewrite name_taken_true. }
    repeat split; [exact H | ].
    unfold App.add_user, bind. now rewrite H.
  - intros st'.
    assert (H : add_user user_name st = (Ok (PTuple [PNone; user_name]), st')).
    { unfold add_user, bind. rewrite Hst. cbn [py_iter lift].
      rewrite name_taken_false by assumption. reflexivity. }
    repeat split; [exact H | ].
    unfold App.add_user, bind. now rewrite H.
Qed.

Lemma add_user_result_shapes_witness :
  App.add_user (PStr "Alice") sample_store = (Raise ValueError, sample_store).
Proof.
  apply (add_user_result_shapes sample_store [alice] (PStr "Alice"));
    vm_compute; reflexivity.
Defined.

(** C2.  [get_user_movies] compares the id it is given with the stored
    one as it is: on the sample document, whose user has the id ["1"], the
    integer [1] finds no user and yields the empty list, where the string
    ["1"] yields the movies.  [get_movie] converts both ids and returns the
    same movie for either form. *)
Theorem get_user_movies_int_id :
  get_user_movies (PInt 1) sample_store = (Ok (PList []), sample_store) /\
  get_user_movies (PStr "1") sample_store
  = (Ok (PList [inception]), sample_store) /\
  get_movie (PInt 1) (PInt 1) sample_store = (Ok inception, sample_store) /\
  get_movie (PStr "1") (PStr "1") sample_store = (Ok inception, sample_store).
Proof. repeat split; vm_compute; reflexivity. Qed.

Section Deletion.

Lemma dict_get_set (d : list (string * pyval)) (k : string) (v : pyval)
    (k' : string) :
  dict_get (dict_set d k v) k'
  = if String.eqb k k' then Some v else dict_get d k'.
Proof.
  induction d as [|[k0 v0] d IH]; cbn [dict_set dict_get].
  - reflexivity.
  - destruct (String.eqb_spec k0 k) as [->|Hne]; cbn [dict_get].
    + now destruct (String.eqb k k').
    + rewrite IH. destruct (String.eqb_spec k0 k') as [->|Hne'];
        [|reflexivity].
      apply String.eqb_neq in Hne. rewrite String.eqb_sym in Hne.
      now rewrite Hne.
Qed.

Lemma dict_set_same (d : list (string * pyval)) (k : string) (v : pyval) :
  dict_get d k = Some v -> dict_set d k v = d.
Proof.
  induction d as [|[k0 v0] d IH]; [discriminate|]. cbn [dict_get dict_set].
  destruct (String.eqb_spec k0 k) as [->|Hne].
  - now intros [= ->].
  - intros H. now rewrite IH.
Qed.

Lemma dict_set_set (d : list (string * pyval)) (k : string) (v w : pyval) :
  dict_set (dict_set d k v) k w = dict_set d k w.
Proof.
  induction d as [|[k0 v0] d IH]; cbn [dict_set].
  - now rewrite String.eqb_refl.
  - destruct (String.eqb_spec k0 k) as [->|Hne]; cbn [dict_set].
    + now rewrite String.eqb_refl.
    + apply String.eqb_neq in Hne. now rewrite Hne, IH.
Qed.

Lemma movie_id_of_movie (d : list (string * pyval)) (n : Z) :
  dict_get d "id" = Some (PInt n) -> movie_id_of (PDict d) = n.
Proof. unfold movie_id_of. cbn [py_getitem]. now intros ->. Qed.

(** The comprehension of [delete_movie] is the filter on the ids. *)
Lemma keep_movies_filter (ms : list pyval) (movie_id : Z) :
  forallb is_movie ms = true ->
  keep_movies ms movie_id = Ok (filter (other_id movie_id) ms).
Proof.
  induction ms as [|movie ms IH]; [reflexivity|].
  cbn [forallb]. intros H. apply andb_prop in H as [Hm Hms].
  destruct (is_movie_fields movie Hm) as (d & n & -> & Hid).
  cbn [keep_movies py_getitem filter]. rewrite Hid. cbn [rbind py_int].
  rewrite (IH Hms). cbn [rbind].
  replace (other_id movie_id (PDict d)) with (negb (n =? movie_id))
    by (unfold other_id; now rewrite (movie_id_of_movie d n Hid)).
  now destruct (n =? movie_id).
Qed.

Lemma delete_movie_loop_spec (users : list pyval) (user_id : string)
    (movie_id : Z) :
  forallb is_user users = true ->
  delete_movie_loop users user_id movie_id
  = Ok (spec_delete_movie user_id movie_id users).
Proof.
  induction users as [|user users IH]; [reflexivity|].
  cbn [forallb]. intros H. apply andb_prop in H as [Hu Hus].
  destruct (is_user_fields user Hu)
    as (d & uid & name & ms & -> & Hid & _ & Hms & Hmovies).
  cbn [delete_movie_loop spec_delete_movie]. unfold has_user_id, without_movie.
  cbn [py_getitem]. rewrite Hid, Hms. cbn [rbind].
  destruct (py_eq (PStr uid) (PStr user_id)).
  - cbn [py_iter rbind]. now rewrite keep_movies_filter.
  - now rewrite IH.
Qed.

Lemma forallb_filter {A : Type} (p q : A -> bool) (l : list A) :
  forallb p l = true -> forallb p (filter q l) = true.
Proof.
  induction l as [|x l IH]; [reflexivity|]. cbn [forallb filter].
  intros H. apply andb_prop in H as [Hx Hl].
  destruct (q x); cbn [forallb]; [rewrite Hx|]; now apply IH.
Qed.

Lemma is_user_set_movies (d : list (string * pyval)) (ms : list pyval) :
  is_user (PDict d) = true -> forallb is_movie ms = true ->
  is_user (PDict (dict_set d "movies" (PList ms))) = true.
Proof.
  intros Hu Hms.
  destruct (is_user_fields _ Hu) as (d' & uid & name & ms' & [= <-] & H1 & H2 & _).
  cbn [is_user]. rewrite !dict_get_set. cbn. now rewrite H1, H2.
Qed.

Lemma without_movie_user (movie_id : Z) (user : pyval) :
  is_user user = true -> is_user (without_movie movie_id user) = true.
Proof.
  intros Hu.
  destruct (is_user_fields user Hu) as (d & uid & name & ms & -> & _ & _ & Hms & H).
  unfold without_movie. cbn [py_getitem]. rewrite Hms. cbn [set_field].
  apply is_user_set_movies; [assumption | now apply forallb_filter].
Qed.

Lemma spec_delete_movie_users (user_id : string) (movie_id : Z)
    (users : list pyval) :
  forallb is_user users = true ->
  forallb is_user (spec_delete_movie user_id movie_id users) = true.
Proof.
  induction users as [|user users IH]; [reflexivity|].
  cbn [forallb spec_delete_movie]. intros H. apply andb_prop in H as [Hu Hus].
  destruct (has_user_id (PStr user_id) user); cbn [forallb].
  - now rewrite without_movie_user, Hus.
  - now rewrite Hu, IH.
Qed.

Lemma without_movie_ok (movie_id : Z) (user : pyval) :
  json_ok user = true -> json_ok (without_movie movie_id user) = true.
Proof.
  intros Hok. unfold without_movie.
  destruct (py_getitem user "movies") as [[| | | | |ms| |]|] eqn:E; try assumption.
  destruct user as [| | | | | | |d]; try discriminate. cbn [set_field].
  apply dict_set_ok; [assumption|].
  apply py_getitem_ok in E; [|assumption].
  rewrite json_ok_list in *. now apply forallb_filter.
Qed.

Lemma spec_delete_movie_ok (user_id : string) (movie_id : Z)
    (users : list pyval) :
  forallb json_ok users = true ->
  forallb json_ok (spec_delete_movie user_id movie_id users) = true.
Proof.
  induction users as [|user users IH]; [reflexivity|].
  cbn [forallb spec_delete_movie]. intros H. apply andb_prop in H as [Hu Hus].
  destruct (has_user_id (PStr user_id) user); cbn [forallb].
  - now rewrite without_movie_ok, Hus.
  - now rewrite Hu, IH.
Qed.

Lemma filter_filter {A : Type} (p : A -> bool) (l : list A) :
  filter p (filter p l) = filter p l.
Proof.
  induction l as [|x l IH]; [reflexivity|]. cbn [filter].
  destruct (p x) eqn:E; cbn [filter]; [rewrite E|]; now rewrite IH.
Qed.

Lemma has_user_id_set_movies (user_id : pyval) (d : list (string * pyval))
    (x : pyval) :
  has_user_id user_id (PDict (dict_set d "movies" x))
  = has_user_id user_id (PDict d).
Proof. unfold has_user_id. cbn [py_getitem]. now rewrite dict_get_set. Qed.

Lemma without_movie_twice (movie_id : Z) (user : pyval) :
  without_movie movie_id (without_movie movie_id user)
  = without_movie movie_id user.
Proof.
  unfold without_movie at 2.
  destruct (py_getitem user "movies") as [[| | | | |ms| |]|] eqn:E;
    try (unfold without_movie; now rewrite E).
  destruct user as [| | | | | | |d]; try discriminate.
  cbn [set_field]. unfold without_movie. rewrite E. cbn [py_getitem].
  rewrite dict_get_set, String.eqb_refl. cbn [set_field].
  now rewrite filter_filter, dict_set_set.
Qed.

Lemma has_user_id_without_movie (user_id : pyval) (movie_id : Z)
    (user : pyval) :
  has_user_id user_id (without_movie movie_id user) = has_user_id user_id user.
Proof.
  unfold without_movie.
  destruct (py_getitem user "movies") as [[| | | | |ms| |]|]; try reflexivity.
  destruct user as [| | | | | | |d]; try reflexivity.
  apply has_user_id_set_movies.
Qed.

(** Deleting twice is deleting once. *)
Lemma spec_delete_movie_twice (user_id : string) (movie_id : Z)
    (users : list pyval) :
  spec_delete_movie user_id movie_id (spec_delete_movie user_id movie_id users)
  = spec_delete_movie user_id movie_id users.
Proof.
  induction users as [|user users IH]; [reflexivity|].
  cbn [spec_delete_movie].
  destruct (has_user_id (PStr user_id) user) eqn:E; cbn [spec_delete_movie].
  - now rewrite has_user_id_without_movie, E, without_movie_twice.
  - now rewrite E, IH.
Qed.

Lemma filter_all {A : Type} (p : A -> bool) (l : list A) :
  forallb p l = true -> filter p l = l.
Proof.
  induction l as [|x l IH]; [reflexivity|]. cbn [forallb filter].
  intros H. apply andb_prop in H as [Hx Hl]. now rewrite Hx, IH.
Qed.

(** Without a movie of that id, the users are left as they are. *)
Lemma spec_delete_movie_none (user_id : string) (movie_id : Z)
    (users : list pyval) :
  forallb is_user users = true ->
  existsb (has_movie user_id movie_id) users = false ->
  spec_delete_movie user_id movie_id users = users.
Proof.
  induction users as [|user users IH]; [reflexivity|].
  cbn [forallb existsb spec_delete_movie]. intros Hu Hn.
  apply andb_prop in Hu as [Hu Hus]. apply orb_false_elim in Hn as [Hn Hns].
  destruct (has_user_id (PStr user_id) user) eqn:E;
    [|now rewrite IH].
  f_equal. unfold has_movie in Hn. rewrite E in Hn. cbn [andb] in Hn.
  destruct (is_user_fields user Hu)
    as (d & uid & name & ms & -> & _ & _ & Hms & Hmovies).
  unfold without_movie. cbn [py_getitem] in *. rewrite Hms in *.
  cbn [set_field]. rewrite filter_all; [now rewrite dict_set_same|].
  clear -Hn Hmovies. induction ms as [|movie ms IHm]; [reflexivity|].
  cbn [forallb existsb] in *. apply andb_prop in Hmovies as [Hm Hms].
  apply orb_false_elim in Hn as [Hn Hns]. rewrite (IHm Hns Hms), andb_true_r.
  destruct (is_movie_fields movie Hm) as (d & n & -> & Hid).
  unfold other_id, has_movie_id in *. rewrite (movie_id_of_movie d n Hid).
  cbn [py_getitem] in Hn. rewrite Hid in Hn. cbn [py_eq num_value] in Hn.
  now rewrite Hn.
Qed.

End Deletion.

(** C7.  [delete_movie] writes the document on every call that converts
    its movie id, whether a movie matched or not, and whether the user exists
    or not; a second call with the same ids writes the same document again.
    The document is that of the users with the movies of that id removed
    from the first user of that id; without such a movie it is the document
    of the users as they were. *)
Theorem delete_movie_idempotent (st : store) (users : list pyval)
    (user_id movie_id : pyval) (m : Z) :
  stored st (PList users) ->
  is_users (PList users) = true ->
  py_int movie_id = Ok m ->
  let users' := spec_delete_movie (py_str user_id) m users in
  let st1 := {| file := document (PList users'); writes := S (writes st) |} in
  let st2 := {| file := document (PList users');
                writes := S (S (writes st)) |} in
  delete_movie user_id movie_id st = (Ok PNone, st1) /\
  delete_movie user_id movie_id st1 = (Ok PNone, st2) /\
  (existsb (has_movie (py_str user_id) m) users = false -> users' = users).
Proof.
  intros Hst Hu Hm users' st1 st2.
  assert (Hok : forallb json_ok users' = true).
  { apply spec_delete_movie_ok. rewrite <- json_ok_list.
    now apply (stored_ok st). }
  assert (Hst1 : stored st1 (PList users')).
  { apply stored_document. now rewrite json_ok_list. }
  repeat split.
  - unfold delete_movie, bind, lift. rewrite Hm, Hst. cbn [py_iter].
    now rewrite delete_movie_loop_spec.
  - unfold delete_movie, bind, lift. rewrite Hm, Hst1. cbn [py_iter].
    rewrite delete_movie_loop_spec by now apply spec_delete_movie_users.
    unfold users'. now rewrite spec_delete_movie_twice.
  - now apply spec_delete_movie_none.
Qed.

Lemma delete_movie_idempotent_witness :
  delete_movie (PInt 1) (PStr "1") sample_store
  = (Ok PNone,
     {| file := document (spec_delete_movie_sample); writes := 1 |}).
Proof.
  apply (delete_movie_idempotent sample_store [alice] (PInt 1) (PStr "1") 1);
    vm_compute; reflexivity.
Defined.

Section Update.

(** [d.update(u)] field by field: the fields of [u] win, the others stay. *)
Lemma dict_update_get (u d : list (string * pyval)) (k : string) :
  keys_distinct (map fst u) = true ->
  dict_get (dict_update d u) k
  = match dict_get u k with
    | Some v => Some v
    | None => dict_get d k
    end.
Proof.
  revert d. induction u as [|[k0 v0] u IH]; intros d Hk; [reflexivity|].
  cbn [map fst keys_distinct] in Hk. apply andb_prop in Hk as [Hk0 Hk].
  unfold dict_update. cbn [fold_left fst snd].
  fold (dict_update (dict_set d k0 v0) u). rewrite (IH _ Hk).
  cbn [dict_get]. rewrite dict_get_set.
  destruct (String.eqb_spec k0 k) as [->|Hne]; [|reflexivity].
  apply negb_true_iff in Hk0.
  assert (E : dict_get u k = None).
  { clear -Hk0. induction u as [|[k1 v1] u IHu]; [reflexivity|].
    cbn [map fst existsb dict_get] in *.
    apply orb_false_elim in Hk0 as [H1 H2].
    rewrite String.eqb_sym, H1. now apply IHu. }
  now rewrite E.
Qed.

Lemma update_movies_none (ms : list pyval) (movie_id : Z) (upd : pyval) :
  forallb is_movie ms = true ->
  existsb (has_movie_id movie_id) ms = false ->
  update_movies ms movie_id upd = Ok None.
Proof.
  induction ms as [|movie ms IH]; [reflexivity|].
  cbn [forallb existsb]. intros Hm Hn.
  apply andb_prop in Hm as [Hm Hms]. apply orb_false_elim in Hn as [Hn Hns].
  destruct (is_movie_fields movie Hm) as (d & n & -> & Hid).
  unfold has_movie_id in Hn. cbn [update_movies py_getitem] in *.
  rewrite Hid in *. cbn [rbind]. rewrite Hn. now rewrite IH.
Qed.

Lemma update_movies_first (ms1 ms2 : list pyval)
    (md upd : list (string * pyval)) (movie_id : Z) :
  forallb is_movie ms1 = true ->
  existsb (has_movie_id movie_id) ms1 = false ->
  has_movie_id movie_id (PDict md) = true ->
  update_movies (ms1 ++ PDict md :: ms2) movie_id (PDict upd)
  = Ok (Some (ms1 ++ PDict (dict_update md upd) :: ms2)).
Proof.
  intros Hm Hn Hmd. induction ms1 as [|movie ms IH].
  - unfold has_movie_id in Hmd. cbn [app update_movies py_getitem] in *.
    destruct (dict_get md "id"); [|discriminate]. cbn [rbind].
    now rewrite Hmd.
  - cbn [forallb existsb] in *.
    apply andb_prop in Hm as [Hm Hms]. apply orb_false_elim in Hn as [Hn Hns].
    destruct (is_movie_fields movie Hm) as (d & n & -> & Hid).
    unfold has_movie_id in Hn. cbn [app update_movies py_getitem] in *.
    rewrite Hid in *. cbn [rbind]. rewrite Hn. now rewrite IH.
Qed.

Lemma update_movie_loop_none (users : list pyval) (user_id : string)
    (movie_id : Z) (upd : pyval) :
  forallb is_user users = true ->
  existsb (has_movie user_id movie_id) users = false ->
  update_movie_loop users user_id movie_id upd = Ok None.
Proof.
  induction users as [|user users IH]; [reflexivity|].
  cbn [forallb existsb]. intros Hu Hn.
  apply andb_prop in Hu as [Hu Hus]. apply orb_false_elim in Hn as [Hn Hns].
  destruct (is_user_fields user Hu)
    as (d & uid & name & ms & -> & Hid & _ & Hms & Hmovies).
  unfold has_movie, has_user_id in Hn.
  cbn [update_movie_loop py_getitem] in *. rewrite Hid, Hms in *.
  cbn [rbind]. destruct (py_eq (PStr uid) (PStr user_id)).
  - cbn [andb py_iter rbind] in *. rewrite update_movies_none by assumption.
    cbn [rbind]. now rewrite IH.
  - now rewrite IH.
Qed.

Lemma update_movie_loop_first (us1 us2 ms1 ms2 : list pyval)
    (ud md upd : list (string * pyval)) (user_id : string) (movie_id : Z) :
  forallb is_user us1 = true ->
  existsb (has_movie user_id movie_id) us1 = false ->
  has_user_id (PStr user_id) (PDict ud) = true ->
  dict_get ud "movies" = Some (PList (ms1 ++ PDict md :: ms2)) ->
  forallb is_movie ms1 = true ->
  existsb (has_movie_id movie_id) ms1 = false ->
  has_movie_id movie_id (PDict md) = true ->
  update_movie_loop (us1 ++ PDict ud :: us2) user_id movie_id (PDict upd)
  = Ok (Some (us1 ++
              PDict (dict_set ud "movies"
                       (PList (ms1 ++ PDict (dict_update md upd) :: ms2)))
              :: us2)).
Proof.
  intros Hu Hn Hud Hms Hm1 Hn1 Hmd. induction us1 as [|user us IH].
  - unfold has_user_id in Hud. cbn [app update_movie_loop py_getitem] in *.
    destruct (dict_get ud "user_id"); [|discriminate]. cbn [rbind].
    rewrite Hud, Hms. cbn [rbind py_iter].
    now rewrite update_movies_first.
  - cbn [forallb existsb] in *.
    apply andb_prop in Hu as [Hu Hus]. apply orb_false_elim in Hn as [Hn Hns].
    destruct (is_user_fields user Hu)
      as (d & uid & name & ms & -> & Hid & _ & Hmsu & Hmovies).
    unfold has_movie, has_user_id in Hn.
    cbn [app update_movie_loop py_getitem] in *. rewrite Hid, Hmsu in *.
    cbn [rbind]. destruct (py_eq (PStr uid) (PStr user_id)).
    + cbn [andb py_iter rbind] in *. rewrite update_movies_none by assumption.
      cbn [rbind]. now rewrite IH.
    + now rewrite IH.
Qed.

Lemma is_users_app (us1 us2 : list pyval) (user : pyval) :
  forallb is_user (us1 ++ user :: us2) = true ->
  forallb is_user us1 = true /\ is_user user = true.
Proof.
  rewrite forallb_app. cbn [forallb]. intros H.
  apply andb_prop in H as [H1 H2]. apply andb_prop in H2 as [H2 _]. now split.
Qed.

End Update.

(** C6.  [update_movie] with a dict of fields merges them into the first
    movie of that id of the first user of that id who has one: the fields
    of the update take their new values and every other field of the movie
    keeps its own; the other movies, the other fields of the user and the
    other users stay, and the document is written once.  When no user of
    that id has a movie of that id, nothing is written and the store is left
    as it was. *)
Theorem update_movie_merges (st : store) (users : list pyval)
    (user_id movie_id : pyval) (m : Z) (upd : list (string * pyval)) :
  stored st (PList users) ->
  is_users (PList users) = true ->
  py_int movie_id = Ok m ->
  keys_distinct (map fst upd) = true ->
  (existsb (has_movie (py_str user_id) m) users = false ->
   update_movie user_id movie_id (PDict upd) st = (Ok PNone, st)) /\
  (forall us1 ud us2 ms1 md ms2,
     users = us1 ++ PDict ud :: us2 ->
     existsb (has_movie (py_str user_id) m) us1 = false ->
     has_user_id (PStr (py_str user_id)) (PDict ud) = true ->
     dict_get ud "movies" = Some (PList (ms1 ++ PDict md :: ms2)) ->
     existsb (has_movie_id m) ms1 = false ->
     has_movie_id m (PDict md) = true ->
     let md' := dict_update md upd in
     let ud' := dict_set ud "movies" (PList (ms1 ++ PDict md' :: ms2)) in
     update_movie user_id movie_id (PDict upd) st
     = (Ok PNone,
        {| file := document (PList (us1 ++ PDict ud' :: us2));
           writes := S (writes st) |}) /\
     (forall k, dict_get md' k
                = match dict_get upd k with
                  | Some v => Some v
                  | None => dict_get md k
                  end) /\
     (forall k, k <> "movies" -> dict_get ud' k = dict_get ud k)).
Proof.
  intros Hst Hu Hm Hk. split.
  - intros Hn. unfold update_movie, bind, lift. rewrite Hm, Hst. cbn [py_iter].
    now rewrite update_movie_loop_none.
  - intros us1 ud us2 ms1 md ms2 -> Hn Hud Hms Hn1 Hmd md' ud'.
    cbn [is_users] in Hu. apply is_users_app in Hu as [Hu1 Hud'].
    destruct (is_user_fields _ Hud')
      as (d & uid & name & ms & [= <-] & _ & _ & Hms' & Hmovies).
    rewrite Hms in Hms'. injection Hms' as <-.
    rewrite forallb_app in Hmovies. apply andb_prop in Hmovies as [Hm1 _].
    repeat split.
    + unfold update_movie, bind, lift. rewrite Hm, Hst. cbn [py_iter].
      now rewrite (update_movie_loop_first us1 us2 ms1 ms2 ud md upd).
    + intros k. now apply dict_update_get.
    + intros k Hne. unfold ud'. rewrite dict_get_set.
      destruct (String.eqb_spec "movies" k); [congruence | reflexivity].
Qed.

Lemma update_movie_merges_witness :
  update_movie (PStr "1") (PStr "1") (PDict rating_9) sample_store
  = (Ok PNone, {| file := document (PList [alice_rated_9]); writes := 1 |}).
Proof.
  refine (proj1 (proj2 (update_movie_merges sample_store [alice] (PStr "1")
                          (PStr "1") 1 rating_9 _ _ _ _)
                   [] alice_fields [] [] inception_fields [] _ _ _ _ _ _));
    vm_compute; reflexivity.
Defined.

Section Addition.

Lemma max_id_from_ints (ms : list pyval) (c : Z) :
  forallb is_movie ms = true ->
  max_id_from (PInt c) ms
  = Ok (PInt (fold_left Z.max (map movie_id_of ms) c)).
Proof.
  revert c. induction ms as [|movie ms IH]; intros c H; [reflexivity|].
  cbn [forallb] in H. apply andb_prop in H as [Hm Hms].
  destruct (is_movie_fields movie Hm) as (d & n & -> & Hid).
  cbn [max_id_from map fold_left py_getitem].
  rewrite (movie_id_of_movie d n Hid), Hid. cbn [rbind py_gt num_value].
  replace (if c <? n then PInt n else PInt c) with (PInt (Z.max c n))
    by (destruct (Z.ltb_spec c n); f_equal; lia).
  now apply IH.
Qed.

(** The id that [add_movie] computes is the greatest id, or 0 without
    movies, plus one. *)
Lemma max_id_ints (ms : list pyval) :
  forallb is_movie ms = true ->
  max_id ms = Ok (PInt (max_default0 (map movie_id_of ms))).
Proof.
  destruct ms as [|movie ms]; [reflexivity|]. cbn [forallb]. intros H.
  apply andb_prop in H as [Hm Hms].
  destruct (is_movie_fields movie Hm) as (d & n & -> & Hid).
  cbn [max_id map max_default0 py_getitem].
  rewrite (movie_id_of_movie d n Hid), Hid. cbn [rbind].
  now apply max_id_from_ints.
Qed.

Lemma fold_max_ge (l : list Z) (c : Z) :
  c <= fold_left Z.max l c /\ Forall (fun x => x <= fold_left Z.max l c) l.
Proof.
  revert c. induction l as [|x l IH]; intros c; cbn [fold_left].
  - split; [lia | constructor].
  - destruct (IH (Z.max c x)) as [H1 H2]. split; [lia|].
    constructor; [lia | exact H2].
Qed.

Lemma max_default0_ge (l : list Z) :
  Forall (fun x => x <= max_default0 l) l.
Proof.
  destruct l as [|x l]; [constructor|]. cbn [max_default0].
  destruct (fold_max_ge l x) as [H1 H2]. now constructor.
Qed.

(** No movie of a list has the next id of the list. *)
Lemma filter_next_id (ms : list pyval) :
  filter (other_id (next_id ms)) ms = ms.
Proof.
  apply filter_all. unfold next_id.
  pose proof (max_default0_ge (map movie_id_of ms)) as H.
  set (mx := max_default0 (map movie_id_of ms)) in *. clearbody mx.
  induction ms as [|movie ms IH]; [reflexivity|].
  cbn [map forallb] in *. inversion H as [|x l Hx Hl]; subst.
  rewrite (IH Hl), andb_true_r. unfold other_id.
  apply negb_true_iff, Z.eqb_neq. lia.
Qed.

Lemma add_movie_loop_first (us1 us2 ms : list pyval)
    (ud movie_data : list (string * pyval)) (user_id : string) :
  forallb is_user us1 = true ->
  existsb (has_user_id (PStr user_id)) us1 = false ->
  has_user_id (PStr user_id) (PDict ud) = true ->
  dict_get ud "movies" = Some (PList ms) ->
  forallb is_movie ms = true ->
  add_movie_loop (us1 ++ PDict ud :: us2) user_id movie_data
  = Ok (us1 ++
        PDict (dict_set ud "movies"
                 (PList (ms ++ [PDict (dict_set movie_data "id"
                                         (PInt (next_id ms)))])))
        :: us2).
Proof.
  intros Hu Hn Hud Hms Hm. induction us1 as [|user us IH].
  - unfold has_user_id in Hud. cbn [app add_movie_loop py_getitem] in *.
    destruct (dict_get ud "user_id"); [|discriminate]. cbn [rbind].
    rewrite Hud, Hms. cbn [rbind py_iter]. rewrite max_id_ints by assumption.
    reflexivity.
  - cbn [forallb existsb] in *.
    apply andb_prop in Hu as [Hu Hus]. apply orb_false_elim in Hn as [Hn Hns].
    destruct (is_user_fields user Hu) as (d & uid & name & msu & -> & Hid & _).
    unfold has_user_id in Hn. cbn [app add_movie_loop py_getitem] in *.
    rewrite Hid in *. cbn [rbind]. rewrite Hn. now rewrite IH.
Qed.

(** The float of a well-formed value has the digits of its [repr]. *)
Lemma py_float_ok (v : pyval) (f : pyfloat) :
  json_ok v = true -> py_float v = Ok f -> float_ok f = true.
Proof.
  destruct v as [| b | n | g | s | | |]; try discriminate; cbn [py_float json_ok].
  - intros _. destruct b; now intros [= <-].
  - intros _. unfold float_of_Z. destruct (Z.abs n <=? 2 ^ 53); [|discriminate].
    intros [= <-]. apply mk_float_ok.
  - now intros H [= <-].
  - intros _. unfold float_of_str.
    destruct (scan_sign (strip s)) as [neg s1].
    destruct (_ || _); [now intros [= <-]|].
    destruct (String.eqb _ "nan"); [now intros [= <-]|].
    destruct (if starts_digit s1 then scan_digitpart s1 else ([], s1))
      as [ip s2].
    destruct (match s2 with
              | String "." s2' =>
                  if starts_digit s2' then scan_digitpart s2' else ([], s2')
              | _ => ([], s2)
              end) as [fp s3].
    destruct (ip ++ fp); [discriminate|].
    destruct (scan_exponent scan_digitpart s3) as [[ex [|]]|].
    + intros [= <-]. apply mk_float_ok.
    + discriminate.
    + destruct s3; [|discriminate]. intros [= <-]. apply mk_float_ok.
Qed.

(** The record built from a decoded reply is well-formed and has no id
    yet. *)
Lemma movie_data_of_ok (movie_details : pyval)
    (movie_data : list (string * pyval)) :
  json_ok movie_details = true ->
  movie_data_of movie_details = Ok movie_data ->
  json_ok (PDict movie_data) = true /\ dict_get movie_data "id" = None.
Proof.
  intros Hok. unfold movie_data_of.
  destruct (py_getitem movie_details "Title") as [name|] eqn:E1; [|discriminate].
  destruct (py_getitem movie_details "Director") as [director|] eqn:E2;
    [|discriminate].
  destruct (py_getitem movie_details "Year") as [y|] eqn:E3; [|discriminate].
  cbn [rbind]. destruct (py_int y) as [year|]; [|discriminate]. cbn [rbind].
  destruct (py_contains "imdbRating" movie_details) as [has|]; [|discriminate].
  cbn [rbind].
  apply py_getitem_ok in E1, E2; try assumption.
  assert (Hr : forall rated : bool,
             (rating <- (if rated
                         then r <- py_getitem movie_details "imdbRating" ;;
                              py_float r
                         else Ok float_zero) ;;
              Ok [("name", name); ("director", director);
                  ("year", PInt year); ("rating", PFloat rating)])%result
             = Ok movie_data ->
             json_ok (PDict movie_data) = true /\
             dict_get movie_data "id" = None).
  { intros rated. destruct rated.
    - destruct (py_getitem movie_details "imdbRating") as [r|] eqn:E4;
        [|discriminate].
      cbn [rbind]. destruct (py_float r) as [f|] eqn:E5; [|discriminate].
      apply py_getitem_ok in E4; [|assumption].
      apply py_float_ok in E5; [|assumption].
      intros [= <-]. split; [|reflexivity].
      rewrite json_ok_dict. cbn. now rewrite E1, E2, E5.
    - intros [= <-]. split; [|reflexivity].
      rewrite json_ok_dict. cbn. now rewrite E1, E2. }
  destruct has.
  - destruct (py_getitem movie_details "imdbRating") as [r|] eqn:E4;
      [|discriminate].
    cbn [rbind]. intros H.
    apply (Hr (negb (py_eq r (PStr "N/A")))). exact H.
  - cbn [rbind]. exact (Hr false).
Qed.

Lemma json_ok_with_movie (us1 : list pyval) (ud : list (string * pyval))
    (us2 ms : list pyval) (movie_data : list (string * pyval)) :
  json_ok (PList (us1 ++ PDict ud :: us2)) = true ->
  dict_get ud "movies" = Some (PList ms) ->
  json_ok (PDict movie_data) = true ->
  json_ok (with_movie us1 ud us2 ms movie_data) = true.
Proof.
  unfold with_movie. rewrite !json_ok_list, !forallb_app. cbn [forallb].
  intros H Hms Hmd. apply andb_prop in H as [H1 H2].
  apply andb_prop in H2 as [Hud H2]. rewrite H1, H2, andb_true_r.
  cbn [andb]. apply dict_set_ok; [assumption|].
  pose proof (dict_get_ok ud "movies" _ Hud Hms) as Hmsok.
  rewrite json_ok_list in *. rewrite forallb_app, Hmsok. cbn [forallb andb].
  rewrite andb_true_r. now apply dict_set_ok.
Qed.

Lemma is_users_with_movie (us1 : list pyval) (ud : list (string * pyval))
    (us2 ms : list pyval) (movie_data : list (string * pyval)) :
  is_users (PList (us1 ++ PDict ud :: us2)) = true ->
  dict_get ud "movies" = Some (PList ms) ->
  is_users (with_movie us1 ud us2 ms movie_data) = true.
Proof.
  unfold with_movie. cbn [is_users]. rewrite !forallb_app. cbn [forallb].
  intros H Hms. apply andb_prop in H as [H1 H2].
  apply andb_prop in H2 as [Hud H2]. rewrite H1, H2, andb_true_r.
  cbn [andb]. apply is_user_set_movies; [assumption|].
  destruct (is_user_fields _ Hud) as (d & uid & name & ms' & [= <-] & _ & _ & Hms' & Hm).
  rewrite Hms in Hms'. injection Hms' as <-.
  rewrite forallb_app, Hm. cbn [forallb is_movie].
  now rewrite dict_get_set.
Qed.

(** Deleting the movie that was added last gives the users back. *)
Lemma spec_delete_added (us1 : list pyval) (ud : list (string * pyval))
    (us2 ms : list pyval) (movie_data : list (string * pyval))
    (user_id : string) :
  existsb (has_user_id (PStr user_id)) us1 = false ->
  has_user_id (PStr user_id) (PDict ud) = true ->
  dict_get ud "movies" = Some (PList ms) ->
  match with_movie us1 ud us2 ms movie_data with
  | PList users' => spec_delete_movie user_id (next_id ms) users'
  | _ => []
  end = us1 ++ PDict ud :: us2.
Proof.
  intros Hn Hud Hms. unfold with_movie. induction us1 as [|user us IH].
  - cbn [app spec_delete_movie]. rewrite has_user_id_set_movies, Hud.
    f_equal. unfold without_movie. cbn [py_getitem]. rewrite dict_get_set.
    cbn [String.eqb Ascii.eqb Bool.eqb]. cbn [set_field].
    rewrite dict_set_set, filter_app, filter_next_id. cbn [filter].
    unfold other_id at 1, movie_id_of. cbn [py_getitem].
    rewrite dict_get_set. cbn [String.eqb Ascii.eqb Bool.eqb].
    rewrite Z.eqb_refl. cbn [negb]. rewrite List.app_nil_r.
    now rewrite dict_set_same.
  - cbn [existsb] in Hn. apply orb_false_elim in Hn as [Hn Hns].
    cbn [app spec_delete_movie]. rewrite Hn. f_equal. now apply IH.
Qed.

End Addition.

Section AdditionRuns.

(** One run of [add_movie] on a user that exists. *)
Lemma add_movie_run (omdb : pyval -> pyval) (st : store)
    (us1 us2 ms : list pyval) (ud md : list (string * pyval))
    (user_id title : pyval) :
  stored st (PList (us1 ++ PDict ud :: us2)) ->
  is_users (PList (us1 ++ PDict ud :: us2)) = true ->
  existsb (has_user_id (PStr (py_str user_id))) us1 = false ->
  has_user_id (PStr (py_str user_id)) (PDict ud) = true ->
  dict_get ud "movies" = Some (PList ms) ->
  found (omdb title) = true ->
  movie_data_of (omdb title) = Ok md ->
  add_movie omdb user_id title st
  = (Ok PNone, {| file := document (with_movie us1 ud us2 ms md);
                  writes := S (writes st) |}).
Proof.
  intros Hst Hu Hn Hud Hms Hf Hmd.
  cbn [is_users] in Hu. apply is_users_app in Hu as [Hu1 Hud'].
  destruct (is_user_fields _ Hud')
    as (d & uid & name & ms' & [= <-] & _ & _ & Hms' & Hm).
  rewrite Hms in Hms'. injection Hms' as <-.
  unfold add_movie, bind, lift, found in *.
  destruct (py_getitem (omdb title) "Response") as [response|];
    [|discriminate].
  rewrite Hf, Hmd, Hst. cbn [py_iter].
  now rewrite (add_movie_loop_first us1 us2 ms ud md).
Qed.

End AdditionRuns.

(** C1.  On a user that exists, [add_movie] appends the movie with the id
    [max(ids, default 0) + 1] over the movies the user has.  Deleting that
    movie, which has the greatest id, gives the document back, and the next
    [add_movie] assigns the same id again. *)
Theorem add_movie_next_id (omdb : pyval -> pyval) (st : store)
    (users us1 us2 ms : list pyval) (ud md1 md2 : list (string * pyval))
    (user_id title1 title2 : pyval) :
  stored st (PList users) ->
  is_users (PList users) = true ->
  users = us1 ++ PDict ud :: us2 ->
  existsb (has_user_id (PStr (py_str user_id))) us1 = false ->
  has_user_id (PStr (py_str user_id)) (PDict ud) = true ->
  dict_get ud "movies" = Some (PList ms) ->
  json_ok (omdb title1) = true -> found (omdb title1) = true ->
  movie_data_of (omdb title1) = Ok md1 ->
  found (omdb title2) = true ->
  movie_data_of (omdb title2) = Ok md2 ->
  let k := max_default0 (map movie_id_of ms) + 1 in
  let added md :=
    PList (us1 ++
           PDict (dict_set ud "movies"
                    (PList (ms ++ [PDict (dict_set md "id" (PInt k))])))
           :: us2) in
  let st1 := {| file := document (added md1); writes := S (writes st) |} in
  let st2 := {| file := document (PList users);
                writes := S (S (writes st)) |} in
  let st3 := {| file := document (added md2);
                writes := S (S (S (writes st))) |} in
  add_movie omdb user_id title1 st = (Ok PNone, st1) /\
  delete_movie user_id (PInt k) st1 = (Ok PNone, st2) /\
  add_movie omdb user_id title2 st2 = (Ok PNone, st3).
Proof.
  intros Hst Hu -> Hn Hud Hms Hok1 Hf1 Hmd1 Hf2 Hmd2 k added st1 st2 st3.
  change (added md1) with (with_movie us1 ud us2 ms md1) in st1.
  change (added md2) with (with_movie us1 ud us2 ms md2) in st3.
  change k with (next_id ms) in *. clear added.
  pose proof (stored_ok st _ Hst) as Hok.
  destruct (movie_data_of_ok _ _ Hok1 Hmd1) as [Hmdok _].
  assert (Hst1 : stored st1 (with_movie us1 ud us2 ms md1)).
  { apply stored_document. now apply json_ok_with_movie. }
  assert (Hst2 : stored st2 (PList (us1 ++ PDict ud :: us2)))
    by now apply stored_document.
  repeat split.
  - now apply add_movie_run.
  - unfold delete_movie, bind, lift. cbn [py_int]. rewrite Hst1.
    pose proof (is_users_with_movie us1 ud us2 ms md1 Hu Hms) as Hu1.
    pose proof (spec_delete_added us1 ud us2 ms md1 (py_str user_id)
                  Hn Hud Hms) as Hd.
    unfold with_movie in *. cbn [py_iter is_users] in *.
    rewrite delete_movie_loop_spec by assumption. now rewrite Hd.
  - now apply add_movie_run.
Qed.

Lemma add_movie_next_id_witness :
  add_movie sample_omdb (PInt 1) (PStr "Heat") sample_store
  = (Ok PNone,
     {| file := document (with_movie [] alice_fields [] [inception] heat_data);
        writes := 1 |}) /\
  delete_movie (PInt 1) (PInt 2)
    {| file := document (with_movie [] alice_fields [] [inception] heat_data);
       writes := 1 |}
  = (Ok PNone, {| file := document (PList [alice]); writes := 2 |}) /\
  add_movie sample_omdb (PInt 1) (PStr "Heat")
    {| file := document (PList [alice]); writes := 2 |}
  = (Ok PNone,
     {| file := document (with_movie [] alice_fields [] [inception] heat_data);
        writes := 3 |}).
Proof.
  refine (add_movie_next_id sample_omdb sample_store [alice] [] [] [inception]
            alice_fields heat_data heat_data (PInt 1) (PStr "Heat")
            (PStr "Heat") _ _ eq_refl _ _ _ _ _ _ _ _);
    vm_compute; reflexivity.
Defined.

(* ===================================================================== *)
(** * Part 7. The data manager: reads, failures and compositions *)
(* ===================================================================== *)

Section Lookups.

(** The loop of [get_user_movies] stops at the first user of that id. *)
Lemma get_user_movies_loop_first (us1 us2 : list pyval)
    (ud : list (string * pyval)) (user_id movies : pyval) :
  forallb is_user us1 = true ->
  existsb (has_user_id user_id) us1 = false ->
  has_user_id user_id (PDict ud) = true ->
  dict_get ud "movies" = Some movies ->
  get_user_movies_loop (us1 ++ PDict ud :: us2) user_id = Ok movies.
Proof.
  intros Hu Hn Hud Hms. induction us1 as [|user us IH].
  - unfold has_user_id in Hud. cbn [app get_user_movies_loop py_getitem] in *.
    destruct (dict_get ud "user_id"); [|discriminate]. cbn [rbind].
    now rewrite Hud, Hms.
  - cbn [forallb existsb] in *.
    apply andb_prop in Hu as [Hu Hus]. apply orb_false_elim in Hn as [Hn Hns].
    destruct (is_user_fields user Hu) as (d & uid & name & msu & -> & Hid & _).
    unfold has_user_id in Hn. cbn [app get_user_movies_loop py_getitem] in *.
    rewrite Hid in *. cbn [rbind]. rewrite Hn. now apply IH.
Qed.

Lemma find_movie_none (ms : list pyval) (movie_id : Z) :
  forallb is_movie ms = true ->
  existsb (has_movie_id movie_id) ms = false ->
  find_movie ms movie_id = Ok None.
Proof.
  induction ms as [|movie ms IH]; [reflexivity|].
  cbn [forallb existsb]. intros Hm Hn.
  apply andb_prop in Hm as [Hm Hms]. apply orb_false_elim in Hn as [Hn Hns].
  destruct (is_movie_fields movie Hm) as (d & n & -> & Hid).
  unfold has_movie_id in Hn. cbn [find_movie py_getitem] in *.
  rewrite Hid in *. cbn [rbind]. rewrite Hn. now apply IH.
Qed.

Lemma find_movie_first (ms1 ms2 : list pyval) (movie : pyval) (movie_id : Z) :
  forallb is_movie ms1 = true ->
  existsb (has_movie_id movie_id) ms1 = false ->
  has_movie_id movie_id movie = true ->
  find_movie (ms1 ++ movie :: ms2) movie_id = Ok (Some movie).
Proof.
  intros Hm Hn Hmd. induction ms1 as [|mv ms IH].
  - unfold has_movie_id in Hmd. cbn [app find_movie] in *.
    destruct (py_getitem movie "id"); [|discriminate]. cbn [rbind].
    now rewrite Hmd.
  - cbn [forallb existsb] in *.
    apply andb_prop in Hm as [Hm Hms]. apply orb_false_elim in Hn as [Hn Hns].
    destruct (is_movie_fields mv Hm) as (d & n & -> & Hid).
    unfold has_movie_id in Hn. cbn [app find_movie py_getitem] in *.
    rewrite Hid in *. cbn [rbind]. rewrite Hn. now apply IH.
Qed.

(** The loop of [get_movie] finds nothing when no user of that id has the
    movie. *)
Lemma get_movie_loop_none (users : list pyval) (user_id : string)
    (movie_id : Z) :
  forallb is_user users = true ->
  existsb (has_movie user_id movie_id) users = false ->
  get_movie_loop users user_id movie_id = Ok PNone.
Proof.
  induction users as [|user users IH]; [reflexivity|].
  cbn [forallb existsb]. intros Hu Hn.
  apply andb_prop in Hu as [Hu Hus]. apply orb_false_elim in Hn as [Hn Hns].
  destruct (is_user_fields user Hu)
    as (d & uid & name & ms & -> & Hid & _ & Hms & Hm).
  unfold has_movie, has_user_id in Hn.
  cbn [get_movie_loop py_getitem] in *. rewrite Hid, Hms in *. cbn [rbind].
  destruct (py_eq (PStr uid) (PStr user_id)); [|now apply IH].
  cbn [andb py_iter rbind] in *. rewrite find_movie_none by assumption.
  cbn [rbind]. now apply IH.
Qed.

(** It returns the first movie of that id of the first user of that id who
    has one. *)
Lemma get_movie_loop_first (us1 us2 ms1 ms2 : list pyval)
    (ud : list (string * pyval)) (movie : pyval) (user_id : string)
    (movie_id : Z) :
  forallb is_user us1 = true ->
  existsb (has_movie user_id movie_id) us1 = false ->
  has_user_id (PStr user_id) (PDict ud) = true ->
  dict_get ud "movies" = Some (PList (ms1 ++ movie :: ms2)) ->
  forallb is_movie ms1 = true ->
  existsb (has_movie_id movie_id) ms1 = false ->
  has_movie_id movie_id movie = true ->
  get_movie_loop (us1 ++ PDict ud :: us2) user_id movie_id = Ok movie.
Proof.
  intros Hu Hn Hud Hms Hm1 Hn1 Hmd. induction us1 as [|user us IH].
  - unfold has_user_id in Hud. cbn [app get_movie_loop py_getitem] in *.
    destruct (dict_get ud "user_id"); [|discriminate]. cbn [rbind].
    rewrite Hud, Hms. cbn [rbind py_iter].
    now rewrite find_movie_first.
  - cbn [forallb existsb] in *.
    apply andb_prop in Hu as [Hu Hus]. apply orb_false_elim in Hn as [Hn Hns].
    destruct (is_user_fields user Hu)
      as (d & uid & name & ms & -> & Hid & _ & Hmsu & Hm).
    unfold has_movie, has_user_id in Hn.
    cbn [app get_movie_loop py_getitem] in *. rewrite Hid, Hmsu in *.
    cbn [rbind].
    destruct (py_eq (PStr uid) (PStr user_id)); [|now apply IH].
    cbn [andb py_iter rbind] in *. rewrite find_movie_none by assumption.
    cbn [rbind]. now apply IH.
Qed.

(** A user of another id has no movie of that user id. *)
Lemma has_movie_other_user (users : list pyval) (user_id : string)
    (movie_id : Z) :
  existsb (has_user_id (PStr user_id)) users = false ->
  existsb (has_movie user_id movie_id) users = false.
Proof.
  induction users as [|user users IH]; [reflexivity|].
  cbn [existsb]. intros H. apply orb_false_elim in H as [H1 H2].
  unfold has_movie at 1. rewrite H1. cbn [andb orb]. now apply IH.
Qed.

(** No movie of a list has the id that comes next. *)
Lemma next_id_fresh (ms : list pyval) :
  forallb is_movie ms = true ->
  existsb (has_movie_id (next_id ms)) ms = false.
Proof.
  intros Hm. pose proof (max_default0_ge (map movie_id_of ms)) as Hge.
  unfold next_id. set (k := max_default0 (map movie_id_of ms)) in *.
  clearbody k. induction ms as [|movie ms IH]; [reflexivity|].
  cbn [forallb existsb map] in *. apply andb_prop in Hm as [Hm Hms].
  inversion Hge as [|x l Hx Hl]; subst. rewrite IH by assumption.
  destruct (is_movie_fields movie Hm) as (d & n & -> & Hid).
  rewrite (movie_id_of_movie d n Hid) in Hx.
  unfold has_movie_id. cbn [py_getitem]. rewrite Hid. cbn [py_eq num_value].
  rewrite orb_false_r. apply Z.eqb_neq. lia.
Qed.

End Lookups.

(** X1.  The reading methods never write: whatever [list_all_users],
    [get_user_movies] and [get_movie] return or raise, on any file and for
    any arguments, the store after the call is the store before it. *)
Theorem reads_leave_store (st : store) (user_id movie_id : pyval) :
  snd (list_all_users st) = st /\
  snd (get_user_movies user_id st) = st /\
  snd (get_movie user_id movie_id st) = st.
Proof.
  unfold list_all_users, get_user_movies, get_movie, bind, lift, _load_data.
  repeat split.
  - destruct (rbind _ _) as [data|]; [|reflexivity].
    now destruct (py_iter data).
  - destruct (py_int movie_id); [|reflexivity].
    destruct (rbind _ _) as [data|]; [|reflexivity].
    now destruct (py_iter data).
Qed.

(** X2.  When the file cannot be read as a document ([_load_data] raises,
    on a text that is no JSON or has no [users]), every method raises the
    same exception and leaves the file as it was; [add_movie] does so once
    the lookup service has reported a movie. *)
Theorem unreadable_file_raises (st : store) (e : exn)
    (user_id movie_id x : pyval) (m : Z) :
  _load_data st = (Raise e, st) ->
  py_int movie_id = Ok m ->
  list_all_users st = (Raise e, st) /\
  add_user x st = (Raise e, st) /\
  get_user_movies user_id st = (Raise e, st) /\
  get_movie user_id movie_id st = (Raise e, st) /\
  update_movie user_id movie_id x st = (Raise e, st) /\
  delete_movie user_id movie_id st = (Raise e, st) /\
  (forall omdb title md,
     found (omdb title) = true -> movie_data_of (omdb title) = Ok md ->
     add_movie omdb user_id title st = (Raise e, st)).
Proof.
  intros Hl Hm.
  unfold list_all_users, add_user, get_user_movies, get_movie, update_movie,
    delete_movie, add_movie, bind, lift.
  rewrite Hl, Hm. repeat split.
  intros omdb title md Hf Hmd. unfold found in Hf.
  destruct (py_getitem (omdb title) "Response"); [|discriminate].
  now rewrite Hf, Hmd, Hl.
Qed.

Lemma unreadable_file_raises_witness :
  add_user (PStr "Bob") empty_store = (Raise JSONDecodeError, empty_store) /\
  delete_movie (PStr "1") (PStr "1") empty_store
  = (Raise JSONDecodeError, empty_store).
Proof.
  pose proof (unreadable_file_raises empty_store JSONDecodeError (PStr "1")
                (PStr "1") (PStr "Bob") 1 eq_refl eq_refl) as H.
  split; [exact (proj1 (proj2 H))|].
  exact (proj1 (proj2 (proj2 (proj2 (proj2 (proj2 H)))))).
Defined.

(** X3.  A movie id that [int] rejects makes [get_movie], [update_movie]
    and [delete_movie] raise the exception of the conversion before the
    file is read: nothing is written. *)
Theorem bad_movie_id_raises (st : store) (e : exn)
    (user_id movie_id updated_movie : pyval) :
  py_int movie_id = Raise e ->
  get_movie user_id movie_id st = (Raise e, st) /\
  update_movie user_id movie_id updated_movie st = (Raise e, st) /\
  delete_movie user_id movie_id st = (Raise e, st).
Proof.
  intros H. unfold get_movie, update_movie, delete_movie, bind, lift.
  now rewrite H.
Qed.

Lemma bad_movie_id_raises_witness :
  get_movie (PStr "1") (PStr "one") sample_store
  = (Raise ValueError, sample_store) /\
  update_movie (PStr "1") (PStr "one") (PDict rating_9) sample_store
  = (Raise ValueError, sample_store) /\
  delete_movie (PStr "1") (PStr "one") sample_store
  = (Raise ValueError, sample_store).
Proof.
  apply (bad_movie_id_raises sample_store ValueError (PStr "1") (PStr "one")
           (PDict rating_9)).
  vm_compute. reflexivity.
Defined.

Section UserAdded.

Lemma existsb_app_last {A : Type} (p : A -> bool) (l : list A) (x : A) :
  existsb p (l ++ [x]) = existsb p l || p x.
Proof. rewrite existsb_app. cbn [existsb]. now rewrite orb_false_r. Qed.

Lemma new_user_ok (users : list pyval) (name : string) :
  json_ok (new_user users (PStr name)) = true /\
  is_user (new_user users (PStr name)) = true /\
  has_name (PStr name) (new_user users (PStr name)) = true.
Proof.
  unfold new_user, has_name. cbn. rewrite String.eqb_refl. now repeat split.
Qed.

(** One run of [add_user] with a name that no user bears. *)
Lemma add_user_run (st : store) (users : list pyval) (user_name : pyval) :
  stored st (PList users) ->
  forallb is_user users = true ->
  existsb (has_name user_name) users = false ->
  add_user user_name st
  = (Ok (PTuple [PNone; user_name]),
     {| file := document (PList (users ++ [new_user users user_name]));
        writes := S (writes st) |}).
Proof.
  intros Hst Hu Hn. unfold add_user, bind. rewrite Hst. cbn [py_iter lift].
  rewrite name_taken_false by assumption. reflexivity.
Qed.

(** The document with the new user reads back and follows the data
    model. *)
Lemma new_user_stored (st : store) (users : list pyval) (name : string)
    (n : nat) :
  stored st (PList users) ->
  is_users (PList users) = true ->
  let users' := users ++ [new_user users (PStr name)] in
  stored {| file := document (PList users'); writes := n |} (PList users') /\
  is_users (PList users') = true.
Proof.
  intros Hst Hu users'.
  destruct (new_user_ok users name) as (Hok & Hnu & _). split.
  - apply stored_document. apply stored_ok in Hst.
    rewrite json_ok_list in *. unfold users'. rewrite forallb_app, Hst.
    cbn [forallb]. now rewrite Hok.
  - cbn [is_users] in *. unfold users'. rewrite forallb_app, Hu.
    cbn [forallb]. now rewrite Hnu.
Qed.

End UserAdded.

(** X4.  Adding a user of a new name appends the user with the id
    [str(len(users) + 1)] and no movies in one write; the document written
    reads back and follows the data model, and a second [add_user] of the
    same name is then rejected without a write. *)
Theorem add_user_twice (st : store) (users : list pyval) (name : string) :
  stored st (PList users) ->
  is_users (PList users) = true ->
  existsb (has_name (PStr name)) users = false ->
  let users' := users ++ [new_user users (PStr name)] in
  let st' := {| file := document (PList users'); writes := S (writes st) |} in
  add_user (PStr name) st = (Ok (PTuple [PNone; PStr name]), st') /\
  stored st' (PList users') /\
  is_users (PList users') = true /\
  add_user (PStr name) st' = (Ok (PStr user_exists_message), st').
Proof.
  intros Hst Hu Hn users' st'.
  destruct (new_user_ok users name) as (_ & _ & Hnm).
  destruct (new_user_stored st users name (S (writes st)) Hst Hu)
    as [Hst' Hu'].
  repeat split; try assumption.
  - now apply add_user_run.
  - unfold add_user, bind. fold users' in Hst'. fold st' in Hst'.
    rewrite Hst'. cbn [py_iter lift].
    rewrite name_taken_true; [reflexivity|exact Hu'|].
    unfold users'. rewrite existsb_app_last, Hnm. apply orb_true_r.
Qed.

Lemma add_user_twice_witness :
  add_user (PStr "Bob")
    {| file := document (PList ([alice] ++ [new_user [alice] (PStr "Bob")]));
       writes := 1 |}
  = (Ok (PStr user_exists_message),
     {| file := document (PList ([alice] ++ [new_user [alice] (PStr "Bob")]));
        writes := 1 |}).
Proof.
  refine (proj2 (proj2 (proj2 (add_user_twice sample_store [alice] "Bob"
                                 _ _ _))));
    vm_compute; reflexivity.
Defined.

Section Compositions.

Lemma stored_users_ok (st : store) (users : list pyval) :
  stored st (PList users) -> forallb json_ok users = true.
Proof. intros H. apply stored_ok in H. now rewrite json_ok_list in H. Qed.

Lemma dict_get_set_movies (d : list (string * pyval)) (x : pyval) :
  dict_get (dict_set d "movies" x) "movies" = Some x.
Proof. rewrite dict_get_set. now rewrite String.eqb_refl. Qed.

Lemma has_movie_id_new (ms : list pyval) (md : list (string * pyval)) :
  has_movie_id (next_id ms) (new_movie ms md) = true.
Proof.
  unfold has_movie_id, new_movie. cbn [py_getitem]. rewrite dict_get_set.
  rewrite String.eqb_refl. cbn [py_eq num_value]. apply Z.eqb_refl.
Qed.

Lemma NoDup_snoc {A : Type} (l : list A) (x : A) :
  NoDup l -> ~ In x l -> NoDup (l ++ [x]).
Proof.
  induction 1 as [|y l Hy Hl IH]; intros Hx; cbn [app].
  - constructor; [intros []|constructor].
  - constructor.
    + rewrite in_app_iff. intros [H|[H|[]]]; [now apply Hy|].
      apply Hx. now left.
    + apply IH. intros H. apply Hx. now right.
Qed.

Lemma next_id_not_in (ms : list pyval) :
  ~ In (next_id ms) (map movie_id_of ms).
Proof.
  intros H. pose proof (max_default0_ge (map movie_id_of ms)) as Hge.
  rewrite Forall_forall in Hge. apply Hge in H. unfold next_id in H. lia.
Qed.

(** The users after [delete_movie], when the first user of that id is
    known. *)
Lemma spec_delete_movie_first (us1 us2 ms : list pyval)
    (ud : list (string * pyval)) (user_id : string) (movie_id : Z) :
  existsb (has_user_id (PStr user_id)) us1 = false ->
  has_user_id (PStr user_id) (PDict ud) = true ->
  dict_get ud "movies" = Some (PList ms) ->
  spec_delete_movie user_id movie_id (us1 ++ PDict ud :: us2)
  = us1 ++ PDict (dict_set ud "movies" (PList (filter (other_id movie_id) ms)))
        :: us2.
Proof.
  intros Hn Hud Hms. induction us1 as [|user us IH].
  - cbn [app spec_delete_movie]. rewrite Hud. unfold without_movie.
    cbn [py_getitem]. now rewrite Hms.
  - cbn [existsb] in Hn. apply orb_false_elim in Hn as [Hn Hns].
    cbn [app spec_delete_movie]. rewrite Hn. f_equal. now apply IH.
Qed.

Lemma has_movie_id_filter (ms : list pyval) (movie_id : Z) :
  forallb is_movie ms = true ->
  existsb (has_movie_id movie_id) (filter (other_id movie_id) ms) = false.
Proof.
  induction ms as [|movie ms IH]; [reflexivity|].
  cbn [forallb filter]. intros Hm. apply andb_prop in Hm as [Hm Hms].
  destruct (is_movie_fields movie Hm) as (d & n & -> & Hid).
  unfold other_id at 1. rewrite (movie_id_of_movie d n Hid).
  destruct (n =? movie_id) eqn:E; cbn [negb]; [now apply IH|].
  cbn [existsb]. rewrite IH by assumption. unfold has_movie_id.
  cbn [py_getitem]. rewrite Hid. cbn [py_eq num_value]. now rewrite E.
Qed.

Lemma dict_update_ok (u d : list (string * pyval)) :
  json_ok (PDict d) = true ->
  forallb (fun kv => json_ok (snd kv)) u = true ->
  json_ok (PDict (dict_update d u)) = true.
Proof.
  revert d. induction u as [|[k v] u IH]; intros d Hd Hu; [exact Hd|].
  cbn [forallb snd] in Hu. apply andb_prop in Hu as [Hv Hu].
  unfold dict_update. cbn [fold_left fst snd].
  fold (dict_update (dict_set d k v) u). apply IH; [|assumption].
  now apply dict_set_ok.
Qed.

Lemma forallb_is_movie_app (ms1 ms2 : list pyval) (movie : pyval) :
  forallb is_movie (ms1 ++ movie :: ms2) = true ->
  forallb is_movie ms1 = true /\ is_movie movie = true /\
  forallb is_movie ms2 = true.
Proof.
  rewrite forallb_app. cbn [forallb]. intros H.
  apply andb_prop in H as [H1 H2]. apply andb_prop in H2 as [H2 H3].
  now repeat split.
Qed.

End Compositions.

(** X5.  What [add_movie] stored is what the reads return: after a movie was
    added to a user, [get_user_movies] with the user's id as a string
    returns the former movies followed by the new one, and [get_movie] with
    the new id returns the new movie. *)
Theorem add_movie_then_read (omdb : pyval -> pyval) (st : store)
    (us1 us2 ms : list pyval) (ud md : list (string * pyval))
    (user_id title : pyval) :
  stored st (PList (us1 ++ PDict ud :: us2)) ->
  is_users (PList (us1 ++ PDict ud :: us2)) = true ->
  existsb (has_user_id (PStr (py_str user_id))) us1 = false ->
  has_user_id (PStr (py_str user_id)) (PDict ud) = true ->
  dict_get ud "movies" = Some (PList ms) ->
  json_ok (omdb title) = true ->
  found (omdb title) = true ->
  movie_data_of (omdb title) = Ok md ->
  let st1 := {| file := document (with_movie us1 ud us2 ms md);
                writes := S (writes st) |} in
  add_movie omdb user_id title st = (Ok PNone, st1) /\
  get_user_movies (PStr (py_str user_id)) st1
  = (Ok (PList (ms ++ [new_movie ms md])), st1) /\
  get_movie user_id (PInt (next_id ms)) st1 = (Ok (new_movie ms md), st1).
Proof.
  intros Hst Hu Hn Hud Hms Hok Hf Hmd st1.
  pose proof (stored_ok st _ Hst) as Hdoc.
  destruct (movie_data_of_ok _ _ Hok Hmd) as [Hmdok _].
  assert (Hst1 : stored st1 (with_movie us1 ud us2 ms md)).
  { apply stored_document. now apply json_ok_with_movie. }
  pose proof Hu as Hu'. cbn [is_users] in Hu'.
  apply is_users_app in Hu' as [Hu1 Hud'].
  destruct (is_user_fields _ Hud')
    as (d & uid & name & ms' & [= <-] & _ & _ & Hms' & Hm).
  rewrite Hms in Hms'. injection Hms' as <-.
  repeat split.
  - now apply add_movie_run.
  - unfold get_user_movies, bind. rewrite Hst1. unfold with_movie.
    cbn [py_iter lift].
    rewrite (get_user_movies_loop_first us1 us2 _ _
               (PList (ms ++ [new_movie ms md]))); try assumption;
      [reflexivity| |apply dict_get_set_movies].
    now rewrite has_user_id_set_movies.
  - unfold get_movie, bind. cbn [py_int lift]. rewrite Hst1.
    unfold with_movie. cbn [py_iter].
    rewrite (get_movie_loop_first us1 us2 ms [] _ (new_movie ms md));
      try assumption; try reflexivity.
    + now apply has_movie_other_user.
    + now rewrite has_user_id_set_movies.
    + apply dict_get_set_movies.
    + now apply next_id_fresh.
    + apply has_movie_id_new.
Qed.

Lemma add_movie_then_read_witness :
  let st1 := {| file := document (with_movie [] alice_fields [] [inception]
                                    heat_data);
                writes := 1 |} in
  add_movie sample_omdb (PInt 1) (PStr "Heat") sample_store = (Ok PNone, st1) /\
  get_user_movies (PStr "1") st1
  = (Ok (PList ([inception] ++ [new_movie [inception] heat_data])), st1) /\
  get_movie (PInt 1) (PInt 2) st1 = (Ok (new_movie [inception] heat_data), st1).
Proof.
  refine (add_movie_then_read sample_omdb sample_store [] [] [inception]
            alice_fields heat_data (PInt 1) (PStr "Heat") _ _ _ _ _ _ _ _);
    vm_compute; reflexivity.
Defined.

(** X6.  [add_movie] keeps the ids of a user's movies distinct: when they
    are before the call, they are in the list that the loop builds, whose
    new movie has an id above all of them. *)
Theorem add_movie_ids_distinct (us1 us2 ms : list pyval)
    (ud movie_data : list (string * pyval)) (user_id : string) :
  forallb is_user (us1 ++ PDict ud :: us2) = true ->
  existsb (has_user_id (PStr user_id)) us1 = false ->
  has_user_id (PStr user_id) (PDict ud) = true ->
  dict_get ud "movies" = Some (PList ms) ->
  NoDup (map movie_id_of ms) ->
  let ms' := ms ++ [new_movie ms movie_data] in
  add_movie_loop (us1 ++ PDict ud :: us2) user_id movie_data
  = Ok (us1 ++ PDict (dict_set ud "movies" (PList ms')) :: us2) /\
  NoDup (map movie_id_of ms') /\
  Forall (fun movie => movie_id_of movie < next_id ms) ms.
Proof.
  intros Hu Hn Hud Hms Hnd ms'.
  apply is_users_app in Hu as [Hu1 Hud'].
  destruct (is_user_fields _ Hud')
    as (d & uid & name & ms0 & [= <-] & _ & _ & Hms0 & Hm).
  rewrite Hms in Hms0. injection Hms0 as <-.
  repeat split.
  - now apply add_movie_loop_first.
  - unfold ms'. rewrite map_app. cbn [map]. apply NoDup_snoc; [assumption|].
    unfold new_movie. rewrite (movie_id_of_movie _ (next_id ms)).
    + apply next_id_not_in.
    + rewrite dict_get_set. now rewrite String.eqb_refl.
  - pose proof (max_default0_ge (map movie_id_of ms)) as Hge.
    rewrite Forall_map in Hge. eapply Forall_impl; [|exact Hge].
    intros movie H. cbn beta in H. unfold next_id. lia.
Qed.

Lemma add_movie_ids_distinct_witness :
  NoDup (map movie_id_of ([inception] ++ [new_movie [inception] heat_data])).
Proof.
  refine (proj1 (proj2 (add_movie_ids_distinct [] [] [inception] alice_fields
                          heat_data "1" _ _ _ _ _)));
    try (vm_compute; reflexivity).
  constructor; [intros []|constructor].
Defined.

(** X7.  After [delete_movie] on a user that exists, [get_user_movies]
    with the user's id as a string returns the former movies without those
    of the deleted id, in their order; the other users are as before, and
    [get_movie] no longer finds the id unless a later user of the same id
    has such a movie. *)
Theorem delete_movie_then_read (st : store) (us1 us2 ms : list pyval)
    (ud : list (string * pyval)) (user_id movie_id : pyval) (m : Z) :
  stored st (PList (us1 ++ PDict ud :: us2)) ->
  is_users (PList (us1 ++ PDict ud :: us2)) = true ->
  existsb (has_user_id (PStr (py_str user_id))) us1 = false ->
  has_user_id (PStr (py_str user_id)) (PDict ud) = true ->
  dict_get ud "movies" = Some (PList ms) ->
  py_int movie_id = Ok m ->
  let kept := filter (other_id m) ms in
  let users' := us1 ++ PDict (dict_set ud "movies" (PList kept)) :: us2 in
  let st1 := {| file := document (PList users'); writes := S (writes st) |} in
  delete_movie user_id movie_id st = (Ok PNone, st1) /\
  is_users (PList users') = true /\
  get_user_movies (PStr (py_str user_id)) st1 = (Ok (PList kept), st1) /\
  (existsb (has_movie (py_str user_id) m) us2 = false ->
   get_movie user_id movie_id st1 = (Ok PNone, st1)).
Proof.
  intros Hst Hu Hn Hud Hms Hm kept users' st1.
  pose proof (stored_users_ok _ _ Hst) as Hok. cbn [is_users] in Hu.
  pose proof (spec_delete_movie_first us1 us2 ms ud (py_str user_id) m
                Hn Hud Hms) as Hspec.
  fold kept in Hspec. fold users' in Hspec.
  assert (Hu' : forallb is_user users' = true).
  { rewrite <- Hspec. now apply spec_delete_movie_users. }
  assert (Hst1 : stored st1 (PList users')).
  { apply stored_document. rewrite json_ok_list, <- Hspec.
    now apply spec_delete_movie_ok. }
  pose proof Hu as Hu0. apply is_users_app in Hu0 as [Hu1 Hud'].
  destruct (is_user_fields _ Hud')
    as (d & uid & name & ms0 & [= <-] & _ & _ & Hms0 & Hmv).
  rewrite Hms in Hms0. injection Hms0 as <-.
  repeat split.
  - unfold delete_movie, bind, lift. rewrite Hm, Hst. cbn [py_iter].
    rewrite delete_movie_loop_spec by assumption. now rewrite Hspec.
  - exact Hu'.
  - unfold get_user_movies, bind. rewrite Hst1. cbn [py_iter lift].
    unfold users'.
    rewrite (get_user_movies_loop_first us1 us2 _ _ (PList kept));
      try assumption; [reflexivity| |apply dict_get_set_movies].
    now rewrite has_user_id_set_movies.
  - intros Hn2. unfold get_movie, bind, lift. rewrite Hm, Hst1.
    cbn [py_iter]. rewrite get_movie_loop_none; [reflexivity|exact Hu'|].
    unfold users'. rewrite existsb_app. cbn [existsb].
    rewrite has_movie_other_user by assumption. rewrite Hn2, orb_false_r.
    cbn [orb]. unfold has_movie. cbn [py_getitem].
    rewrite dict_get_set_movies. unfold kept.
    rewrite has_movie_id_filter by assumption. apply andb_false_r.
Qed.

Lemma delete_movie_then_read_witness :
  let st1 := {| file := document
                  (PList [PDict (dict_set alice_fields "movies" (PList []))]);
                writes := 1 |} in
  delete_movie (PInt 1) (PStr "1") sample_store = (Ok PNone, st1) /\
  is_users (PList [PDict (dict_set alice_fields "movies" (PList []))]) = true /\
  get_user_movies (PStr "1") st1 = (Ok (PList []), st1) /\
  (existsb (has_movie "1" 1) [] = false ->
   get_movie (PInt 1) (PStr "1") st1 = (Ok PNone, st1)).
Proof.
  refine (delete_movie_then_read sample_store [] [] [inception] alice_fields
            (PInt 1) (PStr "1") 1 _ _ _ _ _ _);
    vm_compute; reflexivity.
Defined.

(** X8.  After [update_movie] changed fields other than the id of a movie,
    [get_movie] with the same ids returns the merged movie: the document
    written reads back, and the lookup meets the updated movie first. *)
Theorem update_movie_then_get_movie (st : store)
    (us1 us2 ms1 ms2 : list pyval) (ud md upd : list (string * pyval))
    (user_id movie_id : pyval) (m : Z) :
  stored st (PList (us1 ++ PDict ud :: us2)) ->
  is_users (PList (us1 ++ PDict ud :: us2)) = true ->
  py_int movie_id = Ok m ->
  json_ok (PDict upd) = true ->
  dict_get upd "id" = None ->
  existsb (has_movie (py_str user_id) m) us1 = false ->
  has_user_id (PStr (py_str user_id)) (PDict ud) = true ->
  dict_get ud "movies" = Some (PList (ms1 ++ PDict md :: ms2)) ->
  existsb (has_movie_id m) ms1 = false ->
  has_movie_id m (PDict md) = true ->
  let md' := dict_update md upd in
  let ud' := dict_set ud "movies" (PList (ms1 ++ PDict md' :: ms2)) in
  let st1 := {| file := document (PList (us1 ++ PDict ud' :: us2));
                writes := S (writes st) |} in
  update_movie user_id movie_id (PDict upd) st = (Ok PNone, st1) /\
  get_movie user_id movie_id st1 = (Ok (PDict md'), st1).
Proof.
  intros Hst Hu Hm Hupd Hnoid Hn Hud Hms Hn1 Hmd md' ud' st1.
  pose proof (stored_users_ok _ _ Hst) as Hok. cbn [is_users] in Hu.
  pose proof Hu as Hu0. apply is_users_app in Hu0 as [Hu1 Hud'].
  destruct (is_user_fields _ Hud')
    as (d & uid & name & ms0 & [= <-] & _ & _ & Hms0 & Hmv).
  rewrite Hms in Hms0. injection Hms0 as <-.
  apply forallb_is_movie_app in Hmv as (Hmv1 & Hmvd & Hmv2).
  rewrite json_ok_dict in Hupd. apply andb_prop in Hupd as [Hkeys Hvals].
  assert (Hid' : dict_get md' "id" = dict_get md "id").
  { unfold md'. rewrite dict_update_get by assumption. now rewrite Hnoid. }
  assert (Hmd' : has_movie_id m (PDict md') = true).
  { unfold has_movie_id in *. cbn [py_getitem] in *. now rewrite Hid'. }
  rewrite forallb_app in Hok. cbn [forallb] in Hok.
  apply andb_prop in Hok as [Hok1 Hok2]. apply andb_prop in Hok2 as [Hokd Hok2].
  assert (Hst1 : stored st1 (PList (us1 ++ PDict ud' :: us2))).
  { apply stored_document. rewrite json_ok_list, forallb_app. cbn [forallb].
    rewrite Hok1, Hok2, andb_true_r. cbn [andb]. unfold ud'.
    apply dict_set_ok; [assumption|].
    pose proof (dict_get_ok ud "movies" _ Hokd Hms) as Hmsok.
    rewrite json_ok_list, forallb_app in *. cbn [forallb] in *.
    apply andb_prop in Hmsok as [Ha Hb]. apply andb_prop in Hb as [Hb Hc].
    rewrite Ha, Hc, andb_true_r. cbn [andb]. unfold md'.
    now apply dict_update_ok. }
  split.
  - unfold update_movie, bind, lift. rewrite Hm, Hst. cbn [py_iter].
    rewrite (update_movie_loop_first us1 us2 ms1 ms2 ud md upd);
      try assumption. reflexivity.
  - unfold get_movie, bind, lift. rewrite Hm, Hst1. cbn [py_iter].
    rewrite (get_movie_loop_first us1 us2 ms1 ms2 ud' (PDict md'));
      try assumption; [reflexivity| |apply dict_get_set_movies].
    unfold ud'. now rewrite has_user_id_set_movies.
Qed.

Lemma update_movie_then_get_movie_witness :
  let st1 := {| file := document
                  (PList [PDict (dict_set alice_fields "movies"
                     (PList [PDict (dict_update inception_fields rating_9)]))]);
                writes := 1 |} in
  update_movie (PStr "1") (PStr "1") (PDict rating_9) sample_store
  = (Ok PNone, st1) /\
  get_movie (PStr "1") (PStr "1") st1
  = (Ok (PDict (dict_update inception_fields rating_9)), st1).
Proof.
  refine (update_movie_then_get_movie sample_store [] [] [] [] alice_fields
            inception_fields rating_9 (PStr "1") (PStr "1") 1
            _ _ _ _ _ _ _ _ _ _);
    vm_compute; reflexivity.
Defined.

(* ===================================================================== *)
(** * Part 8. The record of a reply, and the routes *)
(* ===================================================================== *)

(** X9.  A reply that has no [imdbRating], or has ["N/A"] there, gives a
    record with the rating [0.0]: [float] is not called on it. *)
Theorem movie_data_of_unrated (d : list (string * pyval))
    (name director y : pyval) (year : Z) :
  dict_get d "Title" = Some name ->
  dict_get d "Director" = Some director ->
  dict_get d "Year" = Some y ->
  py_int y = Ok year ->
  dict_get d "imdbRating" = None \/ dict_get d "imdbRating" = Some (PStr "N/A") ->
  movie_data_of (PDict d) = Ok (unrated_data name director year).
Proof.
  intros Ht Hd Hy Hyear Hr. unfold movie_data_of.
  cbn [py_getitem py_contains]. rewrite Ht, Hd, Hy. cbn [rbind].
  rewrite Hyear. cbn [rbind]. now destruct Hr as [-> | ->].
Qed.

Lemma movie_data_of_unrated_witness :
  movie_data_of (PDict unrated_reply)
  = Ok (unrated_data (PStr "Dune 3") (PStr "Denis Villeneuve") 2026).
Proof.
  apply (movie_data_of_unrated unrated_reply (PStr "Dune 3")
           (PStr "Denis Villeneuve") (PStr "2026") 2026);
    try reflexivity.
  right. reflexivity.
Defined.

(** X10.  When the record cannot be built from a reply that reports a
    movie (a field is missing, the year or the rating is no number),
    [add_movie] raises what the conversion raised before it reads the
    file: nothing is written. *)
Theorem add_movie_bad_reply (omdb : pyval -> pyval) (st : store)
    (user_id movie_title : pyval) (e : exn) :
  found (omdb movie_title) = true ->
  movie_data_of (omdb movie_title) = Raise e ->
  add_movie omdb user_id movie_title st = (Raise e, st).
Proof.
  intros Hf Hmd. unfold add_movie, bind, lift, found in *.
  destruct (py_getitem (omdb movie_title) "Response"); [|discriminate].
  now rewrite Hf, Hmd.
Qed.

Lemma add_movie_bad_reply_witness :
  add_movie other_omdb (PStr "1") (PStr "Dark") sample_store
  = (Raise ValueError, sample_store).
Proof.
  apply (add_movie_bad_reply other_omdb sample_store (PStr "1") (PStr "Dark")
           ValueError);
    vm_compute; reflexivity.
Defined.

(** X11.  The [add_movie] route turns down a title without a rating: for a
    reply with no [imdbRating], or ["N/A"] there, [fetch_movie_info] fails
    on [float] and returns [None], so the page shows that the movie was not
    found and the file is not touched, though [add_movie] itself would
    store the movie with the rating [0.0]. *)
Theorem add_movie_route_unrated (omdb : pyval -> pyval) (st : store)
    (user_id : pyval) (form : list (string * pyval)) (title : string)
    (d : list (string * pyval)) (name director y : pyval) (year : Z) :
  App.form_get form "name" = PStr title ->
  omdb (PStr title) = PDict d ->
  found (PDict d) = true ->
  dict_get d "Title" = Some name ->
  dict_get d "Director" = Some director ->
  dict_get d "Year" = Some y ->
  py_int y = Ok year ->
  dict_get d "imdbRating" = None \/ dict_get d "imdbRating" = Some (PStr "N/A") ->
  App.fetch_movie_info omdb (PStr title) = Ok PNone /\
  App.add_movie omdb user_id form st
  = (Ok (App.Render "add_movie.html" (Some (PStr "Movie not found on OMDB"))),
     st) /\
  movie_data_of (omdb (PStr title)) = Ok (unrated_data name director year).
Proof.
  intros Hform Hreply Hf Ht Hd Hy Hyear Hr.
  assert (Hfetch : App.fetch_movie_info omdb (PStr title) = Ok PNone).
  { unfold App.fetch_movie_info. cbn [rbind]. rewrite Hreply.
    unfold found in Hf. cbn [py_getitem py_get] in *.
    destruct (dict_get d "Response") as [response|]; [|discriminate].
    cbn [rbind]. rewrite Hf, Ht, Hd, Hy. cbn [rbind]. rewrite Hyear.
    cbn [rbind]. now destruct Hr as [-> | ->]. }
  repeat split.
  - exact Hfetch.
  - unfold App.add_movie, bind, lift. rewrite Hform, Hfetch. reflexivity.
  - rewrite Hreply. now apply movie_data_of_unrated with (y := y).
Qed.

Lemma add_movie_route_unrated_witness :
  App.fetch_movie_info other_omdb (PStr "Dune 3") = Ok PNone /\
  App.add_movie other_omdb (PStr "1") [("name", PStr "Dune 3")] sample_store
  = (Ok (App.Render "add_movie.html" (Some (PStr "Movie not found on OMDB"))),
     sample_store) /\
  movie_data_of (other_omdb (PStr "Dune 3"))
  = Ok (unrated_data (PStr "Dune 3") (PStr "Denis Villeneuve") 2026).
Proof.
  apply (add_movie_route_unrated other_omdb sample_store (PStr "1")
           [("name", PStr "Dune 3")] "Dune 3" unrated_reply (PStr "Dune 3")
           (PStr "Denis Villeneuve") (PStr "2026") 2026);
    try reflexivity.
  right. reflexivity.
Defined.

Section Routes.

(** The [add_movie] route for a title that the lookup accepts and a user
    id that no user has. *)
Lemma add_movie_route_absent (omdb : pyval -> pyval) (st : store)
    (users : list pyval) (user_id : pyval) (form : list (string * pyval))
    (movie_data : pyval) (md : list (string * pyval)) :
  stored st (PList users) ->
  forallb is_user users = true ->
  existsb (has_user_id (PStr (py_str user_id))) users = false ->
  App.fetch_movie_info omdb (App.form_get form "name") = Ok movie_data ->
  py_truth movie_data = true ->
  found (omdb (App.form_get form "name")) = true ->
  movie_data_of (omdb (App.form_get form "name")) = Ok md ->
  App.add_movie omdb user_id form st
  = (Ok (App.Redirect "user_movies" user_id),
     {| file := document (PList users); writes := S (writes st) |}).
Proof.
  intros Hst Hu Hn Hfetch Htrue Hf Hmd.
  unfold App.add_movie, bind, lift. rewrite Hfetch, Htrue.
  unfold add_movie, bind, lift, found in *.
  destruct (py_getitem (omdb (App.form_get form "name")) "Response");
    [|discriminate].
  rewrite Hf, Hmd, Hst. cbn [py_iter].
  now rewrite add_movie_loop_absent.
Qed.

End Routes.

(** X12.  The [add_movie] route redirects to the page of the user also when
    no user has that id: [add_movie] returns [None] without adding
    anything, the document is written back as it was, and the response is
    that of a success. *)
Theorem add_movie_route_unknown_user (omdb : pyval -> pyval) (st : store)
    (users : list pyval) (user_id : pyval) (form : list (string * pyval))
    (movie_data : pyval) (md : list (string * pyval)) :
  stored st (PList users) ->
  is_users (PList users) = true ->
  existsb (has_user_id (PStr (py_str user_id))) users = false ->
  App.fetch_movie_info omdb (App.form_get form "name") = Ok movie_data ->
  py_truth movie_data = true ->
  found (omdb (App.form_get form "name")) = true ->
  movie_data_of (omdb (App.form_get form "name")) = Ok md ->
  App.add_movie omdb user_id form st
  = (Ok (App.Redirect "user_movies" user_id),
     {| file := document (PList users); writes := S (writes st) |}).
Proof.
  intros Hst Hu. cbn [is_users] in Hu. now apply add_movie_route_absent.
Qed.

Lemma add_movie_route_unknown_user_witness :
  App.add_movie sample_omdb (PStr "7") [("name", PStr "Heat")] sample_store
  = (Ok (App.Redirect "user_movies" (PStr "7")),
     {| file := document (PList [alice]); writes := 1 |}).
Proof.
  apply (add_movie_route_unknown_user sample_omdb sample_store [alice]
           (PStr "7") [("name", PStr "Heat")] (PDict heat_data) heat_data);
    vm_compute; reflexivity.
Defined.

(** X13.  The [update_movie] route never changes the name of a movie: it
    passes the name of the form under the key [title], so the stored movie
    keeps its [name] and its [id] and gets a field [title]; the director,
    the year and the rating are those of the form. *)
Theorem update_movie_route_title (st : store)
    (us1 us2 ms1 ms2 : list pyval) (ud md form : list (string * pyval))
    (user_id movie_id : pyval) (m year : Z) (rating : pyfloat) :
  stored st (PList (us1 ++ PDict ud :: us2)) ->
  is_users (PList (us1 ++ PDict ud :: us2)) = true ->
  py_int movie_id = Ok m ->
  existsb (has_movie (py_str user_id) m) us1 = false ->
  has_user_id (PStr (py_str user_id)) (PDict ud) = true ->
  dict_get ud "movies" = Some (PList (ms1 ++ PDict md :: ms2)) ->
  existsb (has_movie_id m) ms1 = false ->
  has_movie_id m (PDict md) = true ->
  py_int (App.form_get form "year") = Ok year ->
  py_float (App.form_get form "rating") = Ok rating ->
  let md' := dict_update md (form_update form year rating) in
  let ud' := dict_set ud "movies" (PList (ms1 ++ PDict md' :: ms2)) in
  App.update_movie user_id movie_id form st
  = (Ok (App.Redirect "user_movies" user_id),
     {| file := document (PList (us1 ++ PDict ud' :: us2));
        writes := S (writes st) |}) /\
  dict_get md' "name" = dict_get md "name" /\
  dict_get md' "id" = dict_get md "id" /\
  dict_get md' "title" = Some (App.form_get form "name") /\
  dict_get md' "director" = Some (App.form_get form "director") /\
  dict_get md' "year" = Some (PInt year) /\
  dict_get md' "rating" = Some (PFloat rating).
Proof.
  intros Hst Hu Hm Hn Hud Hms Hn1 Hmd Hyear Hrating md' ud'.
  cbn [is_users] in Hu. pose proof Hu as Hu0.
  apply is_users_app in Hu0 as [Hu1 Hud'].
  destruct (is_user_fields _ Hud')
    as (d & uid & name & ms0 & [= <-] & _ & _ & Hms0 & Hmv).
  rewrite Hms in Hms0. injection Hms0 as <-.
  apply forallb_is_movie_app in Hmv as (Hmv1 & Hmvd & Hmv2).
  split.
  - unfold App.update_movie, bind.
    assert (Hget : get_movie user_id movie_id st = (Ok (PDict md), st)).
    { unfold get_movie, bind, lift. rewrite Hm, Hst. cbn [py_iter].
      now rewrite (get_movie_loop_first us1 us2 ms1 ms2 ud (PDict md)). }
    rewrite Hget. unfold lift at 1 2. rewrite Hyear, Hrating.
    unfold update_movie, bind, lift. rewrite Hm, Hst. cbn [py_iter].
    fold (form_update form year rating).
    rewrite (update_movie_loop_first us1 us2 ms1 ms2 ud md
               (form_update form year rating)); try assumption.
    reflexivity.
  - unfold md'. rewrite !dict_update_get by reflexivity.
    now repeat split.
Qed.

Lemma update_movie_route_title_witness :
  let md' := dict_update inception_fields
               (form_update sample_form 2010 (FDec false [d9] 1)) in
  App.update_movie (PStr "1") (PStr "1") sample_form sample_store
  = (Ok (App.Redirect "user_movies" (PStr "1")),
     {| file := document
          (PList [PDict (dict_set alice_fields "movies" (PList [PDict md']))]);
        writes := 1 |}) /\
  dict_get md' "name" = Some (PStr "Inception") /\
  dict_get md' "title" = Some (PStr "Inception (2010)").
Proof.
  pose proof (update_movie_route_title sample_store [] [] [] [] alice_fields
                inception_fields sample_form (PStr "1") (PStr "1") 1 2010
                (FDec false [d9] 1) sample_stored eq_refl eq_refl eq_refl
                eq_refl eq_refl eq_refl eq_refl eq_refl eq_refl) as H.
  cbv zeta in H. destruct H as (H1 & H2 & _ & H4 & _).
  intros md'. repeat split; assumption.
Defined.

(** X14.  A form of the [update_movie] route whose year or rating is
    missing or is no number makes the route raise what the conversion
    raised, after the movie was looked up and before anything is written. *)
Theorem update_movie_route_bad_form (st : store) (user_id movie_id movie : pyval)
    (form : list (string * pyval)) (e : exn) :
  get_movie user_id movie_id st = (Ok movie, st) ->
  py_int (App.form_get form "year") = Raise e \/
  (exists year, py_int (App.form_get form "year") = Ok year /\
                py_float (App.form_get form "rating") = Raise e) ->
  App.update_movie user_id movie_id form st = (Raise e, st).
Proof.
  intros Hget H. unfold App.update_movie, bind. rewrite Hget.
  unfold lift at 1 2. destruct H as [-> | (year & -> & ->)]; reflexivity.
Qed.

Lemma update_movie_route_bad_form_witness :
  App.update_movie (PStr "1") (PStr "1") [("name", PStr "Inception")]
    sample_store
  = (Raise TypeError, sample_store).
Proof.
  apply (update_movie_route_bad_form sample_store (PStr "1") (PStr "1")
           inception [("name", PStr "Inception")] TypeError).
  - vm_compute. reflexivity.
  - left. vm_compute. reflexivity.
Defined.

(** X16.  A user made through the [add_user] route is redirected to the
    page of the user's name, not of the new id.  Unless that name is the
    id of a user, a movie added from that page goes to nobody: the route
    redirects again, and the document still holds the new user without
    movies. *)
Theorem add_user_route_then_add_movie (omdb : pyval -> pyval) (st : store)
    (users : list pyval) (name : string) (form : list (string * pyval))
    (movie_data : pyval) (md : list (string * pyval)) :
  stored st (PList users) ->
  is_users (PList users) = true ->
  existsb (has_name (PStr name)) users = false ->
  existsb (has_user_id (PStr name)) users = false ->
  has_user_id (PStr name) (new_user users (PStr name)) = false ->
  App.fetch_movie_info omdb (App.form_get form "name") = Ok movie_data ->
  py_truth movie_data = true ->
  found (omdb (App.form_get form "name")) = true ->
  movie_data_of (omdb (App.form_get form "name")) = Ok md ->
  let users' := users ++ [new_user users (PStr name)] in
  let st1 := {| file := document (PList users'); writes := S (writes st) |} in
  let st2 := {| file := document (PList users');
                writes := S (S (writes st)) |} in
  App.add_user (PStr name) st
  = (Ok (App.Redirect "user_movies" (PStr name)), st1) /\
  App.add_movie omdb (PStr name) form st1
  = (Ok (App.Redirect "user_movies" (PStr name)), st2).
Proof.
  intros Hst Hu Hname Hid Hnew Hfetch Htrue Hf Hmd users' st1 st2.
  destruct (new_user_stored st users name (S (writes st)) Hst Hu)
    as [Hst1 Hu1].
  cbn [is_users] in *. split.
  - unfold App.add_user, bind.
    rewrite (add_user_run st users (PStr name)) by assumption. reflexivity.
  - apply (add_movie_route_absent omdb st1 users' (PStr name) form
             movie_data md); try assumption.
    unfold users'. rewrite existsb_app_last. cbn [py_str].
    now rewrite Hid, Hnew.
Qed.

Lemma add_user_route_then_add_movie_witness :
  let users' := [alice] ++ [new_user [alice] (PStr "Bob")] in
  App.add_user (PStr "Bob") sample_store
  = (Ok (App.Redirect "user_movies" (PStr "Bob")),
     {| file := document (PList users'); writes := 1 |}) /\
  App.add_movie sample_omdb (PStr "Bob") [("name", PStr "Heat")]
    {| file := document (PList users'); writes := 1 |}
  = (Ok (App.Redirect "user_movies" (PStr "Bob")),
     {| file := document (PList users'); writes := 2 |}).
Proof.
  apply (add_user_route_then_add_movie sample_omdb sample_store [alice] "Bob"
           [("name", PStr "Heat")] (PDict heat_data) heat_data);
    vm_compute; reflexivity.
Defined.

(* ===================================================================== *)
(** * Part 9. Ids as integers and as text *)
(* ===================================================================== *)

Section IdsAsText.

Lemma lstrip_no_space (s : string) :
  Forall (fun c => is_py_space c = false) (list_ascii_of_string s) ->
  lstrip s = s.
Proof.
  destruct s as [|c s]; [reflexivity|]. cbn [list_ascii_of_string lstrip].
  intros H. inversion H as [|x l Hc Hl]; subst. now rewrite Hc.
Qed.

Lemma strip_no_space (s : string) :
  Forall (fun c => is_py_space c = false) (list_ascii_of_string s) ->
  strip s = s.
Proof.
  intros H. unfold strip. rewrite (lstrip_no_space s H).
  rewrite lstrip_no_space.
  - unfold string_rev. rewrite list_ascii_of_string_of_list_ascii.
    rewrite rev_involutive. apply string_of_list_ascii_of_string.
  - unfold string_rev. rewrite list_ascii_of_string_of_list_ascii.
    now apply Forall_rev.
Qed.

Lemma list_ascii_of_digits (ds : list digits) :
  list_ascii_of_string (print_digits ds) = map digit_char ds.
Proof.
  induction ds as [|d ds IH]; [reflexivity|].
  cbn [print_digits list_ascii_of_string map]. now rewrite IH.
Qed.

Lemma int_repr_no_space (z : Z) :
  Forall (fun c => is_py_space c = false) (list_ascii_of_string (int_repr z)).
Proof.
  rewrite int_repr_text.
  assert (H : Forall (fun c => is_py_space c = false)
                (list_ascii_of_string (print_digits (digits_of_Z z)))).
  { rewrite list_ascii_of_digits. apply Forall_map, Forall_forall.
    intros d _. now destruct d. }
  destruct (z <? 0); cbn [sign_text String.append list_ascii_of_string].
  - constructor; [reflexivity|assumption].
  - assumption.
Qed.

Lemma scan_digitpart_print (ds : list digits) :
  scan_digitpart (print_digits ds) = (ds, EmptyString).
Proof.
  induction ds as [|d ds IH]; [reflexivity|].
  cbn [print_digits scan_digitpart]. now rewrite char_digit_char, IH.
Qed.

Lemma scan_sign_digits (d : digits) (ds : list digits) :
  scan_sign (print_digits (d :: ds)) = (false, print_digits (d :: ds)).
Proof. now destruct d. Qed.

(** [int(str(z))] is [z]. *)
Lemma int_of_str_repr (z : Z) : int_of_str (int_repr z) = Ok z.
Proof.
  unfold int_of_str. rewrite (strip_no_space _ (int_repr_no_space z)).
  rewrite int_repr_text. pose proof (Z_of_digits_of_Z z) as Hz.
  unfold digits_of_Z in *.
  destruct (digits_of_N_ok (Z.abs_N z)) as [E | (d & ds & E & _)];
    rewrite E in *.
  - destruct (z <? 0); cbn in *; now rewrite Hz.
  - destruct (z <? 0); cbn [sign_text String.append].
    + cbn [scan_sign]. rewrite scan_digitpart_print. cbn [print_digits].
      rewrite is_digit_char. now rewrite Hz.
    + rewrite scan_sign_digits, scan_digitpart_print. cbn [print_digits].
      rewrite is_digit_char. now rewrite Hz.
Qed.

End IdsAsText.

(** X15.  [get_movie], [update_movie] and [delete_movie] take the ids as
    integers or as their decimal text alike, and [add_movie] the user id:
    the user id goes through [str] and the movie id through [int], so both
    forms run the same lookup. *)
Theorem ids_as_text (st : store) (u m : Z) (x : pyval)
    (omdb : pyval -> pyval) :
  get_movie (PStr (int_repr u)) (PStr (int_repr m)) st
  = get_movie (PInt u) (PInt m) st /\
  update_movie (PStr (int_repr u)) (PStr (int_repr m)) x st
  = update_movie (PInt u) (PInt m) x st /\
  delete_movie (PStr (int_repr u)) (PStr (int_repr m)) st
  = delete_movie (PInt u) (PInt m) st /\
  add_movie omdb (PStr (int_repr u)) x st = add_movie omdb (PInt u) x st.
Proof.
  unfold get_movie, update_movie, delete_movie, add_movie, bind, lift.
  cbn [py_int py_str py_repr]. rewrite int_of_str_repr. now repeat split.
Qed.
